(** * Availability reconciliation of the calendar plugin

    A shallow embedding of [server/mscalendar/availability.go]: the periodic
    status-sync job ([SyncAll], [syncUsers], [setUserStatuses]), the presence
    reconciliation ([setStatusFromCalendarView], [setStatusOrAskUser]), the
    custom-status reconciliation ([setCustomStatusFromCalendarView]) and the
    reminder delivery ([notifyUpcomingEvents]).

    The store, the chat platform's plugin API, the poster, the remote calendar
    client and the clock are interfaces in the Go code.  They are kept
    abstract here: a type class of operations over an abstract world, and a
    trace that records every call made through them, in order.  *)

From Stdlib Require Import ZArith Lia.
From stdpp Require Import base tactics option list sorting strings pretty gmap.

Local Open Scope string_scope.
Local Open Scope Z_scope.
Local Open Scope list_scope.

(** ** Data model *)

(** Go's [error], carried by its message. [None] is the nil error. *)
Definition error := string.

Inductive result (A : Type) : Type :=
  | Ok (a : A)
  | Err (e : error).
Arguments Ok {A} a.
Arguments Err {A} e.

(** [errors.Wrap(err, msg)] and [errors.Wrapf]: the message, a colon, the cause. *)
Definition Wrap (e : error) (msg : string) : error := msg +:+ ": " +:+ e.

(** [remote.Event]. [Start] and [End] hold the instant that [Start.Time()] and
    [End.Time()] return, in nanoseconds since the Unix epoch. *)
Record Event := mkEvent {
  ICalUID : string;
  Start : Z;
  End : Z;
  ShowAs : string;
  IsCancelled : bool;
  Attendees : list string
}.

(** [store.Settings], the fields the job reads. *)
Record Settings := mkSettings {
  UpdateStatusFromOptions : string;
  GetConfirmation : bool;
  ReceiveReminders : bool;
  SetCustomStatus : bool
}.

(** [store.User]; [RemoteID] is [user.Remote.ID]. *)
Record User := mkUser {
  MattermostUserID : string;
  RemoteID : string;
  UserSettings : Settings;
  LastStatus : string;
  ActiveEvents : list string;
  IsCustomStatusSet : bool
}.

Definition withLastStatus (u : User) (s : string) : User :=
  mkUser (MattermostUserID u) (RemoteID u) (UserSettings u) s
         (ActiveEvents u) (IsCustomStatusSet u).

(** [model.Status]. *)
Record Status := mkStatus {
  StatusUserId : string;
  StatusValue : string;
  Manual : bool
}.

(** [model.CustomStatus]; [ExpiresAt] is an instant in nanoseconds. *)
Record CustomStatus := mkCustomStatus {
  Emoji : string;
  Text : string;
  ExpiresAt : Z;
  Duration : string
}.

(** [remote.ViewCalendarResponse]; [ViewError] is the message of [Error], if any. *)
Record ViewCalendarResponse := mkView {
  RemoteUserID : string;
  Events : list Event;
  ViewError : option string
}.

(** [remote.ViewCalendarParams]. *)
Record ViewCalendarParams := mkParams {
  ParamRemoteUserID : string;
  StartTime : Z;
  EndTime : Z
}.

(** [StatusSyncJobSummary]. *)
Record StatusSyncJobSummary := mkSummary {
  NumberOfUsersFailedStatusChanged : nat;
  NumberOfUsersStatusChanged : nat;
  NumberOfUsersProcessed : nat
}.

(** The presence values of [mattermost-server/model]. *)
Definition StatusOffline : string := "offline".
Definition StatusAway : string := "away".
Definition StatusDnd : string := "dnd".
Definition StatusOnline : string := "online".

(** ** Time *)

Definition minute : Z := 60 * 1000000000.

Definition calendarViewTimeWindowSize : Z := 10 * minute.
Definition StatusSyncJobInterval : Z := 5 * minute.
Definition upcomingEventNotificationTime : Z := 10 * minute.
Definition upcomingEventNotificationWindow : Z := (StatusSyncJobInterval * 11) / 10.
Definition logTruncateMsg : string :=
  "We've truncated the logs due to too many messages".
Definition logTruncateLimit : nat := 5.

(** [Time.UnixMicro]: whole microseconds since the epoch, rounded down. *)
Definition UnixMicro (t : Z) : Z := t / 1000.

Definition minDuration : Z := - 2 ^ 63.
Definition maxDuration : Z := 2 ^ 63 - 1.

(** [Time.Sub]: a [time.Duration] is a signed 64-bit count of nanoseconds, and
    [Sub] returns the largest or smallest duration when the difference does
    not fit. *)
Definition Sub (t u : Z) : Z :=
  let d := t - u in
  if d <? minDuration then minDuration
  else if maxDuration <? d then maxDuration
  else d.

(** ** What the code takes from outside this file *)

(** The Go library: [sort.Slice] and [Time.Format].  [sort.Slice] promises a
    sorted rearrangement and no stability, so the embedding fixes no
    algorithm: any function with these two laws stands for it. *)
Class GoRuntime := {
  sortSlice : (Event → Event → bool) → list Event → list Event;
  sortSlice_Permutation : ∀ less l, sortSlice less l ≡ₚ l;
  sortSlice_sorted : ∀ (key : Event → Z) l,
    StronglySorted (λ a b, key a ≤ key b) (sortSlice (λ a b, key a <? key b) l);
  (** [t.UTC().Format(time.RFC3339)] *)
  formatRFC3339 : Z → string
}.

(** Constants and pure helpers of the plugin that are declared in other
    files: the option values of the status setting, [utils.JSONBlock], the
    URL of the confirmation action ([PluginURLPath], [PathPostAction] and
    [PathConfirmStatusChange] put together) and [views.RenderUpcomingEvent]. *)
Class Plugin := {
  NotSetStatusOption : string;
  AwayStatusOption : string;
  JSONBlock : list ViewCalendarResponse → string;
  confirmStatusChangeURL : string;
  RenderUpcomingEvent : Event → string → result string
}.

(** What [views.RenderStatusChangeNotificationView] is given. *)
Record StatusChangeNotification := mkNotification {
  NotifiedEvents : list Event;
  NotifiedStatus : string;
  NotifiedURL : string
}.

(** [model.User], as far as [GetCustomStatus] reads it. *)
Record MattermostUser := mkMattermostUser {
  GetCustomStatus : option CustomStatus
}.

(** [store.UserShort], an entry of the user index. *)
Record UserShort := mkUserShort {
  ShortMattermostUserID : string;
  ShortRemoteID : string
}.

Inductive FilterKind := withClient | withSuperuserClient.

(** The collaborators: store, plugin API, poster, remote client, clock.  Each
    operation may change the world and may fail. *)
Class Collaborators (W : Type) := {
  applyFilter : FilterKind → W → option error * W;
  loadUserIndex : W → result (list UserShort) * W;
  loadUserFromIndex : string → W → result UserShort * W;
  loadUser : string → W → result User * W;
  storeUser : User → W → option error * W;
  storeUserActiveEvents : string → list string → W → option error * W;
  storeUserCustomStatusUpdates : string → bool → W → option error * W;
  getMattermostUserStatusesByIds : list string → W → result (list Status) * W;
  updateMattermostUserStatus : string → string → W → option error * W;
  getMattermostUser : string → W → result MattermostUser * W;
  removeMattermostUserCustomStatus : string → W → option error * W;
  updateMattermostUserCustomStatus : string → CustomStatus → W → option error * W;
  dmWithAttachments : string → StatusChangeNotification → W → option error * W;
  dm : string → string → W → option error * W;
  getTimezoneByID : string → W → result string * W;
  doBatchViewCalendarRequests :
    list ViewCalendarParams → W → result (list ViewCalendarResponse) * W;
  timeNow : W → Z * W
}.

(** The calls the job makes, as the trace records them. *)
Inductive Call :=
  | CallFilter (k : FilterKind)
  | CallLoadUserIndex
  | CallLoadUserFromIndex (id : string)
  | CallLoadUser (id : string)
  | CallStoreUser (u : User)
  | CallStoreUserActiveEvents (id : string) (hashes : list string)
  | CallStoreUserCustomStatusUpdates (id : string) (isSet : bool)
  | CallGetMattermostUserStatusesByIds (ids : list string)
  | CallUpdateMattermostUserStatus (id status : string)
  | CallGetMattermostUser (id : string)
  | CallRemoveMattermostUserCustomStatus (id : string)
  | CallUpdateMattermostUserCustomStatus (id : string) (cs : CustomStatus)
  | CallDMWithAttachments (id : string) (n : StatusChangeNotification)
  | CallDM (id message : string)
  | CallGetTimezoneByID (id : string)
  | CallDoBatchViewCalendarRequests (params : list ViewCalendarParams)
  | CallWarnf (message : string).

(** ** The monad: a world threaded through, a trace written out *)

Definition M (W A : Type) : Type := W → A * list Call * W.

#[global] Instance M_ret {W} : MRet (M W) := λ A a w, (a, [], w).

#[global] Instance M_bind {W} : MBind (M W) := λ A B f m w,
  let '(a, c1, w1) := m w in
  let '(b, c2, w2) := f a w1 in
  (b, c1 ++ c2, w2).

(** One call through an interface: logged, then performed. *)
Definition call {W A} (c : Call) (op : W → A * W) : M W A :=
  λ w, let '(a, w1) := op w in (a, [c], w1).

(** [m.Logger.Warnf]. *)
Definition Warnf {W} (message : string) : M W unit :=
  λ w, (tt, [CallWarnf message], w).

Definition traceOf {A W} (r : A * list Call * W) : list Call := snd (fst r).
Definition valueOf {A W} (r : A * list Call * W) : A := fst (fst r).
Definition worldOf {A W} (r : A * list Call * W) : W := snd r.

(** ** The job *)

Section Availability.
Context `{GoRuntime} `{Plugin} {W : Type} `{Collaborators W}.

(** *** The interfaces, as the code calls them *)

Definition Filter (k : FilterKind) : M W (option error) :=
  call (CallFilter k) (applyFilter k).
Definition Store_LoadUserIndex : M W (result (list UserShort)) :=
  call CallLoadUserIndex loadUserIndex.
Definition Store_LoadUserFromIndex (id : string) : M W (result UserShort) :=
  call (CallLoadUserFromIndex id) (loadUserFromIndex id).
Definition Store_LoadUser (id : string) : M W (result User) :=
  call (CallLoadUser id) (loadUser id).
Definition Store_StoreUser (u : User) : M W (option error) :=
  call (CallStoreUser u) (storeUser u).
Definition Store_StoreUserActiveEvents (id : string) (hashes : list string)
  : M W (option error) :=
  call (CallStoreUserActiveEvents id hashes) (storeUserActiveEvents id hashes).
Definition Store_StoreUserCustomStatusUpdates (id : string) (isSet : bool)
  : M W (option error) :=
  call (CallStoreUserCustomStatusUpdates id isSet)
       (storeUserCustomStatusUpdates id isSet).
Definition PluginAPI_GetMattermostUserStatusesByIds (ids : list string)
  : M W (result (list Status)) :=
  call (CallGetMattermostUserStatusesByIds ids) (getMattermostUserStatusesByIds ids).
Definition PluginAPI_UpdateMattermostUserStatus (id status : string)
  : M W (option error) :=
  call (CallUpdateMattermostUserStatus id status) (updateMattermostUserStatus id status).
Definition PluginAPI_GetMattermostUser (id : string) : M W (result MattermostUser) :=
  call (CallGetMattermostUser id) (getMattermostUser id).
Definition PluginAPI_RemoveMattermostUserCustomStatus (id : string)
  : M W (option error) :=
  call (CallRemoveMattermostUserCustomStatus id) (removeMattermostUserCustomStatus id).
Definition PluginAPI_UpdateMattermostUserCustomStatus (id : string) (cs : CustomStatus)
  : M W (option error) :=
  call (CallUpdateMattermostUserCustomStatus id cs)
       (updateMattermostUserCustomStatus id cs).
Definition Poster_DMWithAttachments (id : string) (n : StatusChangeNotification)
  : M W (option error) :=
  call (CallDMWithAttachments id n) (dmWithAttachments id n).
Definition Poster_DM (id message : string) : M W (option error) :=
  call (CallDM id message) (dm id message).
Definition GetTimezoneByID (id : string) : M W (result string) :=
  call (CallGetTimezoneByID id) (getTimezoneByID id).
Definition client_DoBatchViewCalendarRequests (params : list ViewCalendarParams)
  : M W (result (list ViewCalendarResponse)) :=
  call (CallDoBatchViewCalendarRequests params) (doBatchViewCalendarRequests params).
(** [time.Now()]: a reading of the clock, not a call the trace keeps. *)
Definition time_Now : M W Z :=
  λ w, let '(t, w1) := timeNow w in (t, [], w1).

(** The logging idiom of the loops: the first [logTruncateLimit] warnings are
    written, then one notice that the rest is left out.  The caller counts. *)
Definition warnTruncated (numberOfLogs : nat) (message : string) : M W unit :=
  if (numberOfLogs <? logTruncateLimit)%nat then Warnf message
  else if (numberOfLogs =? logTruncateLimit)%nat then Warnf logTruncateMsg
  else mret tt.

(** *** Events *)

Definition filterBusyEvents (events : list Event) : list Event :=
  List.filter (λ e, (ShowAs e =? "busy")%string) events.

(** The loop of [checkOverlappingEvents] over the sorted slice: does some
    event end after the next one starts. *)
Fixpoint overlapsNext (events : list Event) : bool :=
  match events with
  | a :: (b :: _) as rest =>
      if UnixMicro (End a) >? UnixMicro (Start b) then true else overlapsNext rest
  | _ => false
  end.

(** [checkOverlappingEvents] sorts the slice it is given in place; the
    caller goes on with the sorted slice, which is returned here. *)
Definition checkOverlappingEvents (events : list Event) : bool * list Event :=
  if (length events <=? 1)%nat then (false, events)
  else
    let events := sortSlice (λ a b, UnixMicro (Start a) <? UnixMicro (Start b)) events in
    (overlapsNext events, events).

(** The fingerprint of an event: [fmt.Sprintf("%s %s", ICalUID, start)]. *)
Definition eventHash (e : Event) : string :=
  ICalUID e +:+ " " +:+ formatRFC3339 (Start e).

(** The loop that builds [remoteHashes]: cancelled events are skipped. *)
Fixpoint remoteHashesOf (events : list Event) : list string :=
  match events with
  | [] => []
  | e :: rest =>
      if IsCancelled e then remoteHashesOf rest
      else eventHash e :: remoteHashesOf rest
  end.

(** The inner loop over [user.ActiveEvents]. *)
Fixpoint foundIn (r : string) (activeEvents : list string) : bool :=
  match activeEvents with
  | [] => false
  | loc :: rest => if (loc =? r)%string then true else foundIn r rest
  end.

(** The outer loop over [remoteHashes]. *)
Fixpoint newEventExists (remoteHashes activeEvents : list string) : bool :=
  match remoteHashes with
  | [] => false
  | r :: rest =>
      if negb (foundIn r activeEvents) then true
      else newEventExists rest activeEvents
  end.

(** *** Presence *)

(** What the reconciliation functions return: the message, whether the
    status was changed, the error. *)
Record Reply := mkReply {
  message : string;
  isStatusChanged : bool;
  failure : option error
}.

Definition busyStatusOf (user : User) : string :=
  if (UpdateStatusFromOptions (UserSettings user) =? AwayStatusOption)%string
  then StatusAway else StatusDnd.

(** [setStatusOrAskUser]; the user record is changed through the pointer,
    so the changed record is returned with the error. *)
Definition setStatusOrAskUser (user : User) (currentStatus : Status)
    (events : list Event) (isFree : bool) : M W (User * option error) :=
  let toSet := StatusOnline in
  let '(toSet, user) :=
    if isFree && negb (LastStatus user =? "")%string
    then (LastStatus user, withLastStatus user "")
    else (toSet, user) in
  let '(toSet, user) :=
    if negb isFree then
      let toSet :=
        if (UpdateStatusFromOptions (UserSettings user) =? AwayStatusOption)%string
        then StatusAway else StatusDnd in
      let user :=
        if negb (GetConfirmation (UserSettings user)) then
          let user := withLastStatus user "" in
          if Manual currentStatus
          then withLastStatus user (StatusValue currentStatus)
          else user
        else user in
      (toSet, user)
    else (toSet, user) in
  err ← Store_StoreUser user;
  match err with
  | Some e => mret (user, Some e)
  | None =>
      if negb (GetConfirmation (UserSettings user)) then
        appErr ← PluginAPI_UpdateMattermostUserStatus (MattermostUserID user) toSet;
        mret (user, appErr)
      else
        err ← Poster_DMWithAttachments (MattermostUserID user)
                (mkNotification events toSet confirmStatusChangeURL);
        mret (user, err)
  end.

(** The end of four branches of [setStatusFromCalendarView]: store the
    active events, then answer with the message or with the wrapped error. *)
Definition storeActiveEventsThen (user : User) (hashes : list string)
    (msg : string) (changed : bool) : M W (Reply * User) :=
  err ← Store_StoreUserActiveEvents (MattermostUserID user) hashes;
  match err with
  | Some e =>
      mret (mkReply "" changed
              (Some (Wrap e ("error in storing active events for user "
                             +:+ MattermostUserID user))), user)
  | None => mret (mkReply msg changed None, user)
  end.

Definition errorSettingStatus (user : User) (e : error) : Reply :=
  mkReply "" false
    (Some (Wrap e ("error in setting user status for user " +:+ MattermostUserID user))).

Definition setStatusFromCalendarView (user : User) (status : Status)
    (res : ViewCalendarResponse) : M W (Reply * User) :=
  let currentStatus := StatusValue status in
  if (UpdateStatusFromOptions (UserSettings user) =? "")%string then
    mret (mkReply "No value set from options to update status" false None, user)
  else if (currentStatus =? StatusOffline)%string
          && negb (GetConfirmation (UserSettings user)) then
    mret (mkReply
      "User offline and does not want status change confirmations. No status change"
      false None, user)
  else
    let events := filterBusyEvents (Events res) in
    let busyStatus := busyStatusOf user in
    match ActiveEvents user, events with
    | [], [] =>
        mret (mkReply "No events in local or remote. No status change." false None, user)
    | _ :: _, [] =>
        if (currentStatus =? busyStatus)%string then
          let message :=
            if negb (LastStatus user =? "")%string
            then "User is no longer busy in calendar. Set status to previous status ("
                 +:+ LastStatus user +:+ ")"
            else "User is no longer busy in calendar. Set status to online." in
          '(user, err) ← setStatusOrAskUser user status events true;
          match err with
          | Some e => mret (errorSettingStatus user e, user)
          | None => storeActiveEventsThen user [] message true
          end
        else
          storeActiveEventsThen user []
            ("User is no longer busy in calendar, but is not set to busy ("
             +:+ busyStatus +:+ "). No status change.") false
    | activeEvents, first :: _ =>
        let '(overlapping, events) := checkOverlappingEvents events in
        if overlapping then
          mret (mkReply "Overlapping events, not updating status" false None, user)
        else if (length (Attendees (hd first events)) <? 1)%nat then
          (* [events[0]]: the slice is not empty here, [hd] never falls back *)
          mret (mkReply "No attendee present, not updating status" false None, user)
        else
          let remoteHashes := remoteHashesOf events in
          match activeEvents with
          | [] =>
              if (currentStatus =? busyStatus)%string then
                let user := withLastStatus user "" in
                let user :=
                  if Manual status then withLastStatus user currentStatus else user in
                _ ← Store_StoreUser user;
                storeActiveEventsThen user remoteHashes
                  "User was already marked as busy. No status change." false
              else
                '(user, err) ← setStatusOrAskUser user status events false;
                match err with
                | Some e => mret (errorSettingStatus user e, user)
                | None =>
                    storeActiveEventsThen user remoteHashes
                      ("User was free, but is now busy (" +:+ busyStatus
                       +:+ "). Set status to busy.") true
                end
          | _ :: _ =>
              if negb (newEventExists remoteHashes activeEvents) then
                mret (mkReply
                  ("No change in active events. Total number of events: "
                   +:+ pretty (length events)) false None, user)
              else if negb (currentStatus =? busyStatus)%string then
                '(user, err) ← setStatusOrAskUser user status events false;
                match err with
                | Some e => mret (errorSettingStatus user e, user)
                | None =>
                    storeActiveEventsThen user remoteHashes
                      ("User was free, but is now busy. Set status to busy ("
                       +:+ busyStatus +:+ ").") true
                end
              else
                storeActiveEventsThen user remoteHashes
                  "User is already busy. No status change." false
          end
    end.

(** *** Custom status *)

Definition setCustomStatusFromCalendarView (user : User)
    (res : ViewCalendarResponse) : M W Reply :=
  if negb (SetCustomStatus (UserSettings user)) then
    mret (mkReply "User don't want to set custom status" false None)
  else
    match filterBusyEvents (Events res) with
    | [] =>
        let done := mkReply "No event present to set custom status" false None in
        if IsCustomStatusSet user then
          err ← PluginAPI_RemoveMattermostUserCustomStatus (MattermostUserID user);
          match err with
          | Some e => mret (mkReply "" false (Some e))
          | None =>
              err ← Store_StoreUserCustomStatusUpdates (MattermostUserID user) false;
              match err with
              | Some e => mret (mkReply "" false (Some e))
              | None => mret done
              end
          end
        else mret done
    | (first :: _) as events =>
        let '(overlapping, events) := checkOverlappingEvents events in
        if overlapping then
          mret (mkReply "Overlapping events, not setting a custom status" false None)
        else if IsCancelled (hd first events) then
          mret (mkReply "Event cancelled, not setting custom status" false None)
        else if (length (Attendees (hd first events)) <? 1)%nat then
          mret (mkReply "No attendee present, not setting custom status" false None)
        else
          currentUser ← PluginAPI_GetMattermostUser (MattermostUserID user);
          match currentUser with
          | Err e => mret (mkReply "" false (Some e))
          | Ok currentUser =>
              match GetCustomStatus currentUser, IsCustomStatusSet user with
              | Some _, false =>
                  mret (mkReply
                    "User already have a custom status set, ignoring custom status change"
                    false None)
              | _, _ =>
                  appErr ← PluginAPI_UpdateMattermostUserCustomStatus
                             (MattermostUserID user)
                             (mkCustomStatus "calendar" "In a meeting"
                                (End (hd first events)) "date_and_time");
                  match appErr with
                  | Some e => mret (mkReply "" false (Some e))
                  | None =>
                      err ← Store_StoreUserCustomStatusUpdates
                              (MattermostUserID user) true;
                      match err with
                      | Some e => mret (mkReply "" true (Some e))
                      | None => mret (mkReply "" true None)
                      end
                  end
              end
          end
    end.

(** *** Reminders *)

(** The loop of [notifyUpcomingEvents]; [timezone] is the variable the loop
    keeps, empty until the first lookup. *)
Fixpoint notifyUpcomingEventsFrom (timezone : string) (mattermostUserID : string)
    (events : list Event) : M W unit :=
  match events with
  | [] => mret tt
  | event :: rest =>
      if IsCancelled event then
        notifyUpcomingEventsFrom timezone mattermostUserID rest
      else
        now ← time_Now;
        let upcomingTime := now + upcomingEventNotificationTime in
        let diff := Sub (Start event) upcomingTime in
        if (diff <? upcomingEventNotificationWindow)
           && (diff >? - upcomingEventNotificationWindow) then
          tz ← (if (timezone =? "")%string
                then GetTimezoneByID mattermostUserID
                else mret (Ok timezone));
          match tz with
          | Err e =>
              Warnf ("notifyUpcomingEvents error getting timezone. err=" +:+ e)
          | Ok timezone =>
              match RenderUpcomingEvent event timezone with
              | Err e =>
                  Warnf ("notifyUpcomingEvent error rendering schedule item. err="
                         +:+ e);;
                  notifyUpcomingEventsFrom timezone mattermostUserID rest
              | Ok message =>
                  err ← Poster_DM mattermostUserID message;
                  match err with
                  | Some e =>
                      Warnf ("notifyUpcomingEvents error creating DM. err=" +:+ e);;
                      notifyUpcomingEventsFrom timezone mattermostUserID rest
                  | None => notifyUpcomingEventsFrom timezone mattermostUserID rest
                  end
              end
          end
        else notifyUpcomingEventsFrom timezone mattermostUserID rest
  end.

Definition notifyUpcomingEvents (mattermostUserID : string) (events : list Event)
  : M W unit :=
  notifyUpcomingEventsFrom "" mattermostUserID events.

(** [usersByRemoteID]: the map from [u.Remote.ID] to the user record; a
    later user with the same remote ID replaces an earlier one. *)
Definition indexByRemoteID (users : list User) : gmap string User :=
  foldl (λ m u, <[RemoteID u := u]> m) ∅ users.

(** The loop of [deliverReminders] over the calendar views. *)
Fixpoint deliverRemindersFrom (numberOfLogs : nat)
    (usersByRemoteID : gmap string User)
    (calendarViews : list ViewCalendarResponse) : M W unit :=
  match calendarViews with
  | [] => mret tt
  | view :: rest =>
      match usersByRemoteID !! RemoteUserID view with
      | None => deliverRemindersFrom numberOfLogs usersByRemoteID rest
      | Some user =>
          match ViewError view with
          | Some msg =>
              warnTruncated numberOfLogs
                ("Error getting availability for " +:+ MattermostUserID user
                 +:+ ". err=" +:+ msg);;
              deliverRemindersFrom (S numberOfLogs) usersByRemoteID rest
          | None =>
              notifyUpcomingEvents (MattermostUserID user) (Events view);;
              deliverRemindersFrom numberOfLogs usersByRemoteID rest
          end
      end
  end.

Definition deliverReminders (users : list User)
    (calendarViews : list ViewCalendarResponse) : M W unit :=
  let toNotify := List.filter (λ u, ReceiveReminders (UserSettings u)) users in
  match toNotify with
  | [] => mret tt
  | _ => deliverRemindersFrom 0 (indexByRemoteID toNotify) calendarViews
  end.

(** *** Statuses of all users *)

(** The variables the loop of [setUserStatuses] keeps.  The user records
    are reached through [usersByRemoteID], where a change made through the
    pointer stays for the later views. *)
Record StatusLoop := mkStatusLoop {
  numberOfLogs : nat;
  numberOfUserStatusChange : nat;
  numberOfUserErrorInStatusChange : nat;
  res : string;
  usersByRemoteID : gmap string User
}.

Definition wantsStatusUpdate (u : User) : bool :=
  negb (UpdateStatusFromOptions (UserSettings u) =? NotSetStatusOption)%string.

Definition withRes (st : StatusLoop) (r : string) : StatusLoop :=
  mkStatusLoop (numberOfLogs st) (numberOfUserStatusChange st)
    (numberOfUserErrorInStatusChange st) r (usersByRemoteID st).

Definition withUser (st : StatusLoop) (remoteID : string) (u : User) : StatusLoop :=
  mkStatusLoop (numberOfLogs st) (numberOfUserStatusChange st)
    (numberOfUserErrorInStatusChange st) (res st)
    (<[remoteID := u]> (usersByRemoteID st)).

Definition countStatusChange (st : StatusLoop) : StatusLoop :=
  mkStatusLoop (numberOfLogs st) (S (numberOfUserStatusChange st))
    (numberOfUserErrorInStatusChange st) (res st) (usersByRemoteID st).

Definition countFailure (st : StatusLoop) : StatusLoop :=
  mkStatusLoop (S (numberOfLogs st)) (numberOfUserStatusChange st)
    (S (numberOfUserErrorInStatusChange st)) (res st) (usersByRemoteID st).

(** [if err != nil]: warn, within the limit, and count the failure. *)
Definition noteFailure (st : StatusLoop) (user : User) (err : option error)
  : M W StatusLoop :=
  match err with
  | Some e =>
      warnTruncated (numberOfLogs st)
        ("Error setting user " +:+ MattermostUserID user +:+ " status. err=" +:+ e);;
      mret (countFailure st)
  | None => mret st
  end.

(** One view: the body of the loop, after the user and the status are
    found. *)
Definition setUserStatusForView (st : StatusLoop) (user : User) (status : Status)
    (view : ViewCalendarResponse) : M W StatusLoop :=
  '(st, user) ←
    (if wantsStatusUpdate user then
       '(reply, user) ← setStatusFromCalendarView user status view;
       st ← noteFailure (withUser (withRes st (message reply)) (RemoteUserID view) user)
              user (failure reply);
       mret (if isStatusChanged reply then countStatusChange st else st, user)
     else (mret (st, user) : M W (StatusLoop * User)));
  if SetCustomStatus (UserSettings user) then
    reply ← setCustomStatusFromCalendarView user view;
    st ← noteFailure (withRes st (message reply)) user (failure reply);
    (* counted only when the status options did not already count this user *)
    mret (if isStatusChanged reply && negb (wantsStatusUpdate user)
          then countStatusChange st else st)
  else mret st.

(** The loop of [setUserStatuses] over the calendar views. *)
Fixpoint setUserStatusesFrom (st : StatusLoop) (statusMap : gmap string Status)
    (calendarViews : list ViewCalendarResponse) : M W StatusLoop :=
  match calendarViews with
  | [] => mret st
  | view :: rest =>
      match usersByRemoteID st !! RemoteUserID view with
      | None => setUserStatusesFrom st statusMap rest
      | Some user =>
          match ViewError view with
          | Some msg =>
              warnTruncated (numberOfLogs st)
                ("Error getting availability for " +:+ MattermostUserID user
                 +:+ ". err=" +:+ msg);;
              setUserStatusesFrom (countFailure st) statusMap rest
          | None =>
              match statusMap !! MattermostUserID user with
              | None => setUserStatusesFrom st statusMap rest
              | Some status =>
                  st ← setUserStatusForView st user status view;
                  setUserStatusesFrom st statusMap rest
              end
          end
      end
  end.

(** What [setUserStatuses] returns: the message, the number of users whose
    status changed, the number of users that failed, the error. *)
Definition setUserStatuses (users : list User)
    (calendarViews : list ViewCalendarResponse)
  : M W (string * nat * nat * option error) :=
  let toUpdate :=
    List.filter (λ u, wantsStatusUpdate u || SetCustomStatus (UserSettings u)) users in
  match toUpdate with
  | [] => mret ("No users want their status updated", 0, 0, None)%nat
  | _ =>
      let mattermostUserIDs := map MattermostUserID toUpdate in
      statuses ← PluginAPI_GetMattermostUserStatusesByIds mattermostUserIDs;
      match statuses with
      | Err e =>
          mret ("", 0, 0,
                Some (Wrap e
                  "error in getting Mattermost user statuses for connected users"))%nat
      | Ok statuses =>
          let statusMap : gmap string Status :=
            foldl (λ m s, <[StatusUserId s := s]> m) ∅ statuses in
          st ← setUserStatusesFrom
                 (mkStatusLoop 0 0 0 "" (indexByRemoteID toUpdate))
                 statusMap calendarViews;
          if negb (res st =? "")%string then
            mret (res st, numberOfUserStatusChange st,
                  numberOfUserErrorInStatusChange st, None)
          else
            mret (JSONBlock calendarViews, numberOfUserStatusChange st,
                  numberOfUserErrorInStatusChange st, None)
      end
  end.

(** *** The sync job *)

Definition GetCalendarViews (users : list User)
  : M W (result (list ViewCalendarResponse)) :=
  err ← Filter withClient;
  match err with
  | Some e => mret (Err e)
  | None =>
      start ← time_Now;
      now ← time_Now;
      let end_ := now + calendarViewTimeWindowSize in
      client_DoBatchViewCalendarRequests
        (map (λ u, mkParams (RemoteID u) start end_) users)
  end.

Definition needsSync (user : User) : bool :=
  wantsStatusUpdate user
  || ReceiveReminders (UserSettings user)
  || SetCustomStatus (UserSettings user).

(** The first loop of [syncUsers]: load every user of the index.  It keeps
    the number of users that failed, the number of warnings and the users
    loaded so far. *)
Fixpoint loadUsersFrom (failed numberOfLogs : nat) (users : list User)
    (userIndex : list UserShort) : M W (nat * list User) :=
  match userIndex with
  | [] => mret (failed, users)
  | u :: rest =>
      user ← Store_LoadUser (ShortMattermostUserID u);
      match user with
      | Err e =>
          warnTruncated numberOfLogs
            ("Not able to load user " +:+ ShortMattermostUserID u
             +:+ " from user index. err=" +:+ e);;
          (* skip this user and continue with the next user *)
          loadUsersFrom (S failed) (S numberOfLogs) users rest
      | Ok user =>
          loadUsersFrom failed numberOfLogs
            (if needsSync user then users ++ [user] else users) rest
      end
  end.

(** What the entry points return.  The summary is a pointer in the code;
    it is nil only where [Sync] fails to find the user. *)
Definition SyncResult : Type := string * option StatusSyncJobSummary * option error.

Definition syncUsers (userIndex : list UserShort) : M W SyncResult :=
  match userIndex with
  | [] => mret ("No connected users found", Some (mkSummary 0 0 0), None)
  | _ =>
      let processed := length userIndex in
      '(failed, users) ← loadUsersFrom 0 0 [] userIndex;
      match users with
      | [] => mret ("No users need to be synced",
                    Some (mkSummary failed 0 processed), None)
      | _ =>
          calendarViews ← GetCalendarViews users;
          match calendarViews with
          | Err e =>
              mret ("", Some (mkSummary failed 0 processed),
                    Some (Wrap e "not able to get calendar views for connected users"))
          | Ok [] =>
              mret ("No calendar views found",
                    Some (mkSummary failed 0 processed), None)
          | Ok calendarViews =>
              deliverReminders users calendarViews;;
              '(out, changed, failedStatus, err) ←
                setUserStatuses users calendarViews;
              match err with
              | Some e =>
                  mret ("", Some (mkSummary failed 0 processed),
                        Some (Wrap e "error setting the user statuses"))
              | None =>
                  mret (out,
                        Some (mkSummary (failed + failedStatus) changed processed),
                        None)
              end
          end
      end
  end.

Definition Sync (mattermostUserID : string) : M W SyncResult :=
  user ← Store_LoadUserFromIndex mattermostUserID;
  match user with
  | Err e => mret ("", None, Some e)
  | Ok user => syncUsers [user]
  end.

Definition SyncAll : M W SyncResult :=
  err ← Filter withSuperuserClient;
  match err with
  | Some e =>
      mret ("", Some (mkSummary 0 0 0),
            Some (Wrap e "not able to filter the super user client"))
  | None =>
      userIndex ← Store_LoadUserIndex;
      match userIndex with
      | Err e =>
          if (e =? "not found")%string then
            mret ("No users found in user index", Some (mkSummary 0 0 0), None)
          else
            mret ("", Some (mkSummary 0 0 0),
                  Some (Wrap e "not able to load the users from user index"))
      | Ok userIndex => syncUsers userIndex
      end
  end.

End Availability.

(** ** The notions the properties are stated with *)

Section Notions.
Context `{GoRuntime} `{Plugin} {W : Type} `{Collaborators W}.

Implicit Types (user : User) (status : Status) (view : ViewCalendarResponse) (w : W).

(** A run that made no call: the reply says nothing changed and nothing
    failed, the user record, the trace and the world are as before. *)
Definition presenceUntouched user status view w : Prop :=
  ∃ msg, setStatusFromCalendarView user status view w
         = ((mkReply msg false None, user), [], w).

Definition customStatusUntouched user view w : Prop :=
  ∃ msg, setCustomStatusFromCalendarView user view w
         = (mkReply msg false None, [], w).

(** Overlap, as the spec words it: once the events are sorted by start
    time, some event starts strictly before the one ahead of it has ended. *)
Definition Overlapping (events : list Event) : Prop :=
  let sorted := sortSlice (λ a b, UnixMicro (Start a) <? UnixMicro (Start b)) events in
  ∃ (i : nat) (a b : Event),
    sorted !! i = Some a ∧ sorted !! S i = Some b
    ∧ UnixMicro (Start b) < UnixMicro (End a).

(** [events[0]] as the code reads it: the first of the busy events of the
    view, in the order [checkOverlappingEvents] leaves them. *)
Definition firstBusyEvent view : option Event :=
  head (checkOverlappingEvents (filterBusyEvents (Events view))).2.

(** The fingerprints of the busy events of the view that are not cancelled. *)
Definition remoteFingerprints view : list string :=
  remoteHashesOf (filterBusyEvents (Events view)).

(** The status [setStatusOrAskUser] goes back to: the one kept in
    [LastStatus], or Online when none is kept. *)
Definition restoredStatus user : string :=
  if (LastStatus user =? "")%string then StatusOnline else LastStatus user.

(** The custom status the code sets for a meeting that ends at [expiresAt]. *)
Definition meetingStatus (expiresAt : Z) : CustomStatus :=
  mkCustomStatus "calendar" "In a meeting" expiresAt "date_and_time".

(** The event starts within five and a half minutes of the moment ten
    minutes from [now]. *)
Definition inReminderWindow (now : Z) (event : Event) : Prop :=
  2 * Z.abs (Start event - (now + 10 * minute)) < 11 * minute.

(** A run that comes after the calls [calls]. *)
Definition after {A} (calls : list Call) (r : A * list Call * W) : A * list Call * W :=
  (valueOf r, calls ++ traceOf r, worldOf r).


(** The reminders a run has sent: the direct messages of its trace. *)
Definition remindersIn (calls : list Call) : list (string * string) :=
  omap (λ c, match c with CallDM id message => Some (id, message) | _ => None end) calls.

(** The reminder an event is due at [now], for a user in the timezone [tz]. *)
Definition reminderDue (now : Z) (tz id : string) (e : Event) : option (string * string) :=
  if negb (IsCancelled e) && (2 * Z.abs (Start e - (now + 10 * minute)) <? 11 * minute)
  then match RenderUpcomingEvent e tz with
       | Ok message => Some (id, message)
       | Err _ => None
       end
  else None.

(** Two states of the loop of [setUserStatuses] that differ by [k]
    failures counted, and by nothing else. *)
Definition moreFailures (k : nat) (a b : StatusLoop) : Prop :=
  numberOfLogs b = (numberOfLogs a + k)%nat
  ∧ numberOfUserErrorInStatusChange b = (numberOfUserErrorInStatusChange a + k)%nat
  ∧ numberOfUserStatusChange b = numberOfUserStatusChange a
  ∧ res b = res a
  ∧ usersByRemoteID b = usersByRemoteID a.

(** The calls of a run besides its warnings. *)
Definition besidesWarnings (calls : list Call) : list Call :=
  List.filter (λ c, match c with CallWarnf _ => false | _ => true end) calls.

(** The users whose status or custom status the job updates: [toUpdate]. *)
Definition updatedUsers (users : list User) : list User :=
  List.filter (λ u, wantsStatusUpdate u || SetCustomStatus (UserSettings u)) users.

(** The users who receive reminders: [toNotify]. *)
Definition remindedUsers (users : list User) : list User :=
  List.filter (λ u, ReceiveReminders (UserSettings u)) users.

(** The views among [views] that carry an error and belong to a user of the
    map: the ones a loop over [views] has counted in [numberOfLogs]. *)
Definition failedViews (usersByRemoteID : gmap string User)
    (views : list ViewCalendarResponse) : list ViewCalendarResponse :=
  List.filter (λ view, bool_decide (is_Some (usersByRemoteID !! RemoteUserID view))
                       && bool_decide (is_Some (ViewError view))) views.

(** What the logging idiom writes for the warning [message] after [n]
    warnings. *)
Definition warningAfter (n : nat) (message : string) : list Call :=
  if (n <? logTruncateLimit)%nat then [CallWarnf message]
  else if (n =? logTruncateLimit)%nat then [CallWarnf logTruncateMsg]
  else [].

End Notions.

(** ** A runtime, a plugin configuration and a world to run the job in *)

Module Sample.

(** Insertion sort, which is what [sort.Slice] runs on the short slices a
    ten-minute calendar view holds: each element moves left past the
    elements it is less than. *)
Fixpoint insertBy (less : Event → Event → bool) (x : Event) (sorted : list Event)
  : list Event :=
  match sorted with
  | [] => [x]
  | y :: rest => if less x y then x :: y :: rest else y :: insertBy less x rest
  end.

Definition insertionSort (less : Event → Event → bool) (l : list Event) : list Event :=
  foldl (λ sorted x, insertBy less x sorted) [] l.

Lemma insertBy_Permutation less x l : insertBy less x l ≡ₚ x :: l.
Proof.
  induction l as [|y l IH]; simpl; [done|].
  destruct (less x y); [done|].
  rewrite IH. apply Permutation_swap.
Qed.

Lemma insertionSort_Permutation less l : insertionSort less l ≡ₚ l.
Proof.
  unfold insertionSort.
  enough (G : ∀ acc, foldl (λ sorted x, insertBy less x sorted) acc l ≡ₚ acc ++ l)
    by apply (G []).
  induction l as [|x l IH]; intros acc; simpl.
  - by rewrite app_nil_r.
  - rewrite IH, insertBy_Permutation. simpl. apply Permutation_middle.
Qed.

Lemma insertBy_sorted (key : Event → Z) x l :
  StronglySorted (λ a b, key a ≤ key b) l →
  StronglySorted (λ a b, key a ≤ key b) (insertBy (λ a b, key a <? key b) x l).
Proof.
  induction 1 as [|y l Hs IH Hy]; simpl.
  - by repeat constructor.
  - destruct (Z.ltb_spec (key x) (key y)) as [Hlt|Hge].
    + constructor; [by constructor|].
      constructor; [lia|].
      eapply Forall_impl; [exact Hy|]. simpl. intros; lia.
    + constructor; [done|].
      rewrite (insertBy_Permutation _ x l). by constructor.
Qed.

Lemma insertionSort_sorted (key : Event → Z) l :
  StronglySorted (λ a b, key a ≤ key b) (insertionSort (λ a b, key a <? key b) l).
Proof.
  unfold insertionSort.
  enough (G : ∀ acc, StronglySorted (λ a b, key a ≤ key b) acc →
            StronglySorted (λ a b, key a ≤ key b)
              (foldl (λ sorted x, insertBy (λ a b, key a <? key b) x sorted) acc l))
    by (apply G; constructor).
  induction l as [|x l IH]; intros acc Hacc; simpl; [done|].
  apply IH. by apply insertBy_sorted.
Qed.

(** Digits of a number, padded with zeros on the left to [width]. *)
Definition padded (width : nat) (n : Z) : string :=
  let digits := pretty (Z.to_N n) in
  String.concat "" (replicate (width - String.length digits) "0") +:+ digits.

(** The civil date of a day number (days since 1970-01-01). *)
Definition civilFromDays (days : Z) : Z * Z * Z :=
  let z := days + 719468 in
  let era := z / 146097 in
  let doe := z - era * 146097 in
  let yoe := (doe - doe / 1460 + doe / 36524 - doe / 146096) / 365 in
  let doy := doe - (365 * yoe + yoe / 4 - yoe / 100) in
  let mp := (5 * doy + 2) / 153 in
  let d := doy - (153 * mp + 2) / 5 + 1 in
  let m := if mp <? 10 then mp + 3 else mp - 9 in
  let y := yoe + era * 400 in
  (if m <=? 2 then y + 1 else y, m, d).

(** [2006-01-02T15:04:05Z07:00] in UTC, for the years 0 to 9999. *)
Definition rfc3339 (t : Z) : string :=
  let seconds := t / 1000000000 in
  let '(y, m, d) := civilFromDays (seconds / 86400) in
  let secondOfDay := seconds `mod` 86400 in
  padded 4 y +:+ "-" +:+ padded 2 m +:+ "-" +:+ padded 2 d +:+ "T"
  +:+ padded 2 (secondOfDay / 3600) +:+ ":"
  +:+ padded 2 (secondOfDay `mod` 3600 / 60) +:+ ":"
  +:+ padded 2 (secondOfDay `mod` 60) +:+ "Z".

#[export] Instance runtime : GoRuntime := {|
  sortSlice := insertionSort;
  sortSlice_Permutation := insertionSort_Permutation;
  sortSlice_sorted := insertionSort_sorted;
  formatRFC3339 := rfc3339
|}.

(** A configuration of the plugin: the option values, and renderings that
    show what they were given. *)
#[export] Instance plugin : Plugin := {|
  NotSetStatusOption := "none";
  AwayStatusOption := "away";
  JSONBlock := λ views, "views: " +:+ pretty (length views);
  confirmStatusChangeURL := "/plugins/mscalendar/action/confirm";
  RenderUpcomingEvent := λ e timezone,
    if (ICalUID e =? "")%string then Err "event without UID"
    else Ok ("Upcoming: " +:+ ICalUID e +:+ " (" +:+ timezone +:+ ")")
|}.

Definition DNDStatusOption : string := "dnd".

(** A world that answers every call from a fixed script and never changes,
    but for its clock. *)
Record World := mkWorld {
  clock : Z;
  superuserClient : option error;
  userClient : option error;
  userIndex : result (list UserShort);
  users : list User;
  statuses : result (list Status);
  calendarViews : result (list ViewCalendarResponse);
  customStatus : result MattermostUser;
  timezone : result string;
  storeFails : option error;
  presenceFails : option error;
  posterFails : option error
}.

Definition findUser (id : string) (l : list User) : result User :=
  match List.find (λ u, (MattermostUserID u =? id)%string) l with
  | Some u => Ok u
  | None => Err "user not in store"
  end.

#[export] Instance collaborators : Collaborators World := {|
  applyFilter := λ k w,
    (match k with withClient => userClient w
                | withSuperuserClient => superuserClient w end, w);
  loadUserIndex := λ w, (userIndex w, w);
  loadUserFromIndex := λ id w,
    (match userIndex w with
     | Ok l =>
         match List.find (λ u, (ShortMattermostUserID u =? id)%string) l with
         | Some u => Ok u
         | None => Err "not found"
         end
     | Err e => Err e
     end, w);
  loadUser := λ id w, (findUser id (users w), w);
  storeUser := λ _ w, (storeFails w, w);
  storeUserActiveEvents := λ _ _ w, (storeFails w, w);
  storeUserCustomStatusUpdates := λ _ _ w, (storeFails w, w);
  getMattermostUserStatusesByIds := λ _ w, (statuses w, w);
  updateMattermostUserStatus := λ _ _ w, (presenceFails w, w);
  getMattermostUser := λ _ w, (customStatus w, w);
  removeMattermostUserCustomStatus := λ _ w, (presenceFails w, w);
  updateMattermostUserCustomStatus := λ _ _ w, (presenceFails w, w);
  dmWithAttachments := λ _ _ w, (posterFails w, w);
  dm := λ _ _ w, (posterFails w, w);
  getTimezoneByID := λ _ w, (timezone w, w);
  doBatchViewCalendarRequests := λ _ w, (calendarViews w, w);
  timeNow := λ w, (clock w, w)
|}.

(** 2024-03-04T10:00:00Z, in nanoseconds. *)
Definition tenOClock : Z := 1709546400 * 1000000000.

(** A world where nothing fails and nobody is known. *)
Definition quiet : World :=
  mkWorld tenOClock None None (Ok []) [] (Ok []) (Ok []) (Ok (mkMattermostUser None))
          (Ok "UTC") None None None.

End Sample.

(** ** People and events for the sample world *)

Module Scenario.
Import Sample.

Definition dndMode : Settings := mkSettings DNDStatusOption false false false.

Definition alice : User := mkUser "alice" "r-alice" dndMode "" [] false.

(** A meeting from 10:00 to 10:30 with two attendees. *)
Definition meeting : Event :=
  mkEvent "uid-1" tenOClock (tenOClock + 30 * minute) "busy" false ["bob@x"; "carol@x"].

Definition online : Status := mkStatus "alice" StatusOnline false.
Definition offline : Status := mkStatus "alice" StatusOffline false.
Definition dnd : Status := mkStatus "alice" StatusDnd false.

Definition viewOf (events : list Event) : ViewCalendarResponse :=
  mkView "r-alice" events None.

Definition busyWith (activeEvents : list string) : User :=
  mkUser "alice" "r-alice" dndMode "" activeEvents false.

(** A meeting from 10:15 to 10:45, which overlaps [meeting]. *)
Definition overlap : Event :=
  mkEvent "uid-2" (tenOClock + 15 * minute) (tenOClock + 45 * minute) "busy" false
          ["dave@x"].

(** A busy block from 10:00 to 10:30 with nobody invited. *)
Definition focusTime : Event :=
  mkEvent "uid-3" tenOClock (tenOClock + 30 * minute) "busy" false [].

(** A cancelled meeting from 10:00 to 10:30. *)
Definition cancelled : Event :=
  mkEvent "uid-4" tenOClock (tenOClock + 30 * minute) "busy" true ["bob@x"].

(** A meeting that starts at 10:10, ten minutes from the clock of [quiet]. *)
Definition soon : Event :=
  mkEvent "uid-5" (tenOClock + 10 * minute) (tenOClock + 40 * minute) "busy" false
          ["bob@x"].

End Scenario.

(** ** Properties *)

(** Unfolding the monad and the interface wrappers. *)
Ltac unfold_calls :=
  unfold Store_StoreUser, Store_StoreUserActiveEvents,
    Store_StoreUserCustomStatusUpdates, Store_LoadUser, Store_LoadUserIndex,
    Store_LoadUserFromIndex, PluginAPI_UpdateMattermostUserStatus,
    PluginAPI_GetMattermostUser, PluginAPI_RemoveMattermostUserCustomStatus,
    PluginAPI_UpdateMattermostUserCustomStatus,
    PluginAPI_GetMattermostUserStatusesByIds, Poster_DMWithAttachments, Poster_DM,
    GetTimezoneByID, client_DoBatchViewCalendarRequests, Filter, time_Now, Warnf,
    call in *.

Ltac run := unfold_calls; unfold mbind, mret, M_bind, M_ret in *; cbn in *.

Section Properties.
Context `{GoRuntime} `{Plugin} {W : Type} `{Collaborators W}.

Implicit Types (user : User) (status : Status) (view : ViewCalendarResponse) (w : W).

(** *** Events: sorting and overlap *)

(** The slice [checkOverlappingEvents] leaves behind holds the same events. *)
Lemma checkOverlappingEvents_Permutation (events : list Event) :
  (checkOverlappingEvents events).2 ≡ₚ events.
Proof.
  unfold checkOverlappingEvents.
  destruct (length events <=? 1)%nat; simpl; [done|apply sortSlice_Permutation].
Qed.

Lemma checkOverlappingEvents_nonempty (e : Event) (events : list Event) :
  (checkOverlappingEvents (e :: events)).2 ≠ [].
Proof.
  intros Hnil. pose proof (checkOverlappingEvents_Permutation (e :: events)) as Hp.
  rewrite Hnil in Hp. by apply Permutation_nil_cons in Hp.
Qed.

(** [events[0]] after the check is one of the events. *)
Lemma checkOverlappingEvents_hd (e d : Event) (events : list Event) :
  hd d (checkOverlappingEvents (e :: events)).2 ∈ e :: events.
Proof.
  pose proof (checkOverlappingEvents_Permutation (e :: events)) as Hp.
  pose proof (checkOverlappingEvents_nonempty e events) as Hne.
  destruct (checkOverlappingEvents (e :: events)).2 as [|x l]; [done|].
  simpl. rewrite <- Hp. apply list_elem_of_here.
Qed.

Lemma overlapsNext_true (l : list Event) :
  overlapsNext l = true ↔
  ∃ (i : nat) (a b : Event),
    l !! i = Some a ∧ l !! S i = Some b ∧ UnixMicro (Start b) < UnixMicro (End a).
Proof.
  induction l as [|a [|b l] IH].
  - split; [done|]. by intros (i & ? & ? & Hi & _).
  - split; [done|]. intros (i & ? & ? & _ & Hi & _). simpl in Hi. by rewrite lookup_nil in Hi.
  - cbn [overlapsNext].
    destruct (Z.gtb_spec (UnixMicro (End a)) (UnixMicro (Start b))) as [Hgt|Hle].
    + split; [|done]. intros _. exists 0%nat, a, b. repeat split; [done..|lia].
    + rewrite IH. split.
      * intros (i & x & y & Hx & Hy & Hlt). by exists (S i), x, y.
      * intros (i & x & y & Hx & Hy & Hlt). destruct i as [|i].
        -- simpl in Hx, Hy. simplify_eq. lia.
        -- by exists i, x, y.
Qed.

Lemma Overlapping_check (events : list Event) :
  Overlapping events → (checkOverlappingEvents events).1 = true.
Proof.
  intros Hov. unfold checkOverlappingEvents.
  assert (2 ≤ length events)%nat as Hlen.
  { destruct Hov as (i & a & b & _ & Hb & _).
    apply lookup_lt_Some in Hb.
    rewrite (Permutation_length (sortSlice_Permutation _ events)) in Hb. lia. }
  destruct (Nat.leb_spec (length events) 1); [lia|].
  simpl. by apply overlapsNext_true.
Qed.

(** *** Presence: the branches that do nothing *)

(** C9. A user who is Offline and has confirmations switched off is left
    alone whatever the view and the stored active events are: no call is
    made (so no presence write, no store write, no message), the user
    record is unchanged and no status change is reported. *)
Theorem offline_without_confirmation_untouched user status view w :
  StatusValue status = StatusOffline →
  GetConfirmation (UserSettings user) = false →
  presenceUntouched user status view w.
Proof.
  intros Hoff Hconf. unfold presenceUntouched, setStatusFromCalendarView.
  destruct (UpdateStatusFromOptions (UserSettings user) =? "")%string;
    [by eexists|].
  rewrite Hoff, Hconf. by eexists.
Qed.

(** C4. When the busy events of the view overlap, neither reconciliation
    makes a call: no presence write, no custom-status write or clear, no
    store write, whatever the settings, the current status and the stored
    active events. *)
Theorem overlapping_events_untouched user status view w :
  Overlapping (filterBusyEvents (Events view)) →
  presenceUntouched user status view w ∧ customStatusUntouched user view w.
Proof.
  intros Hov. pose proof (Overlapping_check _ Hov) as Hc.
  assert (filterBusyEvents (Events view) ≠ []) as Hne.
  { intros Hnil. rewrite Hnil in Hc. discriminate Hc. }
  split.
  - unfold presenceUntouched, setStatusFromCalendarView.
    destruct (UpdateStatusFromOptions (UserSettings user) =? "")%string;
      [by eexists|].
    destruct ((StatusValue status =? StatusOffline)%string
              && negb (GetConfirmation (UserSettings user))); [by eexists|].
    destruct (filterBusyEvents (Events view)) as [|first events] eqn:Hbusy; [done|].
    destruct (checkOverlappingEvents (first :: events)) as [overlapping sorted].
    simpl in Hc. subst overlapping.
    destruct (ActiveEvents user); by eexists.
  - unfold customStatusUntouched, setCustomStatusFromCalendarView.
    destruct (negb (SetCustomStatus (UserSettings user))); [by eexists|].
    destruct (filterBusyEvents (Events view)) as [|first events] eqn:Hbusy; [done|].
    destruct (checkOverlappingEvents (first :: events)) as [overlapping sorted].
    simpl in Hc. subst overlapping. by eexists.
Qed.

(** [events[0]] after the check is the earliest event, when one event
    starts strictly before all the others. *)
Lemma earliest_event_first (e d : Event) (events : list Event) :
  e ∈ events →
  (∀ e', e' ∈ events → e' = e ∨ UnixMicro (Start e) < UnixMicro (Start e')) →
  hd d (checkOverlappingEvents events).2 = e.
Proof.
  intros Hin Hmin. unfold checkOverlappingEvents.
  destruct (Nat.leb_spec (length events) 1) as [Hlen|Hlen]; simpl.
  - destruct events as [|x [|y l]]; simpl in *; [by apply elem_of_nil in Hin| |lia].
    apply list_elem_of_singleton in Hin. by subst.
  - pose proof (sortSlice_Permutation
      (λ a b, UnixMicro (Start a) <? UnixMicro (Start b)) events) as Hp.
    pose proof (sortSlice_sorted (λ x, UnixMicro (Start x)) events) as Hs.
    simpl in Hs.
    destruct (sortSlice _ events) as [|h t].
    + apply Permutation_nil_l in Hp. subst. by apply elem_of_nil in Hin.
    + simpl. apply StronglySorted_inv in Hs as [_ Hh].
      assert (h ∈ events) as Hh_in by (rewrite <- Hp; apply list_elem_of_here).
      rewrite <- Hp in Hin. apply elem_of_cons in Hin as [->|Ht]; [done|].
      rewrite Forall_forall in Hh. specialize (Hh e Ht). simpl in Hh.
      destruct (Hmin h Hh_in) as [->|Hlt]; [done|lia].
Qed.

(** C5. An event without attendees does not make the user busy.  When the
    earliest busy event of the view has no attendee, the presence
    reconciliation makes no call: no presence write and no store write.
    And for a user with no stored active events, a view whose busy events
    are all without attendees leaves presence untouched. *)
Theorem no_attendee_event_untouched user status view w :
  let busy := filterBusyEvents (Events view) in
  (∀ e, e ∈ busy →
        (∀ e', e' ∈ busy → e' = e ∨ UnixMicro (Start e) < UnixMicro (Start e')) →
        (length (Attendees e) < 1)%nat →
        presenceUntouched user status view w)
  ∧ (ActiveEvents user = [] →
     (∀ e, e ∈ busy → (length (Attendees e) < 1)%nat) →
     presenceUntouched user status view w).
Proof.
  intros busy.
  assert (∀ first events, busy = first :: events →
            (length (Attendees (hd first (checkOverlappingEvents busy).2)) < 1)%nat →
            presenceUntouched user status view w) as Hfirst.
  { intros first events Hbusy Hnone.
    unfold presenceUntouched, setStatusFromCalendarView.
    destruct (UpdateStatusFromOptions (UserSettings user) =? "")%string;
      [by eexists|].
    destruct ((StatusValue status =? StatusOffline)%string
              && negb (GetConfirmation (UserSettings user))); [by eexists|].
    fold busy. rewrite Hbusy in *.
    destruct (checkOverlappingEvents (first :: events)) as [overlapping sorted].
    simpl in Hnone. apply Nat.ltb_lt in Hnone.
    destruct (ActiveEvents user), overlapping; rewrite ?Hnone; by eexists. }
  split.
  - intros e Hin Hmin Hnone.
    destruct busy as [|first events] eqn:Hbusy; [by apply elem_of_nil in Hin|].
    apply (Hfirst first events eq_refl).
    by rewrite (earliest_event_first e first (first :: events) Hin Hmin).
  - intros Hfree Hall.
    destruct busy as [|first events] eqn:Hbusy.
    + unfold presenceUntouched, setStatusFromCalendarView.
      destruct (UpdateStatusFromOptions (UserSettings user) =? "")%string;
        [by eexists|].
      destruct ((StatusValue status =? StatusOffline)%string
                && negb (GetConfirmation (UserSettings user))); [by eexists|].
      fold busy. rewrite Hbusy, Hfree. by eexists.
    + apply (Hfirst first events eq_refl).
      apply Hall, checkOverlappingEvents_hd.
Qed.

(** *** Presence: from free to busy *)

(** C1, as the code has it. A user in DND mode without confirmations, whose
    status is Online and not manual, with no stored active events, and
    whose view holds one busy event, not cancelled, with two attendees:
    when the store and the presence write succeed, the user record is
    stored, presence is written as DND, the fingerprint of the event is
    stored as the active events, the change is reported, and the message
    is the one of the code, which ends in "Set status to busy." *)
Theorem free_to_busy_dnd user status view (e : Event) w w1 w2 w3 :
  UpdateStatusFromOptions (UserSettings user) ≠ "" →
  UpdateStatusFromOptions (UserSettings user) ≠ AwayStatusOption →
  GetConfirmation (UserSettings user) = false →
  ActiveEvents user = [] →
  StatusValue status = StatusOnline →
  Manual status = false →
  filterBusyEvents (Events view) = [e] →
  IsCancelled e = false →
  length (Attendees e) = 2%nat →
  storeUser (withLastStatus user "") w = (None, w1) →
  updateMattermostUserStatus (MattermostUserID user) StatusDnd w1 = (None, w2) →
  storeUserActiveEvents (MattermostUserID user) [eventHash e] w2 = (None, w3) →
  setStatusFromCalendarView user status view w
  = ((mkReply "User was free, but is now busy (dnd). Set status to busy." true None,
      withLastStatus user ""),
     [CallStoreUser (withLastStatus user "");
      CallUpdateMattermostUserStatus (MattermostUserID user) StatusDnd;
      CallStoreUserActiveEvents (MattermostUserID user) [eventHash e]],
     w3).
Proof.
  intros Hset Hdnd Hconf Hfree Honline Hmanual Hbusy Hlive Hatt Hstore Hpresence Hactive.
  apply String.eqb_neq in Hset, Hdnd.
  unfold setStatusFromCalendarView, busyStatusOf.
  rewrite Hset, Honline, Hbusy, Hfree, Hdnd. cbn.
  rewrite Hatt, Hlive. cbn.
  unfold setStatusOrAskUser. rewrite Hdnd, Hconf, Hmanual. cbn.
  unfold storeActiveEventsThen. run.
  rewrite Hstore, Hconf. cbn. rewrite Hpresence. cbn. rewrite Hactive. done.
Qed.

(** *** Presence: the stored fingerprints against the view *)

Lemma Overlapping_check_iff (events : list Event) :
  (checkOverlappingEvents events).1 = true ↔ Overlapping events.
Proof.
  split; [|apply Overlapping_check].
  unfold checkOverlappingEvents, Overlapping.
  destruct (length events <=? 1)%nat; simpl; [done|].
  by rewrite overlapsNext_true.
Qed.

Lemma remoteHashesOf_Permutation (l l' : list Event) :
  l ≡ₚ l' → remoteHashesOf l ≡ₚ remoteHashesOf l'.
Proof.
  induction 1 as [|x l l' _ IH|x y l|l l' l'' _ IH1 _ IH2]; simpl.
  - done.
  - destruct (IsCancelled x); [done|by constructor].
  - destruct (IsCancelled x), (IsCancelled y); try done. apply Permutation_swap.
  - by etrans.
Qed.

Lemma remoteHashesOf_spec (l : list Event) (h : string) :
  h ∈ remoteHashesOf l ↔ ∃ e, e ∈ l ∧ IsCancelled e = false ∧ h = eventHash e.
Proof.
  induction l as [|x l IH]; simpl.
  - split; [by intros ?%elem_of_nil|]. by intros (? & ?%elem_of_nil & _).
  - destruct (IsCancelled x) eqn:Hx.
    + rewrite IH. split.
      * intros (e & He & Hc & ->). exists e. by rewrite elem_of_cons; auto.
      * intros (e & [->|He]%elem_of_cons & Hc & ->); [congruence|by exists e].
    + rewrite elem_of_cons, IH. split.
      * intros [->|(e & He & Hc & ->)].
        -- exists x. by rewrite elem_of_cons; auto.
        -- exists e. by rewrite elem_of_cons; auto.
      * intros (e & [->|He]%elem_of_cons & Hc & ->); [by left|right; by exists e].
Qed.

Lemma foundIn_true (r : string) (activeEvents : list string) :
  foundIn r activeEvents = true ↔ r ∈ activeEvents.
Proof.
  induction activeEvents as [|loc l IH]; simpl.
  - split; [done|by intros ?%elem_of_nil].
  - rewrite elem_of_cons. destruct (String.eqb_spec loc r) as [->|Hne].
    + split; auto.
    + rewrite IH. split; [auto|]. by intros [->|?].
Qed.

(** The loop answers "no new event" exactly when every remote fingerprint
    is among the stored ones. *)
Lemma newEventExists_false (remoteHashes activeEvents : list string) :
  newEventExists remoteHashes activeEvents = false ↔ remoteHashes ⊆ activeEvents.
Proof.
  induction remoteHashes as [|r l IH]; simpl.
  - split; [|done]. intros _ h Hh. by apply elem_of_nil in Hh.
  - destruct (foundIn r activeEvents) eqn:Hr; simpl.
    + apply foundIn_true in Hr. rewrite IH. split.
      * intros Hl h [->|Hh]%elem_of_cons; auto.
      * intros Hl h Hh. apply Hl. by right.
    + split; [done|]. intros Hl.
      assert (r ∈ activeEvents) as Hin by (apply Hl; by left).
      apply foundIn_true in Hin. congruence.
Qed.

(** C2, as the code has it. For a user with stored active events whose view
    passes the earlier checks (a status option is set, the user is not
    Offline without confirmations, the busy events do not overlap, the
    first one has an attendee), the reconciliation makes no call exactly
    when every fingerprint of the view is among the stored ones: the stored
    list may hold more.  It then answers "No change in active events".  In
    particular nothing is written when the two hold the same fingerprints,
    in whatever order. *)
Theorem busy_unchanged_when_no_new_event user status view (e0 : Event) w :
  UpdateStatusFromOptions (UserSettings user) ≠ "" →
  ¬ (StatusValue status = StatusOffline ∧ GetConfirmation (UserSettings user) = false) →
  ActiveEvents user ≠ [] →
  ¬ Overlapping (filterBusyEvents (Events view)) →
  firstBusyEvent view = Some e0 →
  (1 ≤ length (Attendees e0))%nat →
  let r := setStatusFromCalendarView user status view w in
  (traceOf r = [] ↔ remoteFingerprints view ⊆ ActiveEvents user)
  ∧ (remoteFingerprints view ⊆ ActiveEvents user →
     r = ((mkReply ("No change in active events. Total number of events: "
                    +:+ pretty (length (filterBusyEvents (Events view))))
                   false None, user), [], w))
  ∧ ((∀ h, h ∈ remoteFingerprints view ↔ h ∈ ActiveEvents user) → traceOf r = []).
Proof.
  intros Hset Hon Hbusy Hov Hfirst Hatt r.
  apply String.eqb_neq in Hset.
  rewrite <- Overlapping_check_iff in Hov. apply not_true_is_false in Hov.
  assert (((StatusValue status =? StatusOffline)%string
           && negb (GetConfirmation (UserSettings user))) = false) as Hguard.
  { apply not_true_is_false. intros [Hs Hc]%andb_true_iff.
    apply Hon. split; [by apply String.eqb_eq|]. by destruct (GetConfirmation _). }
  unfold firstBusyEvent in Hfirst. unfold remoteFingerprints.
  pose proof (checkOverlappingEvents_Permutation (filterBusyEvents (Events view))) as Hp.
  subst r. unfold setStatusFromCalendarView. rewrite Hset, Hguard.
  destruct (filterBusyEvents (Events view)) as [|first events] eqn:Hb.
  { by cbn in Hfirst. }
  destruct (checkOverlappingEvents (first :: events)) as [overlapping sorted].
  simpl in Hov, Hfirst, Hp. subst overlapping.
  destruct sorted as [|s0 sorted]; [done|]. simpl in Hfirst. simplify_eq.
  destruct (ActiveEvents user) as [|a active] eqn:Hactive; [done|].
  cbn [hd]. destruct (Nat.ltb_spec (length (Attendees e0)) 1) as [?|_]; [lia|].
  assert (∀ l : list string,
            remoteHashesOf (first :: events) ⊆ l ↔ remoteHashesOf (e0 :: sorted) ⊆ l)
    as Hsub.
  { intros l. by rewrite (remoteHashesOf_Permutation _ _ Hp). }
  rewrite !Hsub, <- newEventExists_false, <- (Permutation_length Hp).
  destruct (newEventExists (remoteHashesOf (e0 :: sorted)) (a :: active)) eqn:Hnew;
    cbn [negb].
  - match goal with
    | |- context [traceOf ?run] => assert (traceOf run ≠ []) as Htrace
    end.
    { unfold setStatusOrAskUser, storeActiveEventsThen, traceOf. run.
      repeat (case_match; simplify_eq; cbn); done. }
    split; [split; [done|discriminate]|]. split; [discriminate|].
    intros Heq. exfalso.
    assert (remoteHashesOf (e0 :: sorted) ⊆ a :: active) as Hin.
    { intros h Hh. apply Heq. by rewrite (remoteHashesOf_Permutation _ _ Hp) in Hh. }
    apply newEventExists_false in Hin. congruence.
  - done.
Qed.

(** *** Presence: from busy to free *)

Lemma withLastStatus_same user : withLastStatus user (LastStatus user) = user.
Proof. by destruct user. Qed.

(** C3, as the code has it. A user with a status option and stored active
    events, not Offline without confirmations, whose view has no busy
    event.  When the current status is not the busy status, the only call
    is the one that stores the empty list of active events.  When it is the
    busy status, the user record is stored with [LastStatus] emptied, the
    status to go back to is written to presence (or, for a user who wants
    confirmations, proposed in a direct message), and then the empty list
    of active events is stored. *)
Theorem busy_to_free user status view w :
  UpdateStatusFromOptions (UserSettings user) ≠ "" →
  ¬ (StatusValue status = StatusOffline ∧ GetConfirmation (UserSettings user) = false) →
  ActiveEvents user ≠ [] →
  filterBusyEvents (Events view) = [] →
  let r := setStatusFromCalendarView user status view w in
  let id := MattermostUserID user in
  let ask := mkNotification [] (restoredStatus user) confirmStatusChangeURL in
  (StatusValue status ≠ busyStatusOf user →
     traceOf r = [CallStoreUserActiveEvents id []]
     ∧ (valueOf r).2 = user
     ∧ isStatusChanged (valueOf r).1 = false)
  ∧ (StatusValue status = busyStatusOf user →
     ∀ w1 w2,
       storeUser (withLastStatus user "") w = (None, w1) →
       (if GetConfirmation (UserSettings user)
        then dmWithAttachments id ask w1
        else updateMattermostUserStatus id (restoredStatus user) w1) = (None, w2) →
       traceOf r
       = [CallStoreUser (withLastStatus user "");
          if GetConfirmation (UserSettings user)
          then CallDMWithAttachments id ask
          else CallUpdateMattermostUserStatus id (restoredStatus user);
          CallStoreUserActiveEvents id []]
       ∧ (valueOf r).2 = withLastStatus user ""
       ∧ isStatusChanged (valueOf r).1 = true).
Proof.
  intros Hset Hon Hbusy Hfree r id ask.
  apply String.eqb_neq in Hset.
  assert (((StatusValue status =? StatusOffline)%string
           && negb (GetConfirmation (UserSettings user))) = false) as Hguard.
  { apply not_true_is_false. intros [Hs Hc]%andb_true_iff.
    apply Hon. split; [by apply String.eqb_eq|]. by destruct (GetConfirmation _). }
  subst r. unfold setStatusFromCalendarView. rewrite Hset, Hguard, Hfree.
  destruct (ActiveEvents user) as [|a active] eqn:Hactive; [done|].
  split.
  - intros Hother. apply String.eqb_neq in Hother. rewrite Hother.
    unfold storeActiveEventsThen, traceOf, valueOf. run.
    by destruct (storeUserActiveEvents _ _ w) as [[e|] w1].
  - intros Hsame w1 w2 Hstore Hdeliver. rewrite Hsame, String.eqb_refl.
    subst ask id. unfold setStatusOrAskUser, restoredStatus in *.
    assert (LastStatus user = "" → user = withLastStatus user "") as Hempty.
    { intros Hl. by rewrite <- Hl, withLastStatus_same. }
    unfold storeActiveEventsThen, traceOf, valueOf. run.
    destruct (String.eqb_spec (LastStatus user) "") as [Hl|Hl]; cbn in *.
    + rewrite <- (Hempty Hl) in *. rewrite Hstore.
      destruct (GetConfirmation (UserSettings user)); cbn; rewrite Hdeliver; cbn;
        by destruct (storeUserActiveEvents _ _ w2) as [[e|] w3].
    + rewrite Hstore. cbn.
      destruct (GetConfirmation (UserSettings user)); cbn; rewrite Hdeliver; cbn;
        by destruct (storeUserActiveEvents _ _ w2) as [[e|] w3].
Qed.

(** *** Presence: cancelled events *)

(** Whatever list of active events the reconciliation stores, it is the
    empty list or the fingerprints of the sorted busy events. *)
Lemma stored_active_events user status view w (id : string) (hashes : list string) :
  CallStoreUserActiveEvents id hashes
    ∈ traceOf (setStatusFromCalendarView user status view w) →
  hashes = []
  ∨ hashes = remoteHashesOf (checkOverlappingEvents (filterBusyEvents (Events view))).2.
Proof.
  unfold setStatusFromCalendarView, setStatusOrAskUser, storeActiveEventsThen, traceOf.
  destruct (filterBusyEvents (Events view)) as [|first events];
    [|destruct (checkOverlappingEvents (first :: events)) as [overlapping sorted]];
    run; intros Hin;
    repeat (case_match; simplify_eq; cbn in * );
    repeat match goal with
           | H : _ ∈ [] |- _ => by apply elem_of_nil in H
           | H : _ ∈ _ :: _ |- _ => apply elem_of_cons in H as [H|H]; simplify_eq
           end; auto.
Qed.

(** C10, as the code has it. Every fingerprint stored as an active event
    is the fingerprint of a busy event of the view that is not cancelled.
    A cancelled busy event still makes the user busy: for a user with a
    status option and no confirmations, with no stored active events, whose
    status is neither the busy status nor Offline, and whose only busy
    event is cancelled and has an attendee, presence is written as the busy
    status and the empty list is stored as the active events (the store
    and the presence write succeeding). *)
Theorem cancelled_event_busy_without_fingerprint user status view w :
  (∀ id hashes h,
     CallStoreUserActiveEvents id hashes
       ∈ traceOf (setStatusFromCalendarView user status view w) →
     h ∈ hashes →
     ∃ e, e ∈ Events view ∧ ShowAs e = "busy" ∧ IsCancelled e = false
          ∧ h = eventHash e)
  ∧ (∀ (e : Event) w1 w2 w3,
       let user' := withLastStatus user
                      (if Manual status then StatusValue status else "") in
       let id := MattermostUserID user in
       UpdateStatusFromOptions (UserSettings user) ≠ "" →
       GetConfirmation (UserSettings user) = false →
       StatusValue status ≠ StatusOffline →
       StatusValue status ≠ busyStatusOf user →
       ActiveEvents user = [] →
       filterBusyEvents (Events view) = [e] →
       IsCancelled e = true →
       (1 ≤ length (Attendees e))%nat →
       storeUser user' w = (None, w1) →
       updateMattermostUserStatus id (busyStatusOf user) w1 = (None, w2) →
       storeUserActiveEvents id [] w2 = (None, w3) →
       setStatusFromCalendarView user status view w
       = ((mkReply ("User was free, but is now busy (" +:+ busyStatusOf user
                    +:+ "). Set status to busy.") true None, user'),
          [CallStoreUser user';
           CallUpdateMattermostUserStatus id (busyStatusOf user);
           CallStoreUserActiveEvents id []],
          w3)).
Proof.
  split.
  - intros id hashes h Hcall Hh.
    apply stored_active_events in Hcall as [->| ->]; [by apply elem_of_nil in Hh|].
    rewrite (remoteHashesOf_Permutation _ _ (checkOverlappingEvents_Permutation _)) in Hh.
    apply remoteHashesOf_spec in Hh as (e & He & Hlive & ->).
    exists e. unfold filterBusyEvents in He.
    apply list_elem_of_In, filter_In in He as [He Hshow].
    apply String.eqb_eq in Hshow. by rewrite list_elem_of_In.
  - intros e w1 w2 w3 user' id Hset Hconf Hon Hother Hfree Hbusy Hcancelled Hatt
      Hstore Hpresence Hactive.
    apply String.eqb_neq in Hset, Hon, Hother.
    unfold setStatusFromCalendarView.
    assert ((length (Attendees e) <? 1)%nat = false) as Hatt'
      by (apply Nat.ltb_ge; lia).
    rewrite Hset, Hon, Hbusy, Hfree, Hother. cbn -[Nat.ltb].
    rewrite Hatt', Hcancelled.
    unfold setStatusOrAskUser, storeActiveEventsThen, busyStatusOf in *.
    subst user' id. unfold withLastStatus in *. run. rewrite Hconf. cbn.
    destruct (Manual status); cbn in *;
      rewrite Hstore, ?Hconf; cbn; rewrite Hpresence; cbn; by rewrite Hactive.
Qed.

(** *** Custom status *)


(** *** Reminders *)

(** The test of the loop, with the saturation of [Sub], is that window. *)
Lemma window_test (now : Z) (event : Event) :
  let diff := Sub (Start event) (now + upcomingEventNotificationTime) in
  (diff <? upcomingEventNotificationWindow)
  && (diff >? - upcomingEventNotificationWindow) = true
  ↔ inReminderWindow now event.
Proof.
  unfold inReminderWindow, Sub.
  change upcomingEventNotificationWindow with 330000000000.
  change upcomingEventNotificationTime with 600000000000.
  change minute with 60000000000.
  change minDuration with (-9223372036854775808).
  change maxDuration with 9223372036854775807.
  cbv zeta. rewrite andb_true_iff, Z.ltb_lt, Z.gtb_lt.
  repeat case_match;
    repeat match goal with
           | H : (_ <? _) = true |- _ => apply Z.ltb_lt in H
           | H : (_ <? _) = false |- _ => apply Z.ltb_ge in H
           end; lia.
Qed.


(** While the clock reads [now] and the timezone of the user is found, the
    reminders sent are those of the events that are not cancelled, start in
    the window and can be rendered, one for each, in the order of the view. *)
Lemma reminders_sent_from (now : Z) (tz id : string) (events : list Event) :
  tz ≠ "" →
  (∀ w, (timeNow w).1 = now) →
  (∀ w, (getTimezoneByID id w).1 = Ok tz) →
  ∀ timezone w,
    timezone = "" ∨ timezone = tz →
    remindersIn (traceOf (notifyUpcomingEventsFrom timezone id events w))
    = omap (reminderDue now tz id) events.
Proof.
  intros Htz Hclock Hfound.
  induction events as [|event rest IH]; intros timezone w Hzone; [done|].
  cbn [notifyUpcomingEventsFrom omap list_omap]. unfold reminderDue at 1.
  destruct (IsCancelled event); cbn [negb andb]; [by apply IH|].
  pose proof (window_test now event) as Htest. cbv zeta in Htest.
  unfold inReminderWindow in Htest. rewrite <- Z.ltb_lt in Htest.
  unfold traceOf, remindersIn in *. run.
  pose proof (Hclock w) as Hnow. destruct (timeNow w) as [now' w1]. cbn in Hnow. subst now'.
  destruct (2 * Z.abs (Start event - (now + 10 * minute)) <? 11 * minute).
  - rewrite (proj2 Htest eq_refl).
    assert (∀ w3, omap (λ c, match c with
                             | CallDM id message => Some (id, message)
                             | _ => None
                             end)
                    (notifyUpcomingEventsFrom tz id rest w3).1.2
                  = omap (reminderDue now tz id) rest) as Hrest
      by (intros w3; apply IH; by right).
    destruct Hzone as [-> | ->].
    + cbn. pose proof (Hfound w1) as Hf.
      destruct (getTimezoneByID id w1) as [found w1']. cbn in Hf. subst found. cbn.
      destruct (RenderUpcomingEvent event tz) as [message|e]; cbn.
      * destruct (dm id message w1') as [[e|] w3]; cbn;
          specialize (Hrest w3);
          destruct (notifyUpcomingEventsFrom tz id rest w3) as [[[] c] w4];
          cbn in *; by rewrite Hrest.
      * specialize (Hrest w1').
        by destruct (notifyUpcomingEventsFrom tz id rest w1') as [[[] c] w4].
    + apply String.eqb_neq in Htz. rewrite Htz. cbn.
      destruct (RenderUpcomingEvent event tz) as [message|e]; cbn.
      * destruct (dm id message w1) as [[e|] w3]; cbn;
          specialize (Hrest w3);
          destruct (notifyUpcomingEventsFrom tz id rest w3) as [[[] c] w4];
          cbn in *; by rewrite Hrest.
      * specialize (Hrest w1).
        by destruct (notifyUpcomingEventsFrom tz id rest w1) as [[[] c] w4].
  - destruct (_ && _); [destruct Htest as [Ht _]; by specialize (Ht eq_refl)|].
    specialize (IH timezone w1 Hzone).
    by destruct (notifyUpcomingEventsFrom timezone id rest w1) as [[[] c] w4].
Qed.

Corollary reminders_sent (now : Z) (tz id : string) (events : list Event) w :
  tz ≠ "" →
  (∀ w, (timeNow w).1 = now) →
  (∀ w, (getTimezoneByID id w).1 = Ok tz) →
  remindersIn (traceOf (notifyUpcomingEvents id events w))
  = omap (reminderDue now tz id) events.
Proof. intros. apply reminders_sent_from; auto. Qed.

(** *** The sync job: failures *)

Lemma warnTruncated_run (n : nat) (msg : string) w :
  ∃ warning, warnTruncated n msg w = (tt, warning, w).
Proof.
  unfold warnTruncated.
  destruct (n <? logTruncateLimit)%nat; [by eexists|].
  destruct (n =? logTruncateLimit)%nat; by eexists.
Qed.

(** The loading loop counts on top of what it is given: the users it
    loads and the world it leaves do not depend on the counters. *)
Lemma loadUsersFrom_counters (userIndex : list UserShort) :
  ∀ (f1 f2 n1 n2 : nat) (users : list User) w,
    let r1 := loadUsersFrom f1 n1 users userIndex w in
    let r2 := loadUsersFrom f2 n2 users userIndex w in
    ((valueOf r1).1 + f2 = (valueOf r2).1 + f1)%nat
    ∧ (valueOf r1).2 = (valueOf r2).2
    ∧ worldOf r1 = worldOf r2.
Proof.
  induction userIndex as [|u rest IH]; intros f1 f2 n1 n2 users w.
  - cbn. repeat split; lia.
  - cbn [loadUsersFrom]. unfold valueOf, worldOf in *. run.
    destruct (loadUser (ShortMattermostUserID u) w) as [[user|e] w1]; cbn.
    + specialize (IH f1 f2 n1 n2 (if needsSync user then users ++ [user] else users) w1).
      cbn in IH.
      destruct (loadUsersFrom f1 n1 _ rest w1) as [[[a1 l1] c1] w1'].
      destruct (loadUsersFrom f2 n2 _ rest w1) as [[[a2 l2] c2] w2']. cbn in *. done.
    + destruct (warnTruncated_run n1
        ("Not able to load user " +:+ ShortMattermostUserID u
         +:+ " from user index. err=" +:+ e) w1) as [c1 ->].
      destruct (warnTruncated_run n2
        ("Not able to load user " +:+ ShortMattermostUserID u
         +:+ " from user index. err=" +:+ e) w1) as [c2 ->].
      specialize (IH (S f1) (S f2) (S n1) (S n2) users w1). cbn in IH.
      destruct (loadUsersFrom (S f1) (S n1) _ rest w1) as [[[a1 l1] d1] w1'].
      destruct (loadUsersFrom (S f2) (S n2) _ rest w1) as [[[a2 l2] d2] w2']. cbn in *.
      repeat split; [lia|tauto..].
Qed.

(** A user that cannot be loaded is counted as failed and left out; the
    users after it are loaded as if it had not been in the index. *)
Lemma loadUsersFrom_failure (failed logs : nat) (users : list User)
    (u : UserShort) (rest : list UserShort) (e : error) w w1 :
  loadUser (ShortMattermostUserID u) w = (Err e, w1) →
  let r := loadUsersFrom failed logs users (u :: rest) w in
  let r' := loadUsersFrom failed logs users rest w1 in
  (valueOf r).1 = S (valueOf r').1
  ∧ (valueOf r).2 = (valueOf r').2
  ∧ worldOf r = worldOf r'.
Proof.
  intros Hload r r'.
  pose proof (loadUsersFrom_counters rest (S failed) failed (S logs) logs users w1)
    as Hc. cbv zeta in Hc.
  subst r r'. cbn [loadUsersFrom]. unfold valueOf, worldOf in *. run.
  rewrite Hload. cbn.
  destruct (warnTruncated_run logs
    ("Not able to load user " +:+ ShortMattermostUserID u
     +:+ " from user index. err=" +:+ e) w1) as [c ->].
  destruct (loadUsersFrom (S failed) (S logs) _ rest w1) as [[[a1 l1] d1] w1'].
  destruct (loadUsersFrom failed logs _ rest w1) as [[[a2 l2] d2] w2']. cbn in *.
  repeat split; [lia|tauto..].
Qed.

Lemma besidesWarnings_app (c1 c2 : list Call) :
  besidesWarnings (c1 ++ c2) = besidesWarnings c1 ++ besidesWarnings c2.
Proof. unfold besidesWarnings. induction c1 as [|c c1 IH]; cbn; [done|]. destruct c; cbn; by rewrite ?IH. Qed.

Lemma warnTruncated_warningAfter (n : nat) (msg : string) w :
  warnTruncated n msg w = (tt, warningAfter n msg, w).
Proof.
  unfold warnTruncated, warningAfter.
  destruct (n <? logTruncateLimit)%nat; [done|].
  by destruct (n =? logTruncateLimit)%nat.
Qed.

Lemma besidesWarnings_warningAfter (n : nat) (msg : string) :
  besidesWarnings (warningAfter n msg) = [].
Proof.
  unfold warningAfter.
  destruct (n <? logTruncateLimit)%nat; [done|].
  by destruct (n =? logTruncateLimit)%nat.
Qed.

(** What [noteFailure] leaves: the state with the failure counted, and
    nothing done but the warning. *)
Lemma noteFailure_run (st : StatusLoop) user (err : option error) w :
  noteFailure st user err w
  = (match err with Some _ => countFailure st | None => st end,
     match err with
     | Some e => warningAfter (numberOfLogs st)
                   ("Error setting user " +:+ MattermostUserID user
                    +:+ " status. err=" +:+ e)
     | None => []
     end, w).
Proof.
  unfold noteFailure. destruct err as [e|]; [|done].
  unfold mbind, mret, M_bind, M_ret. rewrite warnTruncated_warningAfter.
  by rewrite app_nil_r.
Qed.

(** One view leaves the same calls besides warnings, the same world and the
    same user records whatever the counters of the loop are. *)
Lemma setUserStatusForView_calls (k : nat) (a b : StatusLoop) user status view w :
  moreFailures k a b →
  let ra := setUserStatusForView a user status view w in
  let rb := setUserStatusForView b user status view w in
  moreFailures k (valueOf ra) (valueOf rb)
  ∧ worldOf ra = worldOf rb
  ∧ besidesWarnings (traceOf ra) = besidesWarnings (traceOf rb).
Proof.
  intros (Hl & He & Hc & Hr & Hu) ra rb. subst ra rb.
  unfold setUserStatusForView, valueOf, worldOf, traceOf.
  unfold mbind, mret, M_bind, M_ret.
  destruct (wantsStatusUpdate user) eqn:Hwants.
  - destruct (setStatusFromCalendarView user status view w) as [[[reply user'] c] w1].
    rewrite !noteFailure_run. cbn.
    destruct (SetCustomStatus (UserSettings user')).
    + destruct (setCustomStatusFromCalendarView user' view w1) as [[reply' c'] w2].
      rewrite !noteFailure_run. cbn.
      rewrite !besidesWarnings_app.
      destruct (failure reply), (failure reply'), (isStatusChanged reply),
        (isStatusChanged reply' && negb (wantsStatusUpdate user'));
        cbn; rewrite ?besidesWarnings_warningAfter;
        (split; [unfold moreFailures; cbn; repeat split; try congruence; lia|done]).
    + cbn. rewrite !besidesWarnings_app.
      destruct (failure reply), (isStatusChanged reply);
        cbn; rewrite ?besidesWarnings_warningAfter;
        (split; [unfold moreFailures; cbn; repeat split; try congruence; lia|done]).
  - cbn. destruct (SetCustomStatus (UserSettings user)).
    + destruct (setCustomStatusFromCalendarView user view w) as [[reply' c'] w2].
      rewrite !noteFailure_run. cbn.
      rewrite !besidesWarnings_app.
      destruct (failure reply'),
        (isStatusChanged reply' && negb (wantsStatusUpdate user));
        cbn; rewrite ?besidesWarnings_warningAfter;
        (split; [unfold moreFailures; cbn; repeat split; try congruence; lia|done]).
    + cbn. split; [unfold moreFailures; cbn; repeat split; try congruence; lia|done].
Qed.


Lemma setUserStatusesFrom_calls (k : nat) (statusMap : gmap string Status)
    (calendarViews : list ViewCalendarResponse) :
  ∀ (a b : StatusLoop) w,
    moreFailures k a b →
    let ra := setUserStatusesFrom a statusMap calendarViews w in
    let rb := setUserStatusesFrom b statusMap calendarViews w in
    moreFailures k (valueOf ra) (valueOf rb)
    ∧ worldOf ra = worldOf rb
    ∧ besidesWarnings (traceOf ra) = besidesWarnings (traceOf rb).
Proof.
  induction calendarViews as [|view rest IH]; intros a b w Hab; [done|].
  cbn [setUserStatusesFrom].
  assert (usersByRemoteID b = usersByRemoteID a) as Hu by apply Hab.
  rewrite Hu.
  destruct (usersByRemoteID a !! RemoteUserID view) as [user|]; [|by apply IH].
  destruct (ViewError view) as [msg|].
  - unfold mbind, mret, M_bind, M_ret. rewrite !warnTruncated_warningAfter.
    assert (moreFailures k (countFailure a) (countFailure b)) as Hfail.
    { destruct Hab as (?&?&?&?&?). repeat split; cbn; try done; lia. }
    specialize (IH _ _ w Hfail). cbv zeta in IH.
    unfold valueOf, worldOf, traceOf in *.
    destruct (setUserStatusesFrom (countFailure a) statusMap rest w) as [[a' ca] wa].
    destruct (setUserStatusesFrom (countFailure b) statusMap rest w) as [[b' cb] wb].
    cbn -[besidesWarnings] in *. rewrite !besidesWarnings_app, !besidesWarnings_warningAfter.
    destruct IH as (? & ? & ->). done.
  - destruct (statusMap !! MattermostUserID user) as [status|]; [|by apply IH].
    unfold mbind, mret, M_bind, M_ret.
    destruct (setUserStatusForView_calls k a b user status view w Hab)
      as (Hview & Hworld & Hcalls).
    unfold valueOf, worldOf, traceOf in *.
    destruct (setUserStatusForView a user status view w) as [[a1 ca] wa].
    destruct (setUserStatusForView b user status view w) as [[b1 cb] wb].
    cbn -[besidesWarnings] in Hview, Hworld, Hcalls. subst wb.
    specialize (IH _ _ wa Hview). cbv zeta in IH.
    destruct (setUserStatusesFrom a1 statusMap rest wa) as [[a2 ca2] wa2].
    destruct (setUserStatusesFrom b1 statusMap rest wa) as [[b2 cb2] wb2].
    cbn -[besidesWarnings] in *. rewrite !besidesWarnings_app, Hcalls.
    destruct IH as (? & ? & ->). done.
Qed.

(** The loop over two lists of views, one after the other. *)
Lemma setUserStatusesFrom_app (statusMap : gmap string Status)
    (pre rest : list ViewCalendarResponse) :
  ∀ (st : StatusLoop) w,
    setUserStatusesFrom st statusMap (pre ++ rest) w
    = let r := setUserStatusesFrom st statusMap pre w in
      after (traceOf r) (setUserStatusesFrom (valueOf r) statusMap rest (worldOf r)).
Proof.
  induction pre as [|view pre IH]; intros st w.
  - cbn. unfold after, valueOf, traceOf, worldOf. cbn.
    by destruct (setUserStatusesFrom st statusMap rest w) as [[? ?] ?].
  - cbn [app setUserStatusesFrom].
    destruct (usersByRemoteID st !! RemoteUserID view) as [user|]; [|by apply IH].
    destruct (ViewError view) as [msg|].
    + unfold mbind, mret, M_bind, M_ret. rewrite !warnTruncated_warningAfter.
      rewrite IH. cbv zeta. unfold after, valueOf, traceOf, worldOf.
      destruct (setUserStatusesFrom (countFailure st) statusMap pre w) as [[s1 c1] w1].
      cbn. destruct (setUserStatusesFrom s1 statusMap rest w1) as [[s2 c2] w2].
      cbn. by rewrite app_assoc.
    + destruct (statusMap !! MattermostUserID user) as [status|]; [|by apply IH].
      unfold mbind, mret, M_bind, M_ret.
      destruct (setUserStatusForView st user status view w) as [[s0 c0] w0].
      rewrite IH. cbv zeta. unfold after, valueOf, traceOf, worldOf.
      destruct (setUserStatusesFrom s0 statusMap pre w0) as [[s1 c1] w1].
      cbn. destruct (setUserStatusesFrom s1 statusMap rest w1) as [[s2 c2] w2].
      cbn. by rewrite app_assoc.
Qed.

(** The loop changes the user records of the map, never its keys. *)
Lemma setUserStatusForView_keys (st : StatusLoop) user status view w (key : string) :
  is_Some (usersByRemoteID st !! RemoteUserID view) →
  is_Some (usersByRemoteID (valueOf (setUserStatusForView st user status view w)) !! key)
  ↔ is_Some (usersByRemoteID st !! key).
Proof.
  intros Hview. unfold setUserStatusForView, valueOf.
  unfold mbind, mret, M_bind, M_ret.
  assert (∀ u', is_Some (<[RemoteUserID view := u']> (usersByRemoteID st) !! key)
                ↔ is_Some (usersByRemoteID st !! key)) as Hins.
  { intros u'. destruct (decide (RemoteUserID view = key)) as [<-|Hne].
    - rewrite lookup_insert_eq. split; [done|by eexists].
    - by rewrite lookup_insert_ne. }
  destruct (wantsStatusUpdate user).
  - destruct (setStatusFromCalendarView user status view w) as [[[reply user'] c] w1].
    rewrite !noteFailure_run. cbn.
    destruct (SetCustomStatus (UserSettings user')).
    + destruct (setCustomStatusFromCalendarView user' view w1) as [[reply' c'] w2].
      rewrite !noteFailure_run. cbn.
      destruct (failure reply), (failure reply'), (isStatusChanged reply),
        (isStatusChanged reply' && negb (wantsStatusUpdate user')); cbn; apply Hins.
    + cbn. destruct (failure reply), (isStatusChanged reply); cbn; apply Hins.
  - cbn. destruct (SetCustomStatus (UserSettings user)).
    + destruct (setCustomStatusFromCalendarView user view w) as [[reply' c'] w2].
      rewrite !noteFailure_run. cbn.
      by destruct (failure reply'),
        (isStatusChanged reply' && negb (wantsStatusUpdate user)).
    + done.
Qed.

Lemma setUserStatusesFrom_keys (statusMap : gmap string Status)
    (calendarViews : list ViewCalendarResponse) (key : string) :
  ∀ (st : StatusLoop) w,
    is_Some (usersByRemoteID (valueOf (setUserStatusesFrom st statusMap calendarViews w))
             !! key)
    ↔ is_Some (usersByRemoteID st !! key).
Proof.
  induction calendarViews as [|view rest IH]; intros st w; [done|].
  cbn [setUserStatusesFrom].
  destruct (usersByRemoteID st !! RemoteUserID view) as [user|] eqn:Huser;
    [|by apply IH].
  destruct (ViewError view) as [msg|].
  - unfold mbind, mret, M_bind, M_ret. rewrite !warnTruncated_warningAfter.
    specialize (IH (countFailure st) w). unfold valueOf in *.
    destruct (setUserStatusesFrom (countFailure st) statusMap rest w) as [[s1 c1] w1].
    done.
  - destruct (statusMap !! MattermostUserID user) as [status|]; [|by apply IH].
    unfold mbind, mret, M_bind, M_ret.
    pose proof (setUserStatusForView_keys st user status view w key) as Hkeys.
    unfold valueOf in *.
    destruct (setUserStatusForView st user status view w) as [[s0 c0] w0].
    specialize (IH s0 w0).
    destruct (setUserStatusesFrom s0 statusMap rest w0) as [[s1 c1] w1].
    cbn -[besidesWarnings] in *. rewrite IH. apply Hkeys. by rewrite Huser.
Qed.

(** A view that carries an error, for a user of the map, wherever it stands
    among the views: one failure more, and the same user records, the same
    message, the same changes counted, the same world and the same calls
    besides warnings as without it. *)
Lemma setUserStatusesFrom_failed_view (st : StatusLoop) (statusMap : gmap string Status)
    (pre : list ViewCalendarResponse) view (rest : list ViewCalendarResponse)
    (msg : string) w :
  is_Some (usersByRemoteID st !! RemoteUserID view) →
  ViewError view = Some msg →
  let r := setUserStatusesFrom st statusMap (pre ++ view :: rest) w in
  let r' := setUserStatusesFrom st statusMap (pre ++ rest) w in
  moreFailures 1 (valueOf r') (valueOf r)
  ∧ worldOf r = worldOf r'
  ∧ besidesWarnings (traceOf r) = besidesWarnings (traceOf r').
Proof.
  intros Huser Herror r r'. subst r r'.
  rewrite !setUserStatusesFrom_app. cbv zeta.
  pose proof (setUserStatusesFrom_keys statusMap pre (RemoteUserID view) st w) as Hkeys.
  unfold after, valueOf, traceOf, worldOf in *.
  destruct (setUserStatusesFrom st statusMap pre w) as [[s1 c1] w1]. cbn -[besidesWarnings] in *.
  apply Hkeys in Huser as [user Huser].
  cbn [setUserStatusesFrom]. rewrite Huser, Herror.
  unfold mbind, mret, M_bind, M_ret. rewrite warnTruncated_warningAfter.
  assert (moreFailures 1 s1 (countFailure s1)) as Hfail
    by (repeat split; cbn; lia).
  pose proof (setUserStatusesFrom_calls 1 statusMap rest _ _ w1 Hfail) as Hrest.
  cbv zeta in Hrest. unfold valueOf, traceOf, worldOf in Hrest.
  destruct (setUserStatusesFrom (countFailure s1) statusMap rest w1) as [[b cb] wb].
  destruct (setUserStatusesFrom s1 statusMap rest w1) as [[a ca] wa].
  cbn -[besidesWarnings] in *. destruct Hrest as (Hmore & -> & Hcalls).
  rewrite !besidesWarnings_app, besidesWarnings_warningAfter, Hcalls. done.
Qed.

(** A view of a user who is not in the map is passed over, wherever it
    stands. *)
Lemma setUserStatusesFrom_unknown_view (st : StatusLoop)
    (statusMap : gmap string Status)
    (pre : list ViewCalendarResponse) view (rest : list ViewCalendarResponse) w :
  usersByRemoteID st !! RemoteUserID view = None →
  setUserStatusesFrom st statusMap (pre ++ view :: rest) w
  = setUserStatusesFrom st statusMap (pre ++ rest) w.
Proof.
  intros Huser. rewrite !setUserStatusesFrom_app. cbv zeta.
  pose proof (setUserStatusesFrom_keys statusMap pre (RemoteUserID view) st w) as Hkeys.
  unfold after, valueOf, traceOf, worldOf in *.
  destruct (setUserStatusesFrom st statusMap pre w) as [[s1 c1] w1]. cbn -[besidesWarnings] in *.
  cbn [setUserStatusesFrom].
  destruct (usersByRemoteID s1 !! RemoteUserID view) as [user|] eqn:Hs1; [|done].
  rewrite Huser in Hkeys. destruct Hkeys as [Hk _].
  destruct Hk as [? ?]; [by eexists|done].
Qed.


Lemma indexByRemoteID_nil : indexByRemoteID [] = ∅.
Proof. done. Qed.

(** The same for [setUserStatuses] itself, when the statuses of the users
    can be fetched. *)
Lemma setUserStatuses_failed_view (users : list User)
    (pre : list ViewCalendarResponse) view (rest : list ViewCalendarResponse)
    (msg : string) (statuses : list Status) w w1 :
  is_Some (indexByRemoteID (updatedUsers users) !! RemoteUserID view) →
  ViewError view = Some msg →
  getMattermostUserStatusesByIds (map MattermostUserID (updatedUsers users)) w
  = (Ok statuses, w1) →
  let r := setUserStatuses users (pre ++ view :: rest) w in
  let r' := setUserStatuses users (pre ++ rest) w in
  let '(out, changed, failed, err) := valueOf r in
  let '(out', changed', failed', err') := valueOf r' in
  failed = S failed' ∧ changed = changed' ∧ err = None ∧ err' = None
  ∧ (out = out' ∨ out = JSONBlock (pre ++ view :: rest) ∧ out' = JSONBlock (pre ++ rest))
  ∧ worldOf r = worldOf r'
  ∧ besidesWarnings (traceOf r) = besidesWarnings (traceOf r').
Proof.
  intros Huser Herror Hstatuses r r'. subst r r'.
  unfold setUserStatuses. fold (updatedUsers users).
  destruct (updatedUsers users) as [|u0 toUpdate] eqn:HtoUpdate.
  { rewrite indexByRemoteID_nil, lookup_empty in Huser. by destruct Huser. }
  rewrite <- HtoUpdate in *. clear HtoUpdate.
  unfold PluginAPI_GetMattermostUserStatusesByIds, call.
  unfold mbind, mret, M_bind, M_ret. rewrite Hstatuses.
  set (statusMap := foldl _ _ statuses).
  set (st := mkStatusLoop 0 0 0 "" _).
  destruct (setUserStatusesFrom_failed_view st statusMap pre view rest msg w1 Huser Herror)
    as ((Hl & He & Hc & Hr & Hu) & Hw & Hcalls).
  unfold valueOf, worldOf, traceOf in *.
  destruct (setUserStatusesFrom st statusMap (pre ++ view :: rest) w1) as [[b cb] wb].
  destruct (setUserStatusesFrom st statusMap (pre ++ rest) w1) as [[a ca] wa].
  cbn -[besidesWarnings] in *. rewrite Hr.
  unfold besidesWarnings in *.
  destruct (negb (res a =? "")%string); cbn [List.filter app fst snd];
    rewrite ?app_nil_r, Hcalls;
    (repeat split; try done; try lia; auto).
Qed.

(** A view of a user whom [setUserStatuses] does not update, with an error
    or without, is passed over. *)
Lemma setUserStatuses_unknown_view (users : list User)
    (pre : list ViewCalendarResponse) view (rest : list ViewCalendarResponse) w :
  indexByRemoteID (updatedUsers users) !! RemoteUserID view = None →
  let r := setUserStatuses users (pre ++ view :: rest) w in
  let r' := setUserStatuses users (pre ++ rest) w in
  let '(out, changed, failed, err) := valueOf r in
  let '(out', changed', failed', err') := valueOf r' in
  failed = failed' ∧ changed = changed' ∧ err = err'
  ∧ (out = out' ∨ out = JSONBlock (pre ++ view :: rest) ∧ out' = JSONBlock (pre ++ rest))
  ∧ worldOf r = worldOf r'
  ∧ traceOf r = traceOf r'.
Proof.
  intros Huser r r'. subst r r'.
  unfold setUserStatuses. fold (updatedUsers users).
  destruct (updatedUsers users) as [|u0 toUpdate] eqn:HtoUpdate.
  { cbn. repeat split; auto. }
  rewrite <- HtoUpdate in *. clear HtoUpdate.
  unfold PluginAPI_GetMattermostUserStatusesByIds, call.
  unfold mbind, mret, M_bind, M_ret.
  destruct (getMattermostUserStatusesByIds _ w) as [[statuses|e] w1].
  2: { cbn. repeat split; auto. }
  set (statusMap := foldl _ _ statuses).
  set (st := mkStatusLoop 0 0 0 "" _).
  rewrite (setUserStatusesFrom_unknown_view st statusMap pre view rest w1 Huser).
  unfold valueOf, worldOf, traceOf.
  destruct (setUserStatusesFrom st statusMap (pre ++ rest) w1) as [[a ca] wa].
  destruct (negb (res a =? "")%string); cbn; repeat split; auto.
Qed.

(** The loop of [deliverReminders] over two lists of views, one after the
    other: the counter of warnings has gone up by the failed views of the
    first. *)
Lemma deliverRemindersFrom_app (idx : gmap string User)
    (pre rest : list ViewCalendarResponse) :
  ∀ (n : nat) w,
    deliverRemindersFrom n idx (pre ++ rest) w
    = let r := deliverRemindersFrom n idx pre w in
      after (traceOf r)
        (deliverRemindersFrom (n + length (failedViews idx pre)) idx rest (worldOf r)).
Proof.
  induction pre as [|view pre IH]; intros n w.
  - cbn. rewrite Nat.add_0_r. unfold after, valueOf, traceOf, worldOf. cbn.
    by destruct (deliverRemindersFrom n idx rest w) as [[[] ?] ?].
  - cbn [app deliverRemindersFrom failedViews List.filter].
    destruct (idx !! RemoteUserID view) as [user|] eqn:Huser.
    2: { rewrite bool_decide_eq_false_2 by (by intros [? ?]). cbn. apply IH. }
    rewrite (bool_decide_eq_true_2 (is_Some (Some user))) by by eexists.
    destruct (ViewError view) as [msg|].
    + rewrite bool_decide_eq_true_2 by by eexists. cbn [andb length].
      unfold mbind, mret, M_bind, M_ret. rewrite !warnTruncated_warningAfter.
      rewrite IH. cbv zeta. fold (failedViews idx pre).
      replace (S n + length (failedViews idx pre))%nat
        with (n + S (length (failedViews idx pre)))%nat by lia.
      unfold after, valueOf, traceOf, worldOf.
      destruct (deliverRemindersFrom (S n) idx pre w) as [[[] c1] w1]. cbn.
      destruct (deliverRemindersFrom _ idx rest w1) as [[[] c2] w2].
      cbn. by rewrite app_assoc.
    + rewrite bool_decide_eq_false_2 by (by intros [? ?]). cbn [andb].
      unfold mbind, mret, M_bind, M_ret.
      destruct (notifyUpcomingEvents (MattermostUserID user) (Events view) w)
        as [[[] c0] w0].
      rewrite IH. cbv zeta. fold (failedViews idx pre).
      unfold after, valueOf, traceOf, worldOf.
      destruct (deliverRemindersFrom n idx pre w0) as [[[] c1] w1]. cbn.
      destruct (deliverRemindersFrom _ idx rest w1) as [[[] c2] w2].
      cbn. by rewrite app_assoc.
Qed.

(** A view that carries an error, for a user who receives reminders: the
    warning is written if fewer than [logTruncateLimit] such views came
    before it, the notice if as many, nothing if more; and the loop goes on
    with the views after it. *)
Lemma deliverReminders_failed_view (users : list User)
    (pre : list ViewCalendarResponse) view (rest : list ViewCalendarResponse)
    user (msg : string) w :
  indexByRemoteID (remindedUsers users) !! RemoteUserID view = Some user →
  ViewError view = Some msg →
  let usersByRemoteID := indexByRemoteID (remindedUsers users) in
  let before := length (failedViews usersByRemoteID pre) in
  let r := deliverReminders users pre w in
  deliverReminders users (pre ++ view :: rest) w
  = after (traceOf r
           ++ warningAfter before
                ("Error getting availability for " +:+ MattermostUserID user
                 +:+ ". err=" +:+ msg))
      (deliverRemindersFrom (S before) usersByRemoteID rest (worldOf r)).
Proof.
  intros Huser Herror idx before r. subst idx before r.
  unfold deliverReminders. fold (remindedUsers users).
  destruct (remindedUsers users) as [|u0 toNotify] eqn:HtoNotify.
  { by rewrite indexByRemoteID_nil, lookup_empty in Huser. }
  rewrite <- HtoNotify in *. clear HtoNotify.
  rewrite deliverRemindersFrom_app. cbv zeta.
  cbn [deliverRemindersFrom]. rewrite Huser, Herror.
  unfold mbind, mret, M_bind, M_ret. rewrite warnTruncated_warningAfter.
  unfold after, valueOf, traceOf, worldOf.
  destruct (deliverRemindersFrom 0 _ pre w) as [[[] c1] w1]. cbn.
  destruct (deliverRemindersFrom _ _ rest w1) as [[[] c2] w2].
  cbn. by rewrite app_assoc.
Qed.

(** The summary of [syncUsers] when a view carries an error for a user
    whose status the job updates: the failed loads, one for the view, and
    what [setUserStatuses] counts on the other views. *)
Lemma syncUsers_failed_view (userIndex : list UserShort) (failed : nat)
    (users : list User) (pre : list ViewCalendarResponse) view
    (rest : list ViewCalendarResponse) (msg : string) (statuses : list Status)
    c1 c2 c3 w w1 w2 w3 w4 :
  loadUsersFrom 0 0 [] userIndex w = ((failed, users), c1, w1) →
  GetCalendarViews users w1 = (Ok (pre ++ view :: rest), c2, w2) →
  deliverReminders users (pre ++ view :: rest) w2 = (tt, c3, w3) →
  is_Some (indexByRemoteID (updatedUsers users) !! RemoteUserID view) →
  ViewError view = Some msg →
  getMattermostUserStatusesByIds (map MattermostUserID (updatedUsers users)) w3
  = (Ok statuses, w4) →
  let others := setUserStatuses users (pre ++ rest) w3 in
  let '(_, changed', failed', _) := valueOf others in
  ∃ out,
    valueOf (syncUsers userIndex w)
    = (out, Some (mkSummary (failed + S failed') changed' (length userIndex)), None)
    ∧ worldOf (syncUsers userIndex w) = worldOf others.
Proof.
  intros Hload Hviews Hremind Huser Herror Hstatuses others. subst others.
  pose proof (setUserStatuses_failed_view users pre view rest msg statuses w3 w4
                Huser Herror Hstatuses) as Hview. cbv zeta in Hview.
  assert (users ≠ []) as Husers.
  { intros ->. change (is_Some ((∅ : gmap string User) !! RemoteUserID view)) in Huser.
    rewrite lookup_empty in Huser. by destruct Huser. }
  assert (userIndex ≠ []) as Hindex.
  { intros ->. cbn in Hload. unfold mret, M_ret in Hload. by simplify_eq. }
  unfold syncUsers. destruct userIndex as [|u index]; [done|].
  unfold mbind, mret, M_bind, M_ret. rewrite Hload.
  destruct users as [|user users]; [done|]. rewrite Hviews.
  destruct (pre ++ view :: rest) as [|v views] eqn:Hall;
    [by destruct pre|]. rewrite Hremind.
  unfold valueOf, worldOf in *.
  destruct (setUserStatuses (user :: users) (v :: views) w3)
    as [[[[[out changed] failedStatus] err] c4] w5].
  destruct (setUserStatuses (user :: users) (pre ++ rest) w3)
    as [[[[[out' changed'] failed'] err'] c4'] w5'].
  cbn in Hview. destruct Hview as (-> & -> & -> & -> & _ & -> & _).
  cbn. by eexists.
Qed.

(** C8, as the code has it.
    - A user that cannot be loaded from the store adds one to the number of
      failed users and is passed over, the users after it being loaded as
      if it had not been in the index.
    - A view that carries an error, for a user whose status or custom
      status the job updates, wherever it stands among the views: when the
      statuses of the users can be fetched, [setUserStatuses] returns one
      failure more than on the other views alone, with the same number of
      changes, the same world and the same calls besides warnings; and the
      summary of [syncUsers] counts the failed loads, the view, and the
      failures on the other views.
    - A view of a user whose status the job does not update, as one who
      only receives reminders, is passed over by [setUserStatuses] and
      counted by nobody; [deliverReminders] writes a warning for its error
      if fewer than five failed views came before it, a notice that the
      log is truncated if five did, and nothing if more.
    - The summary of [syncUsers] adds the failed loads and the failures
      [setUserStatuses] returns.
    - [SyncAll] gives up with an error when the superuser client cannot be
      had, and when the user index cannot be loaded for a reason other than
      "not found"; an index that is "not found" ends the run with a message
      and no error. *)
Theorem sync_failures w :
  (∀ failed logs users u rest e w1,
     loadUser (ShortMattermostUserID u) w = (Err e, w1) →
     let r := loadUsersFrom failed logs users (u :: rest) w in
     let r' := loadUsersFrom failed logs users rest w1 in
     (valueOf r).1 = S (valueOf r').1
     ∧ (valueOf r).2 = (valueOf r').2
     ∧ worldOf r = worldOf r')
  ∧ (∀ users pre view rest msg statuses w1,
       is_Some (indexByRemoteID (updatedUsers users) !! RemoteUserID view) →
       ViewError view = Some msg →
       getMattermostUserStatusesByIds (map MattermostUserID (updatedUsers users)) w
       = (Ok statuses, w1) →
       let r := setUserStatuses users (pre ++ view :: rest) w in
       let r' := setUserStatuses users (pre ++ rest) w in
       let '(out, changed, failed, err) := valueOf r in
       let '(out', changed', failed', err') := valueOf r' in
       failed = S failed' ∧ changed = changed' ∧ err = None ∧ err' = None
       ∧ (out = out'
          ∨ out = JSONBlock (pre ++ view :: rest) ∧ out' = JSONBlock (pre ++ rest))
       ∧ worldOf r = worldOf r'
       ∧ besidesWarnings (traceOf r) = besidesWarnings (traceOf r'))
  ∧ (∀ userIndex failed users pre view rest msg statuses c1 c2 c3 w1 w2 w3 w4,
       loadUsersFrom 0 0 [] userIndex w = ((failed, users), c1, w1) →
       GetCalendarViews users w1 = (Ok (pre ++ view :: rest), c2, w2) →
       deliverReminders users (pre ++ view :: rest) w2 = (tt, c3, w3) →
       is_Some (indexByRemoteID (updatedUsers users) !! RemoteUserID view) →
       ViewError view = Some msg →
       getMattermostUserStatusesByIds (map MattermostUserID (updatedUsers users)) w3
       = (Ok statuses, w4) →
       let others := setUserStatuses users (pre ++ rest) w3 in
       let '(_, changed', failed', _) := valueOf others in
       ∃ out,
         valueOf (syncUsers userIndex w)
         = (out, Some (mkSummary (failed + S failed') changed' (length userIndex)),
            None)
         ∧ worldOf (syncUsers userIndex w) = worldOf others)
  ∧ (∀ users pre view rest,
       indexByRemoteID (updatedUsers users) !! RemoteUserID view = None →
       let r := setUserStatuses users (pre ++ view :: rest) w in
       let r' := setUserStatuses users (pre ++ rest) w in
       let '(out, changed, failed, err) := valueOf r in
       let '(out', changed', failed', err') := valueOf r' in
       failed = failed' ∧ changed = changed' ∧ err = err'
       ∧ (out = out'
          ∨ out = JSONBlock (pre ++ view :: rest) ∧ out' = JSONBlock (pre ++ rest))
       ∧ worldOf r = worldOf r'
       ∧ traceOf r = traceOf r')
  ∧ (∀ users pre view rest user msg,
       indexByRemoteID (remindedUsers users) !! RemoteUserID view = Some user →
       ViewError view = Some msg →
       let usersByRemoteID := indexByRemoteID (remindedUsers users) in
       let before := length (failedViews usersByRemoteID pre) in
       let r := deliverReminders users pre w in
       deliverReminders users (pre ++ view :: rest) w
       = after (traceOf r
                ++ (if (before <? logTruncateLimit)%nat
                    then [CallWarnf ("Error getting availability for "
                                     +:+ MattermostUserID user +:+ ". err=" +:+ msg)]
                    else if (before =? logTruncateLimit)%nat
                         then [CallWarnf logTruncateMsg]
                         else []))
           (deliverRemindersFrom (S before) usersByRemoteID rest (worldOf r)))
  ∧ (∀ userIndex failed users c1 w1 views c2 w2 c3 w3 out changed failedStatus c4 w4,
       userIndex ≠ [] →
       loadUsersFrom 0 0 [] userIndex w = ((failed, users), c1, w1) →
       users ≠ [] →
       GetCalendarViews users w1 = (Ok views, c2, w2) →
       views ≠ [] →
       deliverReminders users views w2 = (tt, c3, w3) →
       setUserStatuses users views w3 = ((out, changed, failedStatus, None), c4, w4) →
       syncUsers userIndex w
       = ((out, Some (mkSummary (failed + failedStatus) changed (length userIndex)),
           None),
          c1 ++ c2 ++ c3 ++ c4, w4))
  ∧ (∀ e w1,
       applyFilter withSuperuserClient w = (Some e, w1) →
       SyncAll w
       = (("", Some (mkSummary 0 0 0),
           Some (Wrap e "not able to filter the super user client")),
          [CallFilter withSuperuserClient], w1))
  ∧ (∀ e w1 w2,
       applyFilter withSuperuserClient w = (None, w1) →
       loadUserIndex w1 = (Err e, w2) →
       (e ≠ "not found" →
        SyncAll w
        = (("", Some (mkSummary 0 0 0),
            Some (Wrap e "not able to load the users from user index")),
           [CallFilter withSuperuserClient; CallLoadUserIndex], w2))
       ∧ (e = "not found" →
          SyncAll w
          = (("No users found in user index", Some (mkSummary 0 0 0), None),
             [CallFilter withSuperuserClient; CallLoadUserIndex], w2))).
Proof.
  split; [|split; [|split; [|split; [|split; [|split; [|split]]]]]].
  - intros. by apply (loadUsersFrom_failure _ _ _ _ _ e).
  - intros users pre view rest msg statuses w1 Huser Herror Hstatuses.
    exact (setUserStatuses_failed_view users pre view rest msg statuses w w1
             Huser Herror Hstatuses).
  - intros userIndex failed users pre view rest msg statuses c1 c2 c3 w1 w2 w3 w4
      Hload Hviews Hremind Huser Herror Hstatuses.
    exact (syncUsers_failed_view userIndex failed users pre view rest msg statuses
             c1 c2 c3 w w1 w2 w3 w4 Hload Hviews Hremind Huser Herror Hstatuses).
  - intros users pre view rest Huser.
    exact (setUserStatuses_unknown_view users pre view rest w Huser).
  - intros users pre view rest user msg Huser Herror.
    exact (deliverReminders_failed_view users pre view rest user msg w Huser Herror).
  - intros userIndex failed users c1 w1 views c2 w2 c3 w3 out changed failedStatus
      c4 w4 Hindex Hload Husers Hviews Hsome Hremind Hstatus.
    unfold syncUsers. destruct userIndex as [|u rest]; [done|].
    unfold mbind, mret, M_bind, M_ret. rewrite Hload.
    destruct users as [|user users]; [done|]. rewrite Hviews.
    destruct views as [|view views]; [done|]. rewrite Hremind, Hstatus.
    by rewrite !app_nil_r, !app_assoc.
  - intros e w1 Hfilter. unfold SyncAll. run. by rewrite Hfilter.
  - intros e w1 w2 Hfilter Hindex. unfold SyncAll. run. rewrite Hfilter. cbn.
    rewrite Hindex. cbn. split.
    + intros Hother%String.eqb_neq. by rewrite Hother.
    + intros ->. done.
Qed.

End Properties.

(** ** The theorems at work on the sample world *)

Import Sample Scenario.

Example fingerprint_of_meeting : eventHash meeting = "uid-1 2024-03-04T10:00:00Z".
Proof. reflexivity. Qed.

Example overlap_is_found :
  checkOverlappingEvents [overlap; meeting] = (true, [meeting; overlap]).
Proof. reflexivity. Qed.

(** The next cycle of the user of [free_to_busy_dnd_witness], with the same
    event in the view: nothing is written. *)
Example second_cycle_unchanged :
  setStatusFromCalendarView (busyWith ["uid-1 2024-03-04T10:00:00Z"]) dnd
    (viewOf [meeting]) quiet
  = ((mkReply "No change in active events. Total number of events: 1" false None,
      busyWith ["uid-1 2024-03-04T10:00:00Z"]), [], quiet).
Proof. reflexivity. Qed.

(** At 10:00 the meeting of 10:10 is due a reminder; the one that has begun
    and the cancelled one are not. *)
Example reminders_at_ten :
  remindersIn (traceOf (notifyUpcomingEvents "alice" [cancelled; meeting; soon] quiet))
  = [("alice", "Upcoming: uid-5 (UTC)")].
Proof. reflexivity. Qed.

Lemma offline_without_confirmation_untouched_witness :
  presenceUntouched (busyWith ["uid-1 2024-03-04T10:00:00Z"]) offline (viewOf [meeting]) quiet.
Proof.
  apply offline_without_confirmation_untouched; reflexivity.
Defined.

Lemma overlapping_events_untouched_witness :
  presenceUntouched alice online (viewOf [meeting; overlap]) quiet
  ∧ customStatusUntouched alice (viewOf [meeting; overlap]) quiet.
Proof.
  apply overlapping_events_untouched.
  exists 0%nat, meeting, overlap. repeat split; reflexivity.
Defined.

Lemma no_attendee_event_untouched_witness :
  presenceUntouched alice online (viewOf [focusTime]) quiet
  ∧ presenceUntouched alice online (viewOf [focusTime; focusTime]) quiet.
Proof.
  split.
  - apply (proj1 (no_attendee_event_untouched alice online (viewOf [focusTime]) quiet)
             focusTime).
    + apply list_elem_of_here.
    + intros e' [->|Hnil%elem_of_nil]%elem_of_cons; [by left|done].
    + simpl. lia.
  - apply (proj2 (no_attendee_event_untouched alice online
                    (viewOf [focusTime; focusTime]) quiet)).
    + reflexivity.
    + intros e [->|[->|Hnil%elem_of_nil]%elem_of_cons]%elem_of_cons;
        [simpl; lia..|done].
Defined.

Lemma free_to_busy_dnd_witness :
  setStatusFromCalendarView alice online (viewOf [meeting]) quiet
  = ((mkReply "User was free, but is now busy (dnd). Set status to busy." true None,
      withLastStatus alice ""),
     [CallStoreUser (withLastStatus alice "");
      CallUpdateMattermostUserStatus "alice" StatusDnd;
      CallStoreUserActiveEvents "alice" [eventHash meeting]],
     quiet).
Proof.
  apply (free_to_busy_dnd alice online (viewOf [meeting]) meeting quiet quiet quiet quiet);
    try reflexivity; discriminate.
Defined.

(** C1, the counterexample: in the scenario of the claim the presence write,
    the stored fingerprint and the reported change are as claimed, and the
    message is not the claimed one. *)
Lemma free_to_busy_message_differs :
  let r := setStatusFromCalendarView alice online (viewOf [meeting]) quiet in
  traceOf r
  = [CallStoreUser alice;
     CallUpdateMattermostUserStatus "alice" "dnd";
     CallStoreUserActiveEvents "alice" ["uid-1 2024-03-04T10:00:00Z"]]
  ∧ isStatusChanged (valueOf r).1 = true
  ∧ message (valueOf r).1 = "User was free, but is now busy (dnd). Set status to busy."
  ∧ message (valueOf r).1
    ≠ "User was free, but is now busy (dnd). Set status to busy (dnd).".
Proof.
  repeat split; try reflexivity. vm_compute. discriminate.
Qed.

Lemma busy_unchanged_when_no_new_event_witness :
  let user := busyWith ["uid-1 2024-03-04T10:00:00Z"] in
  let r := setStatusFromCalendarView user dnd (viewOf [meeting]) quiet in
  (traceOf r = [] ↔ remoteFingerprints (viewOf [meeting]) ⊆ ActiveEvents user)
  ∧ (remoteFingerprints (viewOf [meeting]) ⊆ ActiveEvents user →
     r = ((mkReply ("No change in active events. Total number of events: "
                    +:+ pretty (length (filterBusyEvents (Events (viewOf [meeting])))))
                   false None, user), [], quiet))
  ∧ ((∀ h, h ∈ remoteFingerprints (viewOf [meeting]) ↔ h ∈ ActiveEvents user) →
     traceOf r = []).
Proof.
  apply (busy_unchanged_when_no_new_event
           (busyWith ["uid-1 2024-03-04T10:00:00Z"]) dnd (viewOf [meeting]) meeting quiet).
  - discriminate.
  - intros [Hoff _]. discriminate Hoff.
  - discriminate.
  - intros (i & a & b & _ & Hb & _). vm_compute in Hb. destruct i; discriminate Hb.
  - reflexivity.
  - simpl. lia.
Defined.

(** C2, the counterexample: the stored active events hold a fingerprint the
    view no longer has, the two are not equal as sets, and the
    reconciliation still answers that nothing changed and writes nothing. *)
Lemma stale_fingerprint_counts_as_unchanged :
  let user := busyWith ["uid-1 2024-03-04T10:00:00Z"; "uid-9 2024-03-04T09:30:00Z"] in
  let view := viewOf [meeting] in
  let r := setStatusFromCalendarView user dnd view quiet in
  traceOf r = []
  ∧ message (valueOf r).1 = "No change in active events. Total number of events: 1"
  ∧ ¬ (∀ h, h ∈ remoteFingerprints view ↔ h ∈ ActiveEvents user).
Proof.
  repeat split; try reflexivity.
  intros Heq.
  assert ("uid-9 2024-03-04T09:30:00Z" ∈ remoteFingerprints (viewOf [meeting])) as Hin.
  { apply Heq. simpl. apply elem_of_cons. right. apply list_elem_of_here. }
  vm_compute in Hin.
  apply elem_of_cons in Hin as [Hin|Hin%elem_of_nil]; [discriminate Hin|done].
Qed.

Lemma busy_to_free_witness :
  let user := busyWith ["uid-1 2024-03-04T10:00:00Z"] in
  (traceOf (setStatusFromCalendarView user online (viewOf []) quiet)
   = [CallStoreUserActiveEvents "alice" []])
  ∧ (traceOf (setStatusFromCalendarView user dnd (viewOf []) quiet)
     = [CallStoreUser user;
        CallUpdateMattermostUserStatus "alice" StatusOnline;
        CallStoreUserActiveEvents "alice" []]).
Proof.
  intros user. split.
  - refine (proj1 (proj1 (busy_to_free user online (viewOf []) quiet _ _ _ _) _)).
    + discriminate.
    + intros [Hoff _]. discriminate Hoff.
    + discriminate.
    + reflexivity.
    + discriminate.
  - refine (proj1 (proj2 (busy_to_free user dnd (viewOf []) quiet _ _ _ _) _
                     quiet quiet _ _)).
    + discriminate.
    + intros [Hoff _]. discriminate Hoff.
    + discriminate.
    + reflexivity.
    + reflexivity.
    + reflexivity.
    + reflexivity.
Defined.

(** C3, the counterexample: a user who is Offline and has confirmations
    switched off keeps the stored active events although the view has no
    busy event: no call is made. *)
Lemma offline_user_keeps_active_events :
  let user := busyWith ["uid-1 2024-03-04T10:00:00Z"] in
  let r := setStatusFromCalendarView user offline (viewOf []) quiet in
  ActiveEvents user ≠ []
  ∧ filterBusyEvents (Events (viewOf [])) = []
  ∧ StatusValue offline ≠ busyStatusOf user
  ∧ traceOf r = []
  ∧ CallStoreUserActiveEvents "alice" [] ∉ traceOf r.
Proof.
  repeat split; try reflexivity; try discriminate.
  vm_compute. apply not_elem_of_nil.
Qed.

Lemma cancelled_event_busy_without_fingerprint_witness :
  setStatusFromCalendarView alice online (viewOf [cancelled]) quiet
  = ((mkReply "User was free, but is now busy (dnd). Set status to busy." true None,
      alice),
     [CallStoreUser alice;
      CallUpdateMattermostUserStatus "alice" "dnd";
      CallStoreUserActiveEvents "alice" []],
     quiet).
Proof.
  refine (proj2 (cancelled_event_busy_without_fingerprint alice online
                   (viewOf [cancelled]) quiet)
            cancelled quiet quiet quiet _ _ _ _ _ _ _ _ _ _ _);
    try reflexivity; discriminate.
Defined.

(** C10, the counterexample: the only busy event is cancelled and has an
    attendee, no active event is stored and the status is not the busy
    status.  An Offline user without confirmations is left alone; a user who
    wants confirmations gets a direct message and no presence write. *)
Lemma cancelled_event_without_presence_write :
  let asking := mkUser "alice" "r-alice" (mkSettings DNDStatusOption true false false)
                       "" [] false in
  traceOf (setStatusFromCalendarView alice offline (viewOf [cancelled]) quiet) = []
  ∧ traceOf (setStatusFromCalendarView asking online (viewOf [cancelled]) quiet)
    = [CallStoreUser asking;
       CallDMWithAttachments "alice"
         (mkNotification [cancelled] "dnd" confirmStatusChangeURL);
       CallStoreUserActiveEvents "alice" []].
Proof.
  split; reflexivity.
Qed.



Lemma sync_failures_witness :
  let noSuperuser :=
    mkWorld tenOClock (Some "no token") None (Ok []) [] (Ok []) (Ok [])
            (Ok (mkMattermostUser None)) (Ok "UTC") None None None in
  let noIndex :=
    mkWorld tenOClock None None (Err "store is down") [] (Ok []) (Ok [])
            (Ok (mkMattermostUser None)) (Ok "UTC") None None None in
  let carol := mkUser "carol" "r-carol" (mkSettings NotSetStatusOption false true false)
                      "" [] false in
  let team := [alice; carol] in
  let index := [mkUserShort "alice" "r-alice"; mkUserShort "carol" "r-carol"] in
  let failedAlice := mkView "r-alice" [] (Some "remote is down") in
  let failedCarol := mkView "r-carol" [] (Some "remote is down") in
  let remoteDown :=
    mkWorld tenOClock None None (Ok index) team (Ok [online])
            (Ok [failedAlice; failedCarol])
            (Ok (mkMattermostUser None)) (Ok "UTC") None None None in
  SyncAll noSuperuser
  = (("", Some (mkSummary 0 0 0),
      Some (Wrap "no token" "not able to filter the super user client")),
     [CallFilter withSuperuserClient], noSuperuser)
  ∧ SyncAll noIndex
    = (("", Some (mkSummary 0 0 0),
        Some (Wrap "store is down" "not able to load the users from user index")),
       [CallFilter withSuperuserClient; CallLoadUserIndex], noIndex)
  ∧ (valueOf (loadUsersFrom 0 0 [] [mkUserShort "alice" "r-alice"] quiet)).1
    = S (valueOf (loadUsersFrom 0 0 [] [] quiet)).1
  ∧ (valueOf (setUserStatuses team [failedAlice; failedCarol] remoteDown)).1.2
    = S (valueOf (setUserStatuses team [failedCarol] remoteDown)).1.2
  ∧ (∃ out, valueOf (syncUsers index remoteDown)
            = (out, Some (mkSummary 1 0 2), None))
  ∧ (valueOf (setUserStatuses team [failedAlice; failedCarol] remoteDown)).1.2
    = (valueOf (setUserStatuses team [failedAlice] remoteDown)).1.2
  ∧ deliverReminders team [failedAlice; failedCarol] remoteDown
    = (tt, [CallWarnf "Error getting availability for carol. err=remote is down"],
       remoteDown).
Proof.
  intros noSuperuser noIndex carol team index failedAlice failedCarol remoteDown.
  assert (is_Some (indexByRemoteID (updatedUsers team) !! RemoteUserID failedAlice))
    as Hupdated by (by eexists).
  split; [|split; [|split; [|split; [|split; [|split]]]]].
  - exact (proj1 (proj2 (proj2 (proj2 (proj2 (proj2 (proj2 (sync_failures noSuperuser)))))))
             "no token" noSuperuser eq_refl).
  - refine (proj1 (proj2 (proj2 (proj2 (proj2 (proj2 (proj2 (proj2
              (sync_failures noIndex))))))) "store is down" noIndex noIndex
              eq_refl eq_refl) _).
    discriminate.
  - exact (proj1 (proj1 (sync_failures quiet) 0%nat 0%nat []
                    (mkUserShort "alice" "r-alice") [] "user not in store" quiet
                    eq_refl)).
  - exact (proj1 (proj1 (proj2 (sync_failures remoteDown)) team [] failedAlice
                    [failedCarol] "remote is down" [online] remoteDown
                    Hupdated eq_refl eq_refl)).
  - assert (loadUsersFrom 0 0 [] index remoteDown
            = ((0%nat, team), [CallLoadUser "alice"; CallLoadUser "carol"], remoteDown))
      as Hload by reflexivity.
    assert (GetCalendarViews team remoteDown
            = (Ok ([] ++ failedAlice :: [failedCarol]),
               [CallFilter withClient;
                CallDoBatchViewCalendarRequests
                  [mkParams "r-alice" tenOClock (tenOClock + 10 * minute);
                   mkParams "r-carol" tenOClock (tenOClock + 10 * minute)]],
               remoteDown)) as Hviews by reflexivity.
    assert (deliverReminders team ([] ++ failedAlice :: [failedCarol]) remoteDown
            = (tt,
               [CallWarnf "Error getting availability for carol. err=remote is down"],
               remoteDown)) as Hremind by reflexivity.
    destruct (proj1 (proj2 (proj2 (sync_failures remoteDown))) index 0%nat team []
                failedAlice [failedCarol] "remote is down" [online] _ _ _
                remoteDown remoteDown remoteDown remoteDown
                Hload Hviews Hremind Hupdated eq_refl eq_refl)
      as (out & Hsummary & _).
    by exists out.
  - exact (proj1 (proj1 (proj2 (proj2 (proj2 (sync_failures remoteDown)))) team
                    [failedAlice] failedCarol [] eq_refl)).
  - exact (proj1 (proj2 (proj2 (proj2 (proj2 (sync_failures remoteDown))))) team
             [failedAlice] failedCarol [] carol "remote is down" eq_refl eq_refl).
Defined.

(** C8, the counterexample: an index that is "not found" is a failure to
    load the user index, and [SyncAll] returns no error for it; and a view
    that carries an error for a user who only receives reminders is not
    counted as a failure (it is logged here, being the first). *)
Lemma failures_that_are_not_reported :
  let noUsers :=
    mkWorld tenOClock None None (Err "not found") [] (Ok []) (Ok [])
            (Ok (mkMattermostUser None)) (Ok "UTC") None None None in
  let carol := mkUser "carol" "r-carol" (mkSettings NotSetStatusOption false true false)
                      "" [] false in
  let failedView :=
    mkWorld tenOClock None None (Ok [mkUserShort "carol" "r-carol"]) [carol] (Ok [])
            (Ok [mkView "r-carol" [] (Some "remote is down")])
            (Ok (mkMattermostUser None)) (Ok "UTC") None None None in
  valueOf (SyncAll noUsers)
  = ("No users found in user index", Some (mkSummary 0 0 0), None)
  ∧ valueOf (SyncAll failedView)
    = ("No users want their status updated", Some (mkSummary 0 0 1), None)
  ∧ CallWarnf "Error getting availability for carol. err=remote is down"
    ∈ traceOf (SyncAll failedView).
Proof.
  repeat split; try reflexivity.
  vm_compute. repeat (apply elem_of_cons; first [by left|right]).
Qed.

(** Eight users who only receive reminders, and the remote calendar down
    for all of them: five warnings, the notice, and nothing about the last
    two; no failure is counted. *)
Example reminder_warnings_are_truncated :
  let subscriber (n : nat) :=
    mkUser ("u" +:+ pretty n) ("r" +:+ pretty n)
           (mkSettings NotSetStatusOption false true false) "" [] false in
  let failed (n : nat) := mkView ("r" +:+ pretty n) [] (Some "remote is down") in
  let people := map subscriber (seq 1 8) in
  let views := map failed (seq 1 8) in
  traceOf (deliverReminders people views quiet)
  = map (λ n, CallWarnf ("Error getting availability for u" +:+ pretty n
                         +:+ ". err=remote is down")) (seq 1 5)
    ++ [CallWarnf logTruncateMsg]
  ∧ valueOf (setUserStatuses people views quiet)
    = ("No users want their status updated", 0%nat, 0%nat, None).
Proof. split; vm_compute; reflexivity. Qed.

(** ** Further properties of the job *)

Section Further.
Context `{GoRuntime} `{Plugin} {W : Type} `{Collaborators W}.

Implicit Types (user : User) (status : Status) (view : ViewCalendarResponse) (w : W).

(** *** Presence: what a run leaves alone *)

(** All the runs of [setStatusFromCalendarView], one goal for each path and
    each answer of the collaborators. *)
Ltac presence_paths view :=
  unfold setStatusFromCalendarView, setStatusOrAskUser, storeActiveEventsThen,
    errorSettingStatus, valueOf, traceOf, worldOf in *;
  destruct (filterBusyEvents (Events view)) as [|first events];
    [|destruct (checkOverlappingEvents (first :: events)) as [overlapping sorted]];
  run;
  repeat (case_match; simplify_eq; cbn in * ).

Ltac in_trace :=
  repeat match goal with
         | H : _ ∈ [] |- _ => by apply elem_of_nil in H
         | H : _ ∈ _ :: _ |- _ => apply elem_of_cons in H as [H|H]; simplify_eq
         end.

Lemma filterBusyEvents_idem (events : list Event) :
  filterBusyEvents (filterBusyEvents events) = filterBusyEvents events.
Proof.
  unfold filterBusyEvents. induction events as [|e l IH]; simpl; [done|].
  destruct (ShowAs e =? "busy")%string eqn:He; simpl; [rewrite He|]; by rewrite ?IH.
Qed.

(** X1. Events that are not shown as busy have no part in either
    reconciliation: a view and the same view with only its busy events give
    the same reply, the same calls and the same world. *)
Theorem only_busy_events_matter user status view w :
  let busyOnly :=
    mkView (RemoteUserID view) (filterBusyEvents (Events view)) (ViewError view) in
  setStatusFromCalendarView user status view w
  = setStatusFromCalendarView user status busyOnly w
  ∧ setCustomStatusFromCalendarView user view w
    = setCustomStatusFromCalendarView user busyOnly w.
Proof.
  unfold setStatusFromCalendarView, setCustomStatusFromCalendarView.
  cbn [Events]. by rewrite filterBusyEvents_idem.
Qed.

(** X2. The presence reconciliation changes nothing of the user record but
    [LastStatus]: the record it returns, and every record it hands to
    [StoreUser], is the record it was given with another [LastStatus].  The
    active events of a stored record are therefore the ones loaded, not the
    ones of the view. *)
Theorem presence_changes_only_LastStatus user status view w :
  let r := setStatusFromCalendarView user status view w in
  withLastStatus user (LastStatus (valueOf r).2) = (valueOf r).2
  ∧ ∀ u, CallStoreUser u ∈ traceOf r → withLastStatus user (LastStatus u) = u.
Proof.
  cbv zeta. destruct user as [id rid settings last active flag]. split.
  - presence_paths view; done.
  - intros u. presence_paths view; intros Hin; in_trace; done.
Qed.

(** X3. The confirmation setting decides the channel: for a user who wants
    confirmations no presence write is ever made, and for a user who does
    not, no confirmation message is ever sent. *)
Theorem confirmation_decides_the_channel user status view w :
  let r := setStatusFromCalendarView user status view w in
  (GetConfirmation (UserSettings user) = true →
   ∀ id s, CallUpdateMattermostUserStatus id s ∉ traceOf r)
  ∧ (GetConfirmation (UserSettings user) = false →
     ∀ id n, CallDMWithAttachments id n ∉ traceOf r).
Proof.
  cbv zeta. destruct user as [uid rid [option confirm reminders custom] last active flag].
  cbn [UserSettings GetConfirmation]. split; intros -> id x Hin; revert Hin;
    presence_paths view; intros Hin; in_trace.
Qed.

(** X4. A change of status is reported only after the user record was stored
    and the status was written or proposed, in that order; and the reply
    carries an error exactly when its message is empty. *)
Theorem change_reported_only_after_acting user status view w :
  let r := setStatusFromCalendarView user status view w in
  (isStatusChanged (valueOf r).1 = true →
   ∃ u c rest,
     traceOf r = CallStoreUser u :: c :: rest
     ∧ ((∃ s, c = CallUpdateMattermostUserStatus (MattermostUserID user) s)
        ∨ (∃ n, c = CallDMWithAttachments (MattermostUserID user) n)))
  ∧ (failure (valueOf r).1 = None ↔ message (valueOf r).1 ≠ "").
Proof.
  cbv zeta. split.
  - presence_paths view; intros Hchanged; try discriminate Hchanged;
      eexists _, _, _; (split; [reflexivity|]); eauto.
  - presence_paths view; split; intros Hx; try done; try discriminate Hx.
Qed.
(** *** Events: what the overlap check establishes *)

Lemma StronglySorted_lookup_le (key : Event → Z) (l : list Event) :
  StronglySorted (λ a b, key a ≤ key b) l →
  ∀ (i j : nat) a b, (i ≤ j)%nat → l !! i = Some a → l !! j = Some b → key a ≤ key b.
Proof.
  induction 1 as [|x l Hs IH Hx]; intros i j a b Hij Ha Hb.
  - by rewrite lookup_nil in Ha.
  - destruct i as [|i], j as [|j]; simpl in *; simplify_eq; try lia.
    + rewrite Forall_forall in Hx. apply Hx. by eapply list_elem_of_lookup_2.
    + apply (IH i j); [lia|done..].
Qed.

Lemma overlapsNext_false (l : list Event) :
  overlapsNext l = false →
  ∀ (i : nat) a b, l !! i = Some a → l !! S i = Some b →
    UnixMicro (End a) ≤ UnixMicro (Start b).
Proof.
  induction l as [|x [|y l] IH]; intros Hno i a b Ha Hb.
  - by rewrite lookup_nil in Ha.
  - simpl in Hb. by rewrite lookup_nil in Hb.
  - cbn [overlapsNext] in Hno.
    destruct (Z.gtb_spec (UnixMicro (End x)) (UnixMicro (Start y))); [done|].
    destruct i as [|i]; simpl in *; simplify_eq; [lia|].
    by apply (IH Hno i).
Qed.

(** X5. When [checkOverlappingEvents] answers that nothing overlaps, the
    slice it leaves holds the same events, ordered by start, and no event of
    it ends after any later one starts: not only the neighbours the loop
    compares, every pair. *)
Theorem no_overlap_means_disjoint (events : list Event) :
  (checkOverlappingEvents events).1 = false →
  let sorted := (checkOverlappingEvents events).2 in
  sorted ≡ₚ events
  ∧ ∀ (i j : nat) a b, (i < j)%nat → sorted !! i = Some a → sorted !! j = Some b →
      UnixMicro (Start a) ≤ UnixMicro (Start b)
      ∧ UnixMicro (End a) ≤ UnixMicro (Start b).
Proof.
  intros Hno sorted. subst sorted. split.
  { unfold checkOverlappingEvents.
    destruct (length events <=? 1)%nat; simpl; [done|apply sortSlice_Permutation]. }
  unfold checkOverlappingEvents in *.
  destruct (Nat.leb_spec (length events) 1) as [Hlen|Hlen]; simpl in *.
  - intros i j a b Hij Ha Hb. apply lookup_lt_Some in Hb. lia.
  - pose proof (sortSlice_sorted (λ x, UnixMicro (Start x)) events) as Hs. simpl in Hs.
    intros i j a b Hij Ha Hb.
    split; [by apply (StronglySorted_lookup_le _ _ Hs i j); [lia|..]|].
    destruct (lookup_lt_is_Some_2
                (sortSlice (λ a b, UnixMicro (Start a) <? UnixMicro (Start b)) events)
                (S i)) as [c Hc].
    { apply lookup_lt_Some in Hb. lia. }
    pose proof (overlapsNext_false _ Hno i a c Ha Hc).
    pose proof (StronglySorted_lookup_le _ _ Hs (S i) j c b ltac:(lia) Hc Hb).
    simpl in *. lia.
Qed.

(** *** Presence: the status kept for later *)

(** X6. A user with no stored active events whose status already is the busy
    status gets no presence write and no message: the user record is stored
    with [LastStatus] set to that status if it was set by hand and emptied
    if not, and the fingerprints are stored.  An error of [StoreUser] is not
    looked at; the reply fails only if storing the active events fails. *)
Theorem already_busy_records_events user status view (e0 : Event) w :
  UpdateStatusFromOptions (UserSettings user) ≠ "" →
  ActiveEvents user = [] →
  ¬ Overlapping (filterBusyEvents (Events view)) →
  firstBusyEvent view = Some e0 →
  (1 ≤ length (Attendees e0))%nat →
  StatusValue status = busyStatusOf user →
  let kept := withLastStatus user (if Manual status then StatusValue status else "") in
  let id := MattermostUserID user in
  let hashes :=
    remoteHashesOf (checkOverlappingEvents (filterBusyEvents (Events view))).2 in
  let r := setStatusFromCalendarView user status view w in
  traceOf r = [CallStoreUser kept; CallStoreUserActiveEvents id hashes]
  ∧ (valueOf r).2 = kept
  ∧ isStatusChanged (valueOf r).1 = false
  ∧ (failure (valueOf r).1 = None
     ↔ (storeUserActiveEvents id hashes (storeUser kept w).2).1 = None).
Proof.
  intros Hset Hfree Hov Hfirst Hatt Hbusy kept id hashes r.
  apply String.eqb_neq in Hset.
  assert ((StatusValue status =? StatusOffline)%string = false) as Hon.
  { rewrite Hbusy. unfold busyStatusOf. by destruct (_ =? AwayStatusOption)%string. }
  rewrite <- Overlapping_check_iff in Hov. apply not_true_is_false in Hov.
  assert ((length (Attendees e0) <? 1)%nat = false) as Hatt' by (apply Nat.ltb_ge; lia).
  subst r hashes kept id. unfold firstBusyEvent in Hfirst.
  unfold setStatusFromCalendarView, storeActiveEventsThen, valueOf, traceOf.
  rewrite Hset, Hon, Hfree, Hbusy, String.eqb_refl.
  destruct (filterBusyEvents (Events view)) as [|first events]; [done|].
  destruct (checkOverlappingEvents (first :: events)) as [overlapping sorted].
  simpl in Hov, Hfirst. subst overlapping.
  destruct sorted as [|s0 sorted]; [done|]. simpl in Hfirst. simplify_eq.
  cbn -[Nat.ltb]. rewrite Hatt'. unfold withLastStatus. run.
  destruct (Manual status); cbn;
    destruct (storeUser _ w) as [stored w1]; cbn;
    destruct (storeUserActiveEvents _ _ w1) as [[e|] w2]; cbn; done.
Qed.
(** X7. The status a user had set by hand comes back after the meeting.  In
    one run a user without confirmations and without stored active events
    becomes busy; the record that run stores keeps the status [s] of the
    user if it was set by hand.  In a later run on a record with that
    [LastStatus], when the view has no busy event left and the status is the
    busy status, the record is stored with [LastStatus] emptied and, the
    store succeeding, presence is written as [s] (as Online, if the status
    had not been set by hand). *)
Theorem status_set_by_hand_comes_back user status view (e0 : Event) w :
  UpdateStatusFromOptions (UserSettings user) ≠ "" →
  GetConfirmation (UserSettings user) = false →
  ActiveEvents user = [] →
  ¬ Overlapping (filterBusyEvents (Events view)) →
  firstBusyEvent view = Some e0 →
  (1 ≤ length (Attendees e0))%nat →
  StatusValue status ≠ "" →
  StatusValue status ≠ StatusOffline →
  StatusValue status ≠ busyStatusOf user →
  let busy := (valueOf (setStatusFromCalendarView user status view w)).2 in
  let back := if Manual status then StatusValue status else StatusOnline in
  ∀ (active : list string) (later : Status) (laterView : ViewCalendarResponse) w' w1',
    active ≠ [] →
    StatusValue later = busyStatusOf user →
    filterBusyEvents (Events laterView) = [] →
    let loaded := mkUser (MattermostUserID busy) (RemoteID busy) (UserSettings busy)
                         (LastStatus busy) active (IsCustomStatusSet busy) in
    storeUser (withLastStatus loaded "") w' = (None, w1') →
    ∃ rest,
      traceOf (setStatusFromCalendarView loaded later laterView w')
      = CallStoreUser (withLastStatus loaded "")
        :: CallUpdateMattermostUserStatus (MattermostUserID user) back :: rest.
Proof.
  intros Hset Hconf Hfree Hov Hfirst Hatt Hsome Hon Hother busy back.
  assert (busy = withLastStatus user (if Manual status then StatusValue status else ""))
    as Hbusy.
  { apply String.eqb_neq in Hset, Hon, Hother.
    rewrite <- Overlapping_check_iff in Hov. apply not_true_is_false in Hov.
    assert ((length (Attendees e0) <? 1)%nat = false) as Hatt'
      by (apply Nat.ltb_ge; lia).
    subst busy. unfold firstBusyEvent in Hfirst.
    unfold setStatusFromCalendarView, setStatusOrAskUser, storeActiveEventsThen, valueOf.
    rewrite Hset, Hon, Hfree, Hother.
    destruct (filterBusyEvents (Events view)) as [|first events]; [done|].
    destruct (checkOverlappingEvents (first :: events)) as [overlapping sorted].
    simpl in Hov, Hfirst. subst overlapping.
    destruct sorted as [|s0 sorted]; [done|]. simpl in Hfirst. simplify_eq.
    cbn -[Nat.ltb]. rewrite Hatt'. unfold withLastStatus. run. rewrite ?Hconf.
    destruct (Manual status); cbn;
      destruct (storeUser _ w) as [[e|] w1]; cbn; try done;
      rewrite Hconf; cbn;
      destruct (updateMattermostUserStatus _ _ w1) as [[e|] w2]; cbn; try done;
      by destruct (storeUserActiveEvents _ _ w2) as [[e|] w3]. }
  clearbody busy. subst busy.
  intros active later laterView w' w1' Hactive Hlater Hnone loaded Hstore.
  apply String.eqb_neq in Hset, Hsome.
  assert ((StatusValue later =? StatusOffline)%string = false) as Hon'.
  { rewrite Hlater. unfold busyStatusOf. by destruct (_ =? AwayStatusOption)%string. }
  assert (busyStatusOf loaded = busyStatusOf user) as Hsame by done.
  subst loaded back. unfold setStatusFromCalendarView, traceOf.
  cbn [UserSettings withLastStatus ActiveEvents LastStatus MattermostUserID] in *.
  rewrite Hset, Hon', Hnone, Hsame, Hlater, String.eqb_refl.
  destruct active as [|a active]; [done|].
  unfold setStatusOrAskUser, storeActiveEventsThen, withLastStatus in *. run.
  destruct (Manual status); cbn in *; rewrite ?Hsome; cbn; rewrite Hstore; cbn;
    rewrite ?Hconf; cbn;
    (destruct (updateMattermostUserStatus _ _ w1') as [[e|] w2]; cbn; [by eexists|]);
    destruct (storeUserActiveEvents _ _ w2) as [[e|] w3]; by eexists.
Qed.

(** *** Custom status: the flag follows the writes *)

(** X8. The flag [IsCustomStatusSet] is stored only right after the write it
    records: as true after the custom status was read and the meeting status
    set, as false after the custom status was cleared, and these are then
    all the calls of the run.  A change is reported only when the meeting
    status was set; a status is cleared only for a user whose flag is set
    and whose view has no busy event. *)
Theorem custom_status_flag_follows_writes user view w :
  let r := setCustomStatusFromCalendarView user view w in
  let id := MattermostUserID user in
  (∀ id' flag, CallStoreUserCustomStatusUpdates id' flag ∈ traceOf r →
     if flag
     then ∃ e0, firstBusyEvent view = Some e0
                ∧ traceOf r
                  = [CallGetMattermostUser id;
                     CallUpdateMattermostUserCustomStatus id (meetingStatus (End e0));
                     CallStoreUserCustomStatusUpdates id true]
     else traceOf r
          = [CallRemoveMattermostUserCustomStatus id;
             CallStoreUserCustomStatusUpdates id false])
  ∧ (isStatusChanged (valueOf r) = true →
     ∃ cs, CallUpdateMattermostUserCustomStatus id cs ∈ traceOf r)
  ∧ (∀ id', CallRemoveMattermostUserCustomStatus id' ∈ traceOf r →
     IsCustomStatusSet user = true ∧ filterBusyEvents (Events view) = []).
Proof.
  cbv zeta. unfold firstBusyEvent, meetingStatus.
  assert (∀ first events,
            (checkOverlappingEvents (first :: events)).2 ≠ []) as Hne.
  { intros first events Hnil.
    pose proof (checkOverlappingEvents_Permutation (first :: events)) as Hp.
    rewrite Hnil in Hp. by apply Permutation_nil_cons in Hp. }
  unfold setCustomStatusFromCalendarView, valueOf, traceOf.
  destruct (filterBusyEvents (Events view)) as [|first events].
  - run. split; [|split].
    + intros id' flag. repeat (case_match; simplify_eq; cbn in * );
        intros Hin; in_trace; done.
    + repeat (case_match; simplify_eq; cbn in * ); done.
    + intros id'. repeat (case_match; simplify_eq; cbn in * );
        intros Hin; in_trace; done.
  - specialize (Hne first events).
    destruct (checkOverlappingEvents (first :: events)) as [overlapping sorted].
    destruct sorted as [|e0 sorted]; [done|].
    run. split; [|split].
    + intros id' flag. repeat (case_match; simplify_eq; cbn in * );
        intros Hin; in_trace; by eexists.
    + repeat (case_match; simplify_eq; cbn in * ); intros Hc; try done;
        eexists; repeat (apply elem_of_cons; first [by left|right]).
    + intros id'. repeat (case_match; simplify_eq; cbn in * );
        intros Hin; in_trace.
Qed.
(** *** Reminders: who is reminded of what *)

(** The timezone lookups of a run. *)
Definition timezoneLookupsIn (calls : list Call) : list string :=
  omap (λ c, match c with CallGetTimezoneByID id => Some id | _ => None end) calls.

Lemma notifyUpcomingEventsFrom_messages (events : list Event) :
  ∀ (timezone id : string) w (id' m : string),
    CallDM id' m ∈ traceOf (notifyUpcomingEventsFrom timezone id events w) →
    id' = id
    ∧ ∃ e tz w', e ∈ events ∧ IsCancelled e = false
                 ∧ inReminderWindow (timeNow w').1 e
                 ∧ RenderUpcomingEvent e tz = Ok m.
Proof.
  induction events as [|event rest IH]; intros timezone id w id' m.
  { cbn. by intros ?%elem_of_nil. }
  assert (∀ timezone w,
            CallDM id' m ∈ traceOf (notifyUpcomingEventsFrom timezone id rest w) →
            id' = id
            ∧ ∃ e tz w', e ∈ event :: rest ∧ IsCancelled e = false
                         ∧ inReminderWindow (timeNow w').1 e
                         ∧ RenderUpcomingEvent e tz = Ok m) as Hrest.
  { intros tz0 w0 Hin. destruct (IH tz0 id w0 id' m Hin) as (-> & e & tz & w' & He & Hx).
    split; [done|]. exists e, tz, w'. split; [by right|done]. }
  cbn [notifyUpcomingEventsFrom].
  destruct (IsCancelled event) eqn:Hlive; [by apply Hrest|].
  pose proof (window_test (timeNow w).1 event) as Htest. cbv zeta in Htest.
  unfold traceOf in *. run.
  destruct (timeNow w) as [now w1] eqn:Hnow. cbn in Htest.
  destruct (_ && _) eqn:Hwindow; cycle 1.
  { specialize (Hrest timezone w1).
    by destruct (notifyUpcomingEventsFrom timezone id rest w1) as [[[] c] w4]. }
  clear Hwindow. assert (inReminderWindow now event) as Hwindow by by apply Htest.
  assert (∀ tz, RenderUpcomingEvent event tz = Ok m →
            id = id
            ∧ ∃ e tz w', e ∈ event :: rest ∧ IsCancelled e = false
                         ∧ inReminderWindow (timeNow w').1 e
                         ∧ RenderUpcomingEvent e tz = Ok m) as Hhere.
  { intros tz Hm. split; [done|]. exists event, tz, w.
    split; [by left|]. by rewrite Hnow. }
  destruct (timezone =? "")%string.
  - destruct (getTimezoneByID id w1) as [[tz|e] w2]; cbn; [|intros Hin; in_trace].
    destruct (RenderUpcomingEvent event tz) as [message|e] eqn:Hrender; cbn.
    + destruct (dm id message w2) as [[e|] w3]; cbn;
        specialize (Hrest tz w3);
        destruct (notifyUpcomingEventsFrom tz id rest w3) as [[[] c] w4];
        cbn in *; intros Hin; in_trace; eauto.
    + specialize (Hrest tz w2).
      destruct (notifyUpcomingEventsFrom tz id rest w2) as [[[] c] w4].
      cbn in *. intros Hin; in_trace; eauto.
  - cbn. destruct (RenderUpcomingEvent event timezone) as [message|e] eqn:Hrender; cbn.
    + destruct (dm id message w1) as [[e|] w3]; cbn;
        specialize (Hrest timezone w3);
        destruct (notifyUpcomingEventsFrom timezone id rest w3) as [[[] c] w4];
        cbn in *; intros Hin; in_trace; eauto.
    + specialize (Hrest timezone w1).
      destruct (notifyUpcomingEventsFrom timezone id rest w1) as [[[] c] w4].
      cbn in *. intros Hin; in_trace; eauto.
Qed.

(** X10. The timezone is looked up only when a reminder is due: while the
    clock reads [now], a view whose events are all cancelled or outside the
    window makes [notifyUpcomingEvents] call nothing at all. *)
Theorem nothing_due_nothing_called (now : Z) (id : string) (events : list Event) w :
  (∀ w', (timeNow w').1 = now) →
  (∀ e, e ∈ events → IsCancelled e = true ∨ ¬ inReminderWindow now e) →
  traceOf (notifyUpcomingEvents id events w) = [].
Proof.
  intros Hclock. unfold notifyUpcomingEvents. generalize "" as timezone. revert w.
  induction events as [|event rest IH]; intros w timezone Hquiet; [done|].
  assert (∀ w', traceOf (notifyUpcomingEventsFrom timezone id rest w') = []) as Hrest.
  { intros w'. apply IH. intros e He. apply Hquiet. by right. }
  cbn [notifyUpcomingEventsFrom].
  destruct (IsCancelled event) eqn:Hlive; [done|].
  destruct (Hquiet event) as [Hc|Hout]; [by left|congruence|].
  pose proof (window_test now event) as Htest. cbv zeta in Htest.
  rewrite <- Htest in Hout. apply not_true_is_false in Hout.
  unfold traceOf in *. run.
  pose proof (Hclock w) as Hnow. destruct (timeNow w) as [now' w1]. cbn in Hnow.
  subst now'. rewrite Hout. specialize (Hrest w1).
  by destruct (notifyUpcomingEventsFrom timezone id rest w1) as [[[] c] w2].
Qed.

Lemma notifyUpcomingEventsFrom_lookups (id : string) (events : list Event) :
  (∀ w tz, (getTimezoneByID id w).1 = Ok tz → tz ≠ "") →
  ∀ (timezone : string) w,
    let lookups :=
      timezoneLookupsIn (traceOf (notifyUpcomingEventsFrom timezone id events w)) in
    (timezone ≠ "" → lookups = []) ∧ (length lookups ≤ 1)%nat.
Proof.
  intros Hfound.
  induction events as [|event rest IH]; intros timezone w; cbv zeta.
  { cbn. split; [done|lia]. }
  cbn [notifyUpcomingEventsFrom].
  destruct (IsCancelled event); [apply IH|].
  unfold traceOf, timezoneLookupsIn in *. run.
  destruct (timeNow w) as [now w1].
  destruct (_ && _); cycle 1.
  { specialize (IH timezone w1). cbv zeta in IH.
    by destruct (notifyUpcomingEventsFrom timezone id rest w1) as [[[] c] w2]. }
  destruct (String.eqb_spec timezone "") as [->|Hzone].
  - split; [done|].
    pose proof (Hfound w1) as Htz.
    destruct (getTimezoneByID id w1) as [[tz|e] w2]; cbn in *; [|lia].
    specialize (Htz tz eq_refl).
    destruct (RenderUpcomingEvent event tz) as [message|e]; cbn.
    + destruct (dm id message w2) as [[e|] w3]; cbn;
        destruct (IH tz w3) as [Hnone _]; specialize (Hnone Htz);
        destruct (notifyUpcomingEventsFrom tz id rest w3) as [[[] c] w4];
        cbn in *; rewrite Hnone; cbn; lia.
    + destruct (IH tz w2) as [Hnone _]. specialize (Hnone Htz).
      destruct (notifyUpcomingEventsFrom tz id rest w2) as [[[] c] w4].
      cbn in *. rewrite Hnone. cbn. lia.
  - cbn. destruct (RenderUpcomingEvent event timezone) as [message|e]; cbn.
    + destruct (dm id message w1) as [[e|] w3]; cbn;
        destruct (IH timezone w3) as [Hnone _]; specialize (Hnone Hzone);
        destruct (notifyUpcomingEventsFrom timezone id rest w3) as [[[] c] w4];
        cbn in *; rewrite Hnone; cbn; (split; [done|lia]).
    + destruct (IH timezone w1) as [Hnone _]. specialize (Hnone Hzone).
      destruct (notifyUpcomingEventsFrom timezone id rest w1) as [[[] c] w4].
      cbn in *. rewrite Hnone. cbn. split; [done|lia].
Qed.

(** X11. The timezone of a user is looked up at most once in a run of
    [notifyUpcomingEvents], however many reminders are due, as long as the
    lookup does not answer with an empty timezone. *)
Theorem timezone_looked_up_once (id : string) (events : list Event) w :
  (∀ w' tz, (getTimezoneByID id w').1 = Ok tz → tz ≠ "") →
  (length (timezoneLookupsIn (traceOf (notifyUpcomingEvents id events w))) ≤ 1)%nat.
Proof. intros Hfound. by apply notifyUpcomingEventsFrom_lookups. Qed.
Lemma indexByRemoteID_lookup (users : list User) (k : string) (u : User) :
  indexByRemoteID users !! k = Some u → u ∈ users ∧ RemoteID u = k.
Proof.
  unfold indexByRemoteID.
  enough (G : ∀ (m : gmap string User),
            (∀ k u, m !! k = Some u → u ∈ users ∧ RemoteID u = k) →
            ∀ l, l ⊆ users →
              foldl (λ m u, <[RemoteID u := u]> m) m l !! k = Some u →
              u ∈ users ∧ RemoteID u = k).
  { apply (G ∅); [|done]. intros k' u'. by rewrite lookup_empty. }
  intros m Hm l. revert m Hm.
  induction l as [|x l IH]; intros m Hm Hl; simpl; [apply Hm|].
  apply IH.
  - intros k' u'. destruct (decide (RemoteID x = k')) as [<-|Hne].
    + rewrite lookup_insert_eq. intros [= <-]. split; [|done]. apply Hl. by left.
    + rewrite lookup_insert_ne by done. apply Hm.
  - intros y Hy. apply Hl. by right.
Qed.

Lemma warnTruncated_calls (n : nat) (msg : string) w (c : Call) :
  c ∈ traceOf (warnTruncated n msg w) → ∃ m, c = CallWarnf m.
Proof.
  unfold warnTruncated, traceOf.
  destruct (n <? logTruncateLimit)%nat; [|destruct (n =? logTruncateLimit)%nat];
    cbn; intros Hin; in_trace; by eexists.
Qed.

(** X12. Reminders go to nobody who has not asked for them: every direct
    message of [deliverReminders] goes to a user of the list whose
    [ReceiveReminders] is set, and is the rendering of an event, not
    cancelled, of a view that carries no error and belongs to that user's
    remote account. *)
Theorem reminders_only_to_subscribers (users : list User)
    (calendarViews : list ViewCalendarResponse) w (id m : string) :
  CallDM id m ∈ traceOf (deliverReminders users calendarViews w) →
  ∃ u view e tz,
    u ∈ users ∧ ReceiveReminders (UserSettings u) = true ∧ MattermostUserID u = id
    ∧ view ∈ calendarViews ∧ ViewError view = None ∧ RemoteUserID view = RemoteID u
    ∧ e ∈ Events view ∧ IsCancelled e = false ∧ RenderUpcomingEvent e tz = Ok m.
Proof.
  unfold deliverReminders.
  assert (∀ k u,
            indexByRemoteID (List.filter (λ u, ReceiveReminders (UserSettings u)) users)
              !! k = Some u →
            u ∈ users ∧ ReceiveReminders (UserSettings u) = true ∧ RemoteID u = k)
    as Hindex.
  { intros k u [Hu Hk]%indexByRemoteID_lookup.
    apply list_elem_of_In, filter_In in Hu as [Hu Hr]. by rewrite list_elem_of_In. }
  destruct (List.filter _ users) as [|u0 toNotify].
  { cbn. by intros ?%elem_of_nil. }
  generalize 0%nat as numberOfLogs.
  revert Hindex. generalize (indexByRemoteID (u0 :: toNotify)). intros index Hindex.
  revert w.
  induction calendarViews as [|view rest IH]; intros w numberOfLogs.
  { cbn. by intros ?%elem_of_nil. }
  assert (∀ n w',
            CallDM id m ∈ traceOf (deliverRemindersFrom n index rest w') →
            ∃ u view' e tz,
              u ∈ users ∧ ReceiveReminders (UserSettings u) = true
              ∧ MattermostUserID u = id
              ∧ view' ∈ view :: rest ∧ ViewError view' = None
              ∧ RemoteUserID view' = RemoteID u
              ∧ e ∈ Events view' ∧ IsCancelled e = false
              ∧ RenderUpcomingEvent e tz = Ok m) as Hrest.
  { intros n w' Hin. destruct (IH w' n Hin) as (u & v & e & tz & ? & ? & ? & ? & Hx).
    exists u, v, e, tz. repeat split; try done; try apply Hx. by right. }
  cbn [deliverRemindersFrom].
  destruct (index !! RemoteUserID view) as [user|] eqn:Huser; [|apply Hrest].
  destruct (Hindex _ _ Huser) as (Hu & Hr & Hk).
  destruct (ViewError view) as [msg|] eqn:Herror.
  - unfold traceOf in *. unfold mbind, mret, M_bind, M_ret.
    pose proof (warnTruncated_calls numberOfLogs
      ("Error getting availability for " +:+ MattermostUserID user
       +:+ ". err=" +:+ msg) w (CallDM id m)) as Hwarn.
    unfold traceOf in Hwarn.
    destruct (warnTruncated _ _ w) as [[[] c] w1].
    specialize (Hrest (S numberOfLogs) w1).
    destruct (deliverRemindersFrom (S numberOfLogs) index rest w1) as [[[] c2] w2].
    cbn in *. intros [Hin|Hin]%elem_of_app; [|by apply Hrest].
    by destruct (Hwarn Hin).
  - unfold traceOf in *. unfold mbind, mret, M_bind, M_ret.
    pose proof (notifyUpcomingEventsFrom_messages (Events view) ""
                  (MattermostUserID user) w id m) as Hnotify.
    unfold traceOf, notifyUpcomingEvents in *.
    destruct (notifyUpcomingEventsFrom "" _ (Events view) w) as [[[] c] w1].
    specialize (Hrest numberOfLogs w1).
    destruct (deliverRemindersFrom numberOfLogs index rest w1) as [[[] c2] w2].
    cbn in *. intros [Hin|Hin]%elem_of_app; [|by apply Hrest].
    destruct (Hnotify Hin) as (-> & e & tz & w' & He & Hlive & _ & Hrender).
    exists user, view, e, tz. repeat split; try done. by left.
Qed.
(** *** The sync job: loading, counting, logging *)

(** The warnings of a run, and the users it asked the store for. *)
Definition warningsIn (calls : list Call) : list string :=
  omap (λ c, match c with CallWarnf m => Some m | _ => None end) calls.

Definition loadsIn (calls : list Call) : list string :=
  omap (λ c, match c with CallLoadUser id => Some id | _ => None end) calls.

Lemma warnTruncated_count (n : nat) (msg : string) w :
  ∃ warning,
    warnTruncated n msg w = (tt, warning, w)
    ∧ loadsIn warning = []
    ∧ (length (warningsIn warning) + n `min` S logTruncateLimit
       = S n `min` S logTruncateLimit)%nat.
Proof.
  unfold warnTruncated.
  destruct (Nat.ltb_spec n logTruncateLimit) as [Hlt|Hge].
  - eexists. split; [reflexivity|]. split; [done|]. cbn. unfold logTruncateLimit in *. lia.
  - destruct (Nat.eqb_spec n logTruncateLimit) as [->|Hne].
    + eexists. split; [reflexivity|]. split; [done|]. cbn. unfold logTruncateLimit in *. lia.
    + eexists. split; [reflexivity|]. split; [done|]. cbn. unfold logTruncateLimit in *. lia.
Qed.

Lemma loadUsersFrom_run (userIndex : list UserShort) :
  ∀ (failed : nat) (users : list User) w,
    let r := loadUsersFrom failed failed users userIndex w in
    loadsIn (traceOf r) = map ShortMattermostUserID userIndex
    ∧ (length (warningsIn (traceOf r)) + failed `min` S logTruncateLimit
       = (valueOf r).1 `min` S logTruncateLimit)%nat
    ∧ ((valueOf r).1 + length (valueOf r).2
       ≤ failed + length users + length userIndex)%nat
    ∧ (failed ≤ (valueOf r).1)%nat
    ∧ (Forall (λ u, needsSync u = true) users →
       Forall (λ u, needsSync u = true) (valueOf r).2).
Proof.
  induction userIndex as [|u rest IH]; intros failed users w; cbv zeta.
  { cbn. repeat split; try done; lia. }
  cbn [loadUsersFrom]. unfold traceOf, valueOf, loadsIn, warningsIn in *.
  unfold mbind, mret, M_bind, M_ret. unfold Store_LoadUser, call.
  destruct (loadUser (ShortMattermostUserID u) w) as [[user|e] w1].
  - specialize (IH failed (if needsSync user then users ++ [user] else users) w1).
    cbv zeta in IH.
    destruct (loadUsersFrom failed failed _ rest w1) as [[[failed' users'] c] w2].
    cbn in *. destruct IH as (Hl & Hw & Hn & Hf & Hs).
    rewrite Hl. repeat split; try done.
    + destruct (needsSync user); rewrite ?length_app in Hn; cbn in Hn; lia.
    + intros Hall. apply Hs. destruct (needsSync user) eqn:Hneeds; [|done].
      apply Forall_app. split; [done|]. by repeat constructor.
  - destruct (warnTruncated_count failed
      ("Not able to load user " +:+ ShortMattermostUserID u
       +:+ " from user index. err=" +:+ e) w1) as (warning & -> & Hnl & Hnw).
    unfold loadsIn, warningsIn in *.
    specialize (IH (S failed) users w1). cbv zeta in IH.
    destruct (loadUsersFrom (S failed) (S failed) users rest w1)
      as [[[failed' users'] c] w2].
    cbn in *. destruct IH as (Hl & Hw & Hn & Hf & Hs).
    rewrite !omap_app, Hnl, Hl, length_app. cbn. repeat split; try done; lia.
Qed.

(** X13. The first loop of [syncUsers] asks the store for every user of the
    index, once each and in order, whatever fails on the way.  The users it
    keeps all have something to sync, and kept and failed users together are
    no more than the index holds. *)
Theorem every_indexed_user_is_loaded (userIndex : list UserShort) w :
  let r := loadUsersFrom 0 0 [] userIndex w in
  loadsIn (traceOf r) = map ShortMattermostUserID userIndex
  ∧ ((valueOf r).1 + length (valueOf r).2 ≤ length userIndex)%nat
  ∧ Forall (λ u, needsSync u = true) (valueOf r).2.
Proof.
  destruct (loadUsersFrom_run userIndex 0 [] w) as (Hl & _ & Hn & _ & Hs).
  cbv zeta. repeat split; [done|cbn in Hn; lia|by apply Hs].
Qed.

(** X14. The warnings of the loading loop are bounded: one for each of the
    first five users that fail, one notice for the sixth, nothing after. *)
Theorem load_warnings_are_bounded (userIndex : list UserShort) w :
  let r := loadUsersFrom 0 0 [] userIndex w in
  length (warningsIn (traceOf r)) = ((valueOf r).1 `min` 6)%nat.
Proof.
  destruct (loadUsersFrom_run userIndex 0 [] w) as (_ & Hw & _).
  cbv zeta. unfold logTruncateLimit in Hw. cbn in Hw. lia.
Qed.
Lemma presence_returns_the_user user status view w :
  withLastStatus user
    (LastStatus (valueOf (setStatusFromCalendarView user status view w)).2)
  = (valueOf (setStatusFromCalendarView user status view w)).2.
Proof.
  destruct user as [id rid settings last active flag]. presence_paths view; done.
Qed.

Lemma presence_no_warning user status view w :
  warningsIn (traceOf (setStatusFromCalendarView user status view w)) = [].
Proof. unfold warningsIn. presence_paths view; done. Qed.

Lemma custom_status_no_warning user view w :
  warningsIn (traceOf (setCustomStatusFromCalendarView user view w)) = [].
Proof.
  unfold warningsIn, setCustomStatusFromCalendarView, traceOf.
  destruct (filterBusyEvents (Events view)) as [|first events];
    [|destruct (checkOverlappingEvents (first :: events)) as [overlapping sorted]];
    run; repeat (case_match; simplify_eq; cbn in * ); done.
Qed.

(** What one step of the loop of [setUserStatuses] may add to its counters
    and to the warnings. *)
Definition countsGrow (views : nat) (st st' : StatusLoop) (calls : list Call) : Prop :=
  (numberOfUserStatusChange st' ≤ numberOfUserStatusChange st + views)%nat
  ∧ (numberOfUserErrorInStatusChange st'
     ≤ numberOfUserErrorInStatusChange st + 2 * views)%nat
  ∧ (numberOfLogs st ≤ numberOfLogs st')%nat
  ∧ (length (warningsIn calls) + numberOfLogs st `min` S logTruncateLimit
     = numberOfLogs st' `min` S logTruncateLimit)%nat.

Lemma noteFailure_counts (st : StatusLoop) user (err : option error) w :
  let r := noteFailure st user err w in
  numberOfUserStatusChange (valueOf r) = numberOfUserStatusChange st
  ∧ (numberOfUserErrorInStatusChange (valueOf r)
     ≤ S (numberOfUserErrorInStatusChange st))%nat
  ∧ (numberOfUserErrorInStatusChange st
     ≤ numberOfUserErrorInStatusChange (valueOf r))%nat
  ∧ (numberOfLogs st ≤ numberOfLogs (valueOf r))%nat
  ∧ (length (warningsIn (traceOf r)) + numberOfLogs st `min` S logTruncateLimit
     = numberOfLogs (valueOf r) `min` S logTruncateLimit)%nat.
Proof.
  unfold noteFailure, valueOf, traceOf. destruct err as [e|]; cbn.
  - unfold mbind, mret, M_bind, M_ret.
    destruct (warnTruncated_count (numberOfLogs st)
      ("Error setting user " +:+ MattermostUserID user +:+ " status. err=" +:+ e) w)
      as (warning & -> & _ & Hw).
    cbn. rewrite app_nil_r. unfold warningsIn, logTruncateLimit in *. repeat split; lia.
  - repeat split; lia.
Qed.

Lemma setUserStatusForView_counts (st : StatusLoop) user status view w :
  let r := setUserStatusForView st user status view w in
  countsGrow 1 st (valueOf r) (traceOf r).
Proof.
  cbv zeta. unfold setUserStatusForView, countsGrow, valueOf, traceOf.
  unfold mbind, mret, M_bind, M_ret.
  destruct (wantsStatusUpdate user) eqn:Hwants.
  - pose proof (presence_no_warning user status view w) as Hquiet.
    pose proof (presence_returns_the_user user status view w) as Hsame.
    unfold traceOf in Hquiet. unfold valueOf in Hsame.
    destruct (setStatusFromCalendarView user status view w) as [[[reply user'] c] w1].
    cbn in Hsame.
    pose proof (noteFailure_counts
      (withUser (withRes st (message reply)) (RemoteUserID view) user') user'
      (failure reply) w1) as Hnote.
    cbv zeta in Hnote. unfold valueOf, traceOf in Hnote.
    destruct (noteFailure _ user' (failure reply) w1) as [[st1 c1] w2].
    cbn in Hquiet, Hnote |- *.
    destruct (SetCustomStatus (UserSettings user')).
    + pose proof (custom_status_no_warning user' view w2) as Hquiet'.
      unfold traceOf in Hquiet'.
      destruct (setCustomStatusFromCalendarView user' view w2) as [[reply' c2] w3].
      pose proof (noteFailure_counts
        (withRes (if isStatusChanged reply then countStatusChange st1 else st1)
                 (message reply')) user' (failure reply') w3) as Hnote'.
      cbv zeta in Hnote'. unfold valueOf, traceOf in Hnote'.
      destruct (noteFailure _ user' (failure reply') w3) as [[st2 c3] w4].
      cbn in Hquiet', Hnote' |- *.
      assert (wantsStatusUpdate user' = true) as ->.
      { rewrite <- Hsame. exact Hwants. }
      rewrite andb_false_r. unfold warningsIn in *.
      cbn. rewrite ?app_nil_r, ?omap_app, ?length_app, ?Hquiet, ?Hquiet'. cbn.
      destruct (isStatusChanged reply); cbn in *; repeat split; lia.
    + unfold warningsIn in *.
      cbn. rewrite ?app_nil_r, ?omap_app, ?length_app, ?Hquiet. cbn.
      destruct (isStatusChanged reply); cbn in *; repeat split; lia.
  - cbn. destruct (SetCustomStatus (UserSettings user)).
    + pose proof (custom_status_no_warning user view w) as Hquiet'.
      unfold traceOf in Hquiet'.
      destruct (setCustomStatusFromCalendarView user view w) as [[reply' c2] w3].
      pose proof (noteFailure_counts (withRes st (message reply')) user
                    (failure reply') w3) as Hnote'.
      cbv zeta in Hnote'. unfold valueOf, traceOf in Hnote'.
      destruct (noteFailure _ user (failure reply') w3) as [[st2 c3] w4].
      cbn in Hquiet', Hnote' |- *. unfold warningsIn in *.
      cbn. rewrite ?app_nil_r, ?omap_app, ?length_app, ?Hquiet'. cbn.
      destruct (isStatusChanged reply' && _); cbn in *; repeat split; lia.
    + cbn. repeat split; lia.
Qed.
Lemma countsGrow_then (a b : nat) (st st1 st2 : StatusLoop) (c1 c2 : list Call) :
  countsGrow a st st1 c1 → countsGrow b st1 st2 c2 →
  countsGrow (a + b) st st2 (c1 ++ c2).
Proof.
  unfold countsGrow, warningsIn. rewrite omap_app, length_app.
  intros (?&?&?&?) (?&?&?&?). repeat split; lia.
Qed.

Lemma setUserStatusesFrom_counts (statusMap : gmap string Status)
    (calendarViews : list ViewCalendarResponse) :
  ∀ (st : StatusLoop) w,
    let r := setUserStatusesFrom st statusMap calendarViews w in
    countsGrow (length calendarViews) st (valueOf r) (traceOf r).
Proof.
  induction calendarViews as [|view rest IH]; intros st w; cbv zeta.
  { cbn. unfold countsGrow. cbn. repeat split; lia. }
  cbn [setUserStatusesFrom length].
  assert (∀ st' w', countsGrow (S (length rest)) st'
            (valueOf (setUserStatusesFrom st' statusMap rest w'))
            (traceOf (setUserStatusesFrom st' statusMap rest w'))) as Hskip.
  { intros st' w'. specialize (IH st' w'). cbv zeta in IH.
    destruct IH as (?&?&?&?). repeat split; try done; lia. }
  destruct (usersByRemoteID st !! RemoteUserID view) as [user|]; [|apply Hskip].
  destruct (ViewError view) as [msg|].
  - unfold valueOf, traceOf in *. unfold mbind, mret, M_bind, M_ret.
    destruct (warnTruncated_count (numberOfLogs st)
      ("Error getting availability for " +:+ MattermostUserID user
       +:+ ". err=" +:+ msg) w) as (warning & -> & _ & Hw).
    specialize (IH (countFailure st) w). cbv zeta in IH.
    destruct (setUserStatusesFrom (countFailure st) statusMap rest w) as [[st' c] w1].
    cbn in *. apply (countsGrow_then 1 (length rest) st (countFailure st)); [|done].
    unfold countsGrow. cbn. repeat split; lia.
  - destruct (statusMap !! MattermostUserID user) as [status|]; [|apply Hskip].
    unfold valueOf, traceOf in *. unfold mbind, mret, M_bind, M_ret.
    pose proof (setUserStatusForView_counts st user status view w) as Hview.
    cbv zeta in Hview. unfold valueOf, traceOf in Hview.
    destruct (setUserStatusForView st user status view w) as [[st1 c1] w1].
    specialize (IH st1 w1). cbv zeta in IH.
    destruct (setUserStatusesFrom st1 statusMap rest w1) as [[st2 c2] w2].
    cbn in *. by apply (countsGrow_then 1 (length rest) st st1).
Qed.

(** X15. A view is counted once at most as a change of status, also when the
    presence and the custom status of its user both changed, and twice at
    most as a failure: the counts [setUserStatuses] returns are bounded by
    the number of views. *)
Theorem status_counts_are_bounded (users : list User)
    (calendarViews : list ViewCalendarResponse) w :
  let '(_, changed, failed, _) := valueOf (setUserStatuses users calendarViews w) in
  (changed ≤ length calendarViews)%nat ∧ (failed ≤ 2 * length calendarViews)%nat.
Proof.
  unfold setUserStatuses, valueOf.
  destruct (List.filter _ users) as [|u toUpdate]; [cbn; lia|].
  unfold mbind, mret, M_bind, M_ret, PluginAPI_GetMattermostUserStatusesByIds, call.
  destruct (getMattermostUserStatusesByIds _ w) as [[statuses|e] w1]; [|cbn; lia].
  match goal with
  | |- context [setUserStatusesFrom ?st ?m calendarViews w1] =>
      pose proof (setUserStatusesFrom_counts m calendarViews st w1) as Hloop;
      cbv zeta in Hloop; unfold valueOf, traceOf in Hloop;
      destruct (setUserStatusesFrom st m calendarViews w1) as [[st' c] w2]
  end.
  destruct Hloop as (Hc & He & _). cbn in *.
  destruct (negb (res st' =? "")%string); cbn; lia.
Qed.

(** X16. The warnings of [setUserStatuses] are bounded, whatever the number
    of views that fail: five warnings and one notice that the rest is left
    out. *)
Theorem status_warnings_are_bounded (users : list User)
    (calendarViews : list ViewCalendarResponse) w :
  (length (warningsIn (traceOf (setUserStatuses users calendarViews w))) ≤ 6)%nat.
Proof.
  unfold setUserStatuses, traceOf.
  destruct (List.filter _ users) as [|u toUpdate]; [cbn; lia|].
  unfold mbind, mret, M_bind, M_ret, PluginAPI_GetMattermostUserStatusesByIds, call.
  destruct (getMattermostUserStatusesByIds _ w) as [[statuses|e] w1]; [|cbn; lia].
  match goal with
  | |- context [setUserStatusesFrom ?st ?m calendarViews w1] =>
      pose proof (setUserStatusesFrom_counts m calendarViews st w1) as Hloop;
      cbv zeta in Hloop; unfold valueOf, traceOf in Hloop;
      destruct (setUserStatusesFrom st m calendarViews w1) as [[st' c] w2]
  end.
  destruct Hloop as (_ & _ & _ & Hw). cbn in *.
  unfold warningsIn, logTruncateLimit in *.
  destruct (negb (res st' =? "")%string); cbn; rewrite ?app_nil_r; lia.
Qed.

(** *** The sync job: what the summary says *)

Lemma syncUsers_summary (userIndex : list UserShort) w :
  let '(out, summary, err) := valueOf (syncUsers userIndex w) in
  ∃ s, summary = Some s
       ∧ NumberOfUsersProcessed s = length userIndex
       ∧ ((valueOf (loadUsersFrom 0 0 [] userIndex w)).1
          ≤ NumberOfUsersFailedStatusChanged s)%nat
       ∧ (err ≠ None → out = "" ∧ NumberOfUsersStatusChanged s = 0%nat).
Proof.
  unfold syncUsers, valueOf.
  destruct userIndex as [|u rest]; [cbn; eexists; repeat split; (done || lia)|].
  unfold mbind, mret, M_bind, M_ret.
  destruct (loadUsersFrom 0 0 [] (u :: rest) w) as [[[failed users] c1] w1]. cbn [fst snd].
  destruct users as [|user users]; [eexists; repeat split; (done || cbn; lia)|].
  destruct (GetCalendarViews (user :: users) w1) as [[[[|view views]|e] c2] w2];
    [eexists; repeat split; (done || cbn; lia)| |eexists; repeat split; (done || cbn; lia)].
  destruct (deliverReminders _ _ w2) as [[[] c3] w3].
  destruct (setUserStatuses _ _ w3) as [[[[[out changed] failedStatus] [e|]] c4] w4];
    eexists; repeat split; (done || cbn; lia).
Qed.

(** X17. Whatever happens to [syncUsers], it returns a summary, and the
    summary counts every user of the index as processed and every user that
    could not be loaded as failed, also when the run ends early or in an
    error; with an error, the message is empty and no change is counted. *)
Theorem sync_summary_counts_the_index (userIndex : list UserShort) w :
  let '(out, summary, err) := valueOf (syncUsers userIndex w) in
  ∃ s, summary = Some s
       ∧ NumberOfUsersProcessed s = length userIndex
       ∧ ((valueOf (loadUsersFrom 0 0 [] userIndex w)).1
          ≤ NumberOfUsersFailedStatusChanged s)%nat
       ∧ (err ≠ None → out = "" ∧ NumberOfUsersStatusChanged s = 0%nat).
Proof. apply syncUsers_summary. Qed.

(** X18. [Sync] for one user: when the user is not in the index, the error of
    the store is returned as it is, with no summary, and nothing else is
    called; when the user is there, the summary counts one user processed. *)
Theorem sync_of_one_user (id : string) w :
  match loadUserFromIndex id w with
  | (Err e, w1) => Sync id w = (("", None, Some e), [CallLoadUserFromIndex id], w1)
  | (Ok u, w1) =>
      ∃ s, (valueOf (Sync id w)).1.2 = Some s ∧ NumberOfUsersProcessed s = 1%nat
  end.
Proof.
  unfold Sync, valueOf. unfold mbind, mret, M_bind, M_ret, Store_LoadUserFromIndex, call.
  destruct (loadUserFromIndex id w) as [[u|e] w1]; [|done].
  pose proof (syncUsers_summary [u] w1) as Hsum. unfold valueOf in Hsum.
  destruct (syncUsers [u] w1) as [[[[out summary] err] c] w2].
  destruct Hsum as (s & -> & Hp & _). by exists s.
Qed.

Lemma loadUsersFrom_nobody (userIndex : list UserShort) :
  (∀ id w u, (loadUser id w).1 = Ok u → needsSync u = false) →
  ∀ (failed logs : nat) (users : list User) w,
    let r := loadUsersFrom failed logs users userIndex w in
    (valueOf r).2 = users
    ∧ ∀ c, c ∈ traceOf r → (∃ id, c = CallLoadUser id) ∨ (∃ m, c = CallWarnf m).
Proof.
  intros Hnobody.
  induction userIndex as [|u rest IH]; intros failed logs users w; cbv zeta.
  { cbn. split; [done|]. by intros c ?%elem_of_nil. }
  cbn [loadUsersFrom]. unfold traceOf, valueOf in *.
  unfold mbind, mret, M_bind, M_ret. unfold Store_LoadUser, call.
  pose proof (Hnobody (ShortMattermostUserID u) w) as Hu.
  destruct (loadUser (ShortMattermostUserID u) w) as [[user|e] w1].
  - rewrite (Hu user eq_refl).
    specialize (IH failed logs users w1). cbv zeta in IH.
    destruct (loadUsersFrom failed logs users rest w1) as [[[failed' users'] c] w2].
    cbn in *. destruct IH as [-> Hcalls]. split; [done|].
    intros c0 [->|Hin]%elem_of_cons; [left; by eexists|by apply Hcalls].
  - pose proof (warnTruncated_calls logs
      ("Not able to load user " +:+ ShortMattermostUserID u
       +:+ " from user index. err=" +:+ e) w1) as Hwarn.
    unfold traceOf in Hwarn.
    destruct (warnTruncated logs _ w1) as [[[] warning] w1'].
    specialize (IH (S failed) (S logs) users w1'). cbv zeta in IH.
    destruct (loadUsersFrom (S failed) (S logs) users rest w1')
      as [[[failed' users'] c] w2].
    cbn in *. destruct IH as [-> Hcalls]. split; [done|].
    intros c0 [->|[Hin|Hin]%elem_of_app]%elem_of_cons;
      [left; by eexists|right; by apply Hwarn|by apply Hcalls].
Qed.

(** X19. When no user of the index has anything to sync, [syncUsers] stops
    after loading them: it asks the store for the users and writes its
    warnings, and calls nothing else, neither the remote calendar nor the
    chat platform; it returns no error. *)
Theorem nobody_to_sync_no_remote_call (userIndex : list UserShort) w :
  (∀ id w' u, (loadUser id w').1 = Ok u → needsSync u = false) →
  let r := syncUsers userIndex w in
  (valueOf r).2 = None
  ∧ (valueOf r).1.1
    = (if userIndex is [] then "No connected users found"
       else "No users need to be synced")
  ∧ ∀ c, c ∈ traceOf r → (∃ id, c = CallLoadUser id) ∨ (∃ m, c = CallWarnf m).
Proof.
  intros Hnobody. cbv zeta. unfold syncUsers.
  destruct userIndex as [|u rest].
  { cbn. repeat split. by intros c ?%elem_of_nil. }
  destruct (loadUsersFrom_nobody (u :: rest) Hnobody 0 0 [] w) as [Husers Hcalls].
  unfold valueOf, traceOf in *. unfold mbind, mret, M_bind, M_ret.
  destruct (loadUsersFrom 0 0 [] (u :: rest) w) as [[[failed users] c1] w1].
  cbn in Husers. subst users. cbn. rewrite app_nil_r. done.
Qed.

Lemma loadUsersFrom_calls (userIndex : list UserShort) :
  ∀ (failed logs : nat) (users : list User) w c,
    c ∈ traceOf (loadUsersFrom failed logs users userIndex w) →
    (∃ id, c = CallLoadUser id) ∨ (∃ m, c = CallWarnf m).
Proof.
  induction userIndex as [|u rest IH]; intros failed logs users w c.
  { cbn. by intros ?%elem_of_nil. }
  cbn [loadUsersFrom]. unfold traceOf in *.
  unfold mbind, mret, M_bind, M_ret. unfold Store_LoadUser, call.
  destruct (loadUser (ShortMattermostUserID u) w) as [[user|e] w1].
  - specialize (IH failed logs (if needsSync user then users ++ [user] else users) w1 c).
    destruct (loadUsersFrom failed logs _ rest w1) as [[[failed' users'] c1] w2].
    cbn in *. intros [->|Hin]%elem_of_cons; [left; by eexists|by apply IH].
  - pose proof (warnTruncated_calls logs
      ("Not able to load user " +:+ ShortMattermostUserID u
       +:+ " from user index. err=" +:+ e) w1 c) as Hwarn.
    unfold traceOf in Hwarn.
    destruct (warnTruncated logs _ w1) as [[[] warning] w1'].
    specialize (IH (S failed) (S logs) users w1' c).
    destruct (loadUsersFrom (S failed) (S logs) users rest w1')
      as [[[failed' users'] c1] w2].
    cbn in *. intros [->|[Hin|Hin]%elem_of_app]%elem_of_cons;
      [left; by eexists|right; by apply Hwarn|by apply IH].
Qed.

(** X20. When the client for the remote calendar cannot be had, nobody is
    touched: [syncUsers] loads the users, asks for the client, and calls
    nothing else, no remote request, no status, no message.  It returns the
    error wrapped, or no error when no user had anything to sync. *)
Theorem no_client_nobody_touched (userIndex : list UserShort) w :
  (∀ w', (applyFilter withClient w').1 ≠ None) →
  let r := syncUsers userIndex w in
  (∀ c, c ∈ traceOf r →
     (∃ id, c = CallLoadUser id) ∨ (∃ m, c = CallWarnf m) ∨ c = CallFilter withClient)
  ∧ ((valueOf r).2 = None
     ∨ ∃ e, (valueOf r).2
            = Some (Wrap e "not able to get calendar views for connected users")).
Proof.
  intros Hclient. cbv zeta. unfold syncUsers.
  destruct userIndex as [|u rest].
  { cbn. split; [by intros c ?%elem_of_nil|by left]. }
  pose proof (loadUsersFrom_calls (u :: rest) 0 0 [] w) as Hcalls.
  unfold valueOf, traceOf in *. unfold mbind, mret, M_bind, M_ret.
  destruct (loadUsersFrom 0 0 [] (u :: rest) w) as [[[failed users] c1] w1].
  cbn in Hcalls.
  destruct users as [|user users].
  { cbn. rewrite app_nil_r. split; [|by left].
    intros c Hc. destruct (Hcalls c Hc); auto. }
  unfold GetCalendarViews, Filter, call. unfold mbind, mret, M_bind, M_ret.
  pose proof (Hclient w1) as Hno.
  destruct (applyFilter withClient w1) as [[e|] w2]; [|done].
  cbn. split; [|right; by eexists].
  intros c [Hc|Hc]%elem_of_app; [destruct (Hcalls c Hc); auto|].
  right. right. by in_trace.
Qed.

(** *** Reminders that are due are sent *)

(** The clock reads [now] in every world that is [steady], the timezone of
    [id] is [tz], and the calls of [notifyUpcomingEvents] and
    [GetCalendarViews] lead from steady worlds to steady worlds. *)
Definition steadyAt (now : Z) (id tz : string) (steady : W → Prop) : Prop :=
  (∀ w, steady w → (timeNow w).1 = now ∧ steady (timeNow w).2)
  ∧ (∀ w, steady w → (getTimezoneByID id w).1 = Ok tz ∧ steady (getTimezoneByID id w).2)
  ∧ (∀ m w, steady w → steady (dm id m w).2)
  ∧ (∀ w, steady w → steady (applyFilter withClient w).2).

Lemma due_reminder_is_sent (now : Z) (id tz : string) (steady : W → Prop)
    (e : Event) (m : string) :
  steadyAt now id tz steady →
  IsCancelled e = false →
  inReminderWindow now e →
  RenderUpcomingEvent e tz = Ok m →
  ∀ (events : list Event) (timezone : string) w,
    timezone = "" ∨ timezone = tz →
    steady w →
    e ∈ events →
    CallDM id m ∈ traceOf (notifyUpcomingEventsFrom timezone id events w).
Proof.
  intros (Hclock & Htz & Hdm & _) Hlive Hdue Hrender.
  induction events as [|event rest IH]; intros timezone w Htimezone Hsteady Hin.
  { by apply elem_of_nil in Hin. }
  cbn [notifyUpcomingEventsFrom].
  destruct (IsCancelled event) eqn:Hevent.
  { apply IH; [done..|]. apply elem_of_cons in Hin as [->|Hin]; [congruence|done]. }
  pose proof (window_test now event) as Htest. cbv zeta in Htest.
  destruct (Hclock w Hsteady) as [Hnow Hsteady1].
  unfold mbind, M_bind.
  assert (time_Now w = (now, [], (timeNow w).2)) as ->.
  { unfold time_Now. destruct (timeNow w) as [now' w1]. cbn in Hnow. by subst. }
  set (w1 := (timeNow w).2) in *. clearbody w1.
  destruct (_ && _) eqn:Hwindow; cycle 1.
  { specialize (IH timezone w1 Htimezone Hsteady1). unfold traceOf in *.
    destruct (notifyUpcomingEventsFrom timezone id rest w1) as [[[] c] w4].
    cbn in *. apply IH. apply elem_of_cons in Hin as [->|Hin]; [|done].
    apply Htest in Hdue. congruence. }
  clear Hwindow Htest.
  assert (∃ c w2, (if (timezone =? "")%string then GetTimezoneByID id
                   else mret (Ok timezone)) w1 = (Ok tz, c, w2)
                  ∧ steady w2) as (c1 & w2 & -> & Hsteady2).
  { destruct (timezone =? "")%string eqn:Hempty.
    - destruct (Htz w1 Hsteady1) as [Hanswer Hsteady2].
      unfold GetTimezoneByID, call.
      destruct (getTimezoneByID id w1) as [answer w2]. cbn in Hanswer, Hsteady2.
      subst answer. by eexists _, _.
    - destruct Htimezone as [->| ->]; [done|]. by eexists _, _. }
  assert (e ∈ rest → ∀ w3, steady w3 →
          CallDM id m ∈ traceOf (notifyUpcomingEventsFrom tz id rest w3)) as Hrest.
  { intros Hin' w3 Hsteady3. by apply IH; [right|..]. }
  unfold traceOf in *.
  destruct (RenderUpcomingEvent event tz) as [message|e0] eqn:Hevent_render.
  - unfold Poster_DM, call, mbind, M_bind, Warnf.
    pose proof (Hdm message w2 Hsteady2) as Hsteady3.
    destruct (dm id message w2) as [err w3]. cbn [fst snd] in *.
    apply elem_of_cons in Hin as [->|Hin].
    { assert (message = m) as -> by congruence.
      destruct err as [e0|];
        destruct (notifyUpcomingEventsFrom tz id rest w3) as [[[] c] w4]; cbn;
        rewrite ?elem_of_app, ?elem_of_cons; auto. }
    specialize (Hrest Hin w3 Hsteady3).
    destruct err as [e0|];
      destruct (notifyUpcomingEventsFrom tz id rest w3) as [[[] c] w4]; cbn in *;
      rewrite ?elem_of_app, ?elem_of_cons; auto.
  - apply elem_of_cons in Hin as [->|Hin]; [congruence|].
    specialize (Hrest Hin w2 Hsteady2). unfold mbind, M_bind, Warnf.
    destruct (notifyUpcomingEventsFrom tz id rest w2) as [[[] c] w4]; cbn in *.
    rewrite ?elem_of_app, ?elem_of_cons; auto.
Qed.


(** Whatever the phase of the job, some run comes between ten and four and
    a half minutes before the event starts: the event then starts inside
    the window of the calendar view, and is due a reminder. *)
Lemma some_run_is_in_time (phase : Z) (e : Event) :
  ∃ k : Z,
    let now := phase + k * StatusSyncJobInterval in
    now ≤ Start e < now + calendarViewTimeWindowSize ∧ inReminderWindow now e.
Proof.
  unfold inReminderWindow, StatusSyncJobInterval, calendarViewTimeWindowSize, minute.
  set (a := Start e - phase - 270000000001).
  exists (a / 300000000000). cbv zeta.
  pose proof (Z.div_mod a 300000000000 ltac:(lia)) as Hdiv.
  pose proof (Z.mod_pos_bound a 300000000000 ltac:(lia)) as Hmod.
  subst a. lia.
Qed.

(** What [GetCalendarViews] asks the remote calendar for while the clock
    reads [now]: the views from [now] to ten minutes later. *)
Lemma GetCalendarViews_request (now : Z) (id tz : string) (steady : W → Prop)
    (users : list User) w :
  steadyAt now id tz steady →
  steady w →
  (applyFilter withClient w).1 = None →
  traceOf (GetCalendarViews users w)
  = [CallFilter withClient;
     CallDoBatchViewCalendarRequests
       (map (λ u, mkParams (RemoteID u) now (now + calendarViewTimeWindowSize)) users)].
Proof.
  intros (Hclock & _ & _ & Hfilter) Hsteady Hclient.
  unfold GetCalendarViews, traceOf. run.
  specialize (Hfilter w Hsteady).
  destruct (applyFilter withClient w) as [err w1]. cbn in *. subst err. cbn.
  destruct (Hclock w1 Hfilter) as [Hstart Hsteady2].
  destruct (timeNow w1) as [start w2]. cbn in *. subst start.
  destruct (Hclock w2 Hsteady2) as [Hend Hsteady3].
  destruct (timeNow w2) as [end_ w3]. cbn in *. subst end_.
  by destruct (doBatchViewCalendarRequests _ w3) as [views w4].
Qed.

(** X21. No reminder is missed for want of a run at the right time.
    Whatever the phase of a job that runs every [StatusSyncJobInterval],
    there is a run time [now] at which the event starts inside the ten
    minutes from [now] that [GetCalendarViews] asks the remote calendar
    for, and at which [notifyUpcomingEvents], given events that hold the
    event, sends its reminder: provided the event is not cancelled and can
    be rendered, the clock reads [now] during the run and the timezone of
    the user is found. *)
Theorem reminder_sent_on_some_run (phase : Z) (id tz : string) (event : Event)
    (m : string) :
  IsCancelled event = false →
  RenderUpcomingEvent event tz = Ok m →
  ∃ k : Z,
    let now := phase + k * StatusSyncJobInterval in
    now ≤ Start event < now + calendarViewTimeWindowSize
    ∧ ∀ (steady : W → Prop) w,
        steadyAt now id tz steady →
        steady w →
        (∀ users,
           (applyFilter withClient w).1 = None →
           traceOf (GetCalendarViews users w)
           = [CallFilter withClient;
              CallDoBatchViewCalendarRequests
                (map (λ u, mkParams (RemoteID u) now (now + calendarViewTimeWindowSize))
                     users)])
        ∧ (∀ events,
             event ∈ events →
             CallDM id m ∈ traceOf (notifyUpcomingEvents id events w)).
Proof.
  intros Hlive Hrender.
  destruct (some_run_is_in_time phase event) as (k & Hview & Hdue).
  exists k. cbv zeta. split; [done|].
  intros steady w Hsteady Hw. split.
  - intros users Hclient. by apply (GetCalendarViews_request _ id tz steady).
  - intros events Hin.
    by apply (due_reminder_is_sent _ id tz steady event m Hsteady Hlive Hdue Hrender
                events "" w); [left|..].
Qed.

End Further.

(** ** A world that stays as it is *)

Module Fixed.
Import Sample.

(** The collaborators that answer from a script, as [Sample.collaborators]
    does, over a world with nothing in it to change: the clock stands still
    and every call is answered the same way each time. *)
Definition fixed (script : World) : Collaborators unit := {|
  applyFilter := λ k _, ((applyFilter k script).1, tt);
  loadUserIndex := λ _, ((loadUserIndex script).1, tt);
  loadUserFromIndex := λ id _, ((loadUserFromIndex id script).1, tt);
  loadUser := λ id _, ((loadUser id script).1, tt);
  storeUser := λ u _, ((storeUser u script).1, tt);
  storeUserActiveEvents := λ id hashes _, ((storeUserActiveEvents id hashes script).1, tt);
  storeUserCustomStatusUpdates := λ id flag _,
    ((storeUserCustomStatusUpdates id flag script).1, tt);
  getMattermostUserStatusesByIds := λ ids _,
    ((getMattermostUserStatusesByIds ids script).1, tt);
  updateMattermostUserStatus := λ id s _, ((updateMattermostUserStatus id s script).1, tt);
  getMattermostUser := λ id _, ((getMattermostUser id script).1, tt);
  removeMattermostUserCustomStatus := λ id _,
    ((removeMattermostUserCustomStatus id script).1, tt);
  updateMattermostUserCustomStatus := λ id cs _,
    ((updateMattermostUserCustomStatus id cs script).1, tt);
  dmWithAttachments := λ id n _, ((dmWithAttachments id n script).1, tt);
  dm := λ id m _, ((dm id m script).1, tt);
  getTimezoneByID := λ id _, ((getTimezoneByID id script).1, tt);
  doBatchViewCalendarRequests := λ params _,
    ((doBatchViewCalendarRequests params script).1, tt);
  timeNow := λ _, ((timeNow script).1, tt)
|}.

End Fixed.

(** ** The further properties at work on the sample world *)

Lemma presence_changes_only_LastStatus_witness :
  withLastStatus alice (LastStatus alice) = alice.
Proof.
  apply (proj2 (presence_changes_only_LastStatus alice online (viewOf [meeting]) quiet)).
  apply list_elem_of_here.
Defined.

Lemma confirmation_decides_the_channel_witness :
  let asking := mkUser "alice" "r-alice" (mkSettings DNDStatusOption true false false)
                       "" [] false in
  (CallUpdateMattermostUserStatus "alice" "dnd"
     ∉ traceOf (setStatusFromCalendarView asking online (viewOf [meeting]) quiet))
  ∧ (CallDMWithAttachments "alice" (mkNotification [meeting] "dnd" confirmStatusChangeURL)
       ∉ traceOf (setStatusFromCalendarView alice online (viewOf [meeting]) quiet)).
Proof.
  intros asking. split.
  - apply (proj1 (confirmation_decides_the_channel asking online (viewOf [meeting]) quiet)).
    reflexivity.
  - apply (proj2 (confirmation_decides_the_channel alice online (viewOf [meeting]) quiet)).
    reflexivity.
Defined.

Lemma change_reported_only_after_acting_witness :
  ∃ u c rest,
    traceOf (setStatusFromCalendarView alice online (viewOf [meeting]) quiet)
    = CallStoreUser u :: c :: rest
    ∧ ((∃ s, c = CallUpdateMattermostUserStatus (MattermostUserID alice) s)
       ∨ (∃ n, c = CallDMWithAttachments (MattermostUserID alice) n)).
Proof.
  apply (proj1 (change_reported_only_after_acting alice online (viewOf [meeting]) quiet)).
  reflexivity.
Defined.

Lemma no_overlap_means_disjoint_witness :
  let later := mkEvent "uid-6" (tenOClock + 30 * minute) (tenOClock + 60 * minute)
                       "busy" false ["bob@x"] in
  let sorted := (checkOverlappingEvents [later; meeting]).2 in
  sorted ≡ₚ [later; meeting]
  ∧ ∀ (i j : nat) a b, (i < j)%nat → sorted !! i = Some a → sorted !! j = Some b →
      UnixMicro (Start a) ≤ UnixMicro (Start b)
      ∧ UnixMicro (End a) ≤ UnixMicro (Start b).
Proof.
  intros later. apply (no_overlap_means_disjoint [later; meeting]). reflexivity.
Defined.

Lemma already_busy_records_events_witness :
  traceOf (setStatusFromCalendarView alice dnd (viewOf [meeting]) quiet)
  = [CallStoreUser alice;
     CallStoreUserActiveEvents "alice" ["uid-1 2024-03-04T10:00:00Z"]].
Proof.
  refine (proj1 (already_busy_records_events alice dnd (viewOf [meeting]) meeting quiet
                   _ _ _ _ _ _)); try reflexivity.
  - discriminate.
  - intros (i & a & b & _ & Hb & _). vm_compute in Hb. destruct i; discriminate Hb.
  - simpl. lia.
Defined.

Lemma status_set_by_hand_comes_back_witness :
  let byHand := mkStatus "alice" StatusAway true in
  let loaded := mkUser "alice" "r-alice" dndMode "away" ["uid-1 2024-03-04T10:00:00Z"]
                       false in
  ∃ rest,
    traceOf (setStatusFromCalendarView loaded dnd (viewOf []) quiet)
    = CallStoreUser (withLastStatus loaded "")
      :: CallUpdateMattermostUserStatus "alice" "away" :: rest.
Proof.
  intros byHand loaded.
  refine (status_set_by_hand_comes_back alice byHand (viewOf [meeting]) meeting quiet
            _ _ _ _ _ _ _ _ _ ["uid-1 2024-03-04T10:00:00Z"] dnd (viewOf []) quiet quiet
            _ _ _ _); try reflexivity; try discriminate.
  - intros (i & a & b & _ & Hb & _). vm_compute in Hb. destruct i; discriminate Hb.
  - simpl. lia.
Defined.

Lemma custom_status_flag_follows_writes_witness :
  let user := mkUser "alice" "r-alice" (mkSettings NotSetStatusOption false false true)
                     "" [] false in
  ∃ e0, firstBusyEvent (viewOf [meeting]) = Some e0
        ∧ traceOf (setCustomStatusFromCalendarView user (viewOf [meeting]) quiet)
          = [CallGetMattermostUser "alice";
             CallUpdateMattermostUserCustomStatus "alice" (meetingStatus (End e0));
             CallStoreUserCustomStatusUpdates "alice" true].
Proof.
  intros user.
  apply (proj1 (custom_status_flag_follows_writes user (viewOf [meeting]) quiet)
           "alice" true).
  vm_compute. repeat (apply elem_of_cons; first [by left|right]).
Defined.


Lemma nothing_due_nothing_called_witness :
  traceOf (notifyUpcomingEvents (H1 := Fixed.fixed quiet) "alice" [cancelled; meeting] tt)
  = [].
Proof.
  apply (nothing_due_nothing_called (H1 := Fixed.fixed quiet) tenOClock).
  - intros []. reflexivity.
  - intros e [->|[->|Hnil%elem_of_nil]%elem_of_cons]%elem_of_cons; [by left| |done].
    right. unfold inReminderWindow. vm_compute. intros Hlt. discriminate Hlt.
Defined.

Lemma timezone_looked_up_once_witness :
  (length (timezoneLookupsIn
             (traceOf (notifyUpcomingEvents (H1 := Fixed.fixed quiet) "alice"
                         [soon; soon] tt))) ≤ 1)%nat.
Proof.
  apply (timezone_looked_up_once (H1 := Fixed.fixed quiet)).
  intros [] tz Htz. vm_compute in Htz. injection Htz as <-. discriminate.
Defined.

Lemma reminders_only_to_subscribers_witness :
  let carol := mkUser "carol" "r-carol" (mkSettings NotSetStatusOption false true false)
                      "" [] false in
  let views := [mkView "r-carol" [soon] None] in
  ∃ u view e tz,
    u ∈ [alice; carol] ∧ ReceiveReminders (UserSettings u) = true
    ∧ MattermostUserID u = "carol"
    ∧ view ∈ views ∧ ViewError view = None ∧ RemoteUserID view = RemoteID u
    ∧ e ∈ Events view ∧ IsCancelled e = false
    ∧ RenderUpcomingEvent e tz = Ok "Upcoming: uid-5 (UTC)".
Proof.
  intros carol views.
  apply (reminders_only_to_subscribers [alice; carol] views quiet).
  vm_compute. repeat (apply elem_of_cons; first [by left|right]).
Defined.

Lemma sync_summary_counts_the_index_witness :
  let '(out, summary, err) :=
    valueOf (syncUsers [mkUserShort "alice" "r-alice"] quiet) in
  ∃ s, summary = Some s
       ∧ NumberOfUsersProcessed s = 1%nat
       ∧ ((valueOf (loadUsersFrom 0 0 [] [mkUserShort "alice" "r-alice"] quiet)).1
          ≤ NumberOfUsersFailedStatusChanged s)%nat
       ∧ (err ≠ None → out = "" ∧ NumberOfUsersStatusChanged s = 0%nat).
Proof.
  exact (sync_summary_counts_the_index [mkUserShort "alice" "r-alice"] quiet).
Defined.

Lemma nobody_to_sync_no_remote_call_witness :
  let idle := mkUser "erin" "r-erin" (mkSettings NotSetStatusOption false false false)
                     "" [] false in
  let script :=
    mkWorld tenOClock None None (Ok [mkUserShort "erin" "r-erin"]) [idle] (Ok []) (Ok [])
            (Ok (mkMattermostUser None)) (Ok "UTC") None None None in
  let r := syncUsers (H1 := Fixed.fixed script) [mkUserShort "erin" "r-erin"] tt in
  (valueOf r).2 = None
  ∧ (valueOf r).1.1 = "No users need to be synced"
  ∧ ∀ c, c ∈ traceOf r → (∃ id, c = CallLoadUser id) ∨ (∃ m, c = CallWarnf m).
Proof.
  intros idle script.
  apply (nobody_to_sync_no_remote_call (H1 := Fixed.fixed script)
           [mkUserShort "erin" "r-erin"] tt).
  intros id [] u. subst script. cbn -[String.eqb]. unfold findUser. cbn -[String.eqb].
  destruct (String.eqb "erin" id); intros Hu; [|discriminate Hu].
  injection Hu as <-. reflexivity.
Defined.

Lemma no_client_nobody_touched_witness :
  let script :=
    mkWorld tenOClock None (Some "no token") (Ok [mkUserShort "alice" "r-alice"]) [alice]
            (Ok []) (Ok []) (Ok (mkMattermostUser None)) (Ok "UTC") None None None in
  let r := syncUsers (H1 := Fixed.fixed script) [mkUserShort "alice" "r-alice"] tt in
  (∀ c, c ∈ traceOf r →
     (∃ id, c = CallLoadUser id) ∨ (∃ m, c = CallWarnf m) ∨ c = CallFilter withClient)
  ∧ ((valueOf r).2 = None
     ∨ ∃ e, (valueOf r).2
            = Some (Wrap e "not able to get calendar views for connected users")).
Proof.
  intros script.
  apply (no_client_nobody_touched (H1 := Fixed.fixed script)
           [mkUserShort "alice" "r-alice"] tt).
  intros []. discriminate.
Defined.

Lemma reminder_sent_on_some_run_witness :
  let at_ (now : Z) :=
    mkWorld now None None (Ok []) [] (Ok []) (Ok []) (Ok (mkMattermostUser None))
            (Ok "UTC") None None None in
  ∃ k : Z,
    let now := tenOClock + k * StatusSyncJobInterval in
    now ≤ Start soon < now + calendarViewTimeWindowSize
    ∧ traceOf (GetCalendarViews [alice] (at_ now))
      = [CallFilter withClient;
         CallDoBatchViewCalendarRequests
           [mkParams "r-alice" now (now + calendarViewTimeWindowSize)]]
    ∧ CallDM "alice" "Upcoming: uid-5 (UTC)"
      ∈ traceOf (notifyUpcomingEvents "alice" [cancelled; soon] (at_ now)).
Proof.
  intros at_.
  assert (RenderUpcomingEvent soon "UTC" = Ok "Upcoming: uid-5 (UTC)") as Hrender
    by reflexivity.
  destruct (reminder_sent_on_some_run (W := World) tenOClock "alice" "UTC" soon
              "Upcoming: uid-5 (UTC)" eq_refl Hrender) as (k & Hview & Hrun).
  exists k. cbv zeta in *. split; [exact Hview|].
  set (now := tenOClock + k * StatusSyncJobInterval) in *.
  assert (steadyAt now "alice" "UTC" (λ w, w = at_ now)) as Hsteady.
  { repeat split; by intros; subst. }
  destruct (Hrun (λ w, w = at_ now) (at_ now) Hsteady eq_refl) as [Hrequest Hsent].
  split.
  - exact (Hrequest [alice] eq_refl).
  - apply Hsent. apply elem_of_cons. right. apply elem_of_cons. by left.
Defined.
